(** * Taskbar reconciliation, drag-and-drop and allocation

    A shallow embedding of [DragAndDropHandler], [TaskbarAllocation] and
    [Taskbar] (ui/taskbar.js of the Rocketbar extension) together with the
    properties of the reconciliation / drag-drop engine.

    JavaScript objects are references into a heap of components, because
    the code compares them by identity and destroys them in place.  A JS
    [Map] or [Set] is an insertion-ordered list without repeated keys. *)

From Stdlib Require Import List ZArith Lia Bool Arith PeanoNat Sorted.
Import ListNotations.

Set Implicit Arguments.

(** ** Insertion-ordered containers of the language runtime *)

Module Js.

Section Containers.
Variables K V : Type.
Variable eqb : K -> K -> bool.

(** [Array.prototype.splice(i, 0, x)] for [i >= 0]: an index past the
    end appends. *)
Definition splice (A : Type) (i : nat) (x : A) (l : list A) : list A :=
  firstn i l ++ x :: skipn i l.

(** [Set.prototype.has] *)
Definition setHas (s : list K) (k : K) : bool := existsb (eqb k) s.

(** [Set.prototype.add]: a member keeps its place, a new one goes last. *)
Definition setAdd (s : list K) (k : K) : list K :=
  if setHas s k then s else s ++ [k].

(** [new Set(iterable)] *)
Definition setFrom (l : list K) : list K := fold_left setAdd l [].

(** [Map.prototype.get] *)
Fixpoint mapGet (m : list (K * V)) (k : K) : option V :=
  match m with
  | [] => None
  | (k', v) :: m' => if eqb k k' then Some v else mapGet m' k
  end.

(** [Map.prototype.has] *)
Definition mapHas (m : list (K * V)) (k : K) : bool :=
  existsb (fun e => eqb k (fst e)) m.

(** [Map.prototype.set]: an existing key keeps its place in the
    iteration order and takes the new value, a new key goes last. *)
Fixpoint mapSet (m : list (K * V)) (k : K) (v : V) : list (K * V) :=
  match m with
  | [] => [(k, v)]
  | (k', v') :: m' =>
      if eqb k k' then (k', v) :: m' else (k', v') :: mapSet m' k v
  end.

(** [Map.prototype.delete] *)
Definition mapDelete (m : list (K * V)) (k : K) : list (K * V) :=
  filter (fun e => negb (eqb k (fst e))) m.

(** [new Map(entries)] *)
Definition mapFrom (l : list (K * V)) : list (K * V) :=
  fold_left (fun m e => mapSet m (fst e) (snd e)) l [].
End Containers.

End Js.

(** ** Components *)

Definition App := nat.
Definition Workspace := nat.

(** A handle on a component object; two handles are [===] when equal. *)
Definition Ref := nat.

(** [Mtk.Rectangle] has integer fields. *)
Record Rectangle := mkRect { x : Z; y : Z; width : Z; height : Z }.

Definition newRectangle : Rectangle := mkRect 0 0 0 0.

(** What [instanceof] tells apart. *)
Inductive Kind :=
| AppButton (app : App)
| Separator
| Widget.

(** Modelled from the spec: [Component], [AppButton] and [Separator] are
    not part of the sources at hand.  Section 3 gives an Item an
    application (AppItem only), a favorite flag, a rectangle owned by the
    rendering layer and a validity flag that is false once destroyed.
    [superRect] is what [Component.rect] reports, [allocationBox] the
    [x1]/[y1] of the actor's allocation box and [isVisible] the
    visibility of the actor. *)
Record Component := mkComponent {
  kind : Kind;
  isValid : bool;
  isFavorite : bool;
  isDropCandidate : bool;
  superRect : option Rectangle;
  allocationBox : Z * Z;
  isVisible : bool
}.

Definition Heap := list Component.

Definition appOf (c : Component) : option App :=
  match kind c with AppButton a => Some a | _ => None end.

(** [Button.rect] (ui/base/button.js) answers [null] for an invalid
    button before it asks the base class; the width correction from the
    style is part of what the rendering layer reports here. *)
Definition rect (c : Component) : option Rectangle :=
  match kind c with
  | AppButton _ => if isValid c then superRect c else None
  | _ => superRect c
  end.

Module Heap.

Definition get (h : Heap) (r : Ref) : option Component := nth_error h r.

Definition valid (h : Heap) (r : Ref) : bool :=
  match get h r with Some c => isValid c | None => false end.

Definition favorite (h : Heap) (r : Ref) : bool :=
  match get h r with Some c => isFavorite c | None => false end.

Definition app (h : Heap) (r : Ref) : option App :=
  match get h r with Some c => appOf c | None => None end.

Fixpoint update (h : Heap) (r : Ref) (f : Component -> Component) : Heap :=
  match h, r with
  | [], _ => []
  | c :: h', O => f c :: h'
  | c :: h', S r' => c :: update h' r' f
  end.

(** Modelled from the spec: [destroy()] of a component.  Section 3:
    [isValid] is false once the item is destroyed. *)
Definition destroy (h : Heap) (r : Ref) : Heap :=
  update h r (fun c =>
    mkComponent (kind c) false (isFavorite c) (isDropCandidate c)
                (superRect c) (allocationBox c) (isVisible c)).

(** [x?.destroy()] *)
Definition destroyOpt (h : Heap) (r : option Ref) : Heap :=
  match r with Some r => destroy h r | None => h end.

(** Allocation of a new object: its handle is the next free one. *)
Definition alloc (h : Heap) (c : Component) : Heap * Ref :=
  (h ++ [c], length h).

End Heap.

(** [a === b] where either side may be [undefined]; the operands that
    reach these comparisons are objects or [undefined], and the left one
    is always an object. *)
Definition sameRef (a b : option Ref) : bool :=
  match a, b with
  | Some r, Some r' => Nat.eqb r r'
  | _, _ => false
  end.

(** ** DragAndDropHandler *)

(** The type [DropCompetitor], [{competitor, rect}]: a slot. *)
Record Slot := mkSlot {
  competitor : Ref;
  slotRect : Rectangle
}.

(** The dragged payload: an existing component of the taskbar
    ([identity] is its handle) or a foreign object that carries an
    application ([identity] is [None]: it is [===] to no competitor). *)
Record Target := mkTarget {
  identity : option Ref;
  targetApp : App
}.

(** [{x, y, target, actor}]; the drag actor is only handed to the
    signal registry. *)
Record DragParams := mkDragParams {
  dragX : Z;
  dragY : Z;
  target : Target
}.

(** What the toolkit reports while a drag is handled: the rectangle and
    the transformed position of the parent, and the geometry of a button
    that has just been created. *)
Record Toolkit := mkToolkit {
  parentRect0 : option Rectangle;
  parentPosition : Z * Z;
  newButtonRect : option Rectangle;
  newButtonAllocation : Z * Z
}.

Module DragAndDropHandler.

Record t := mk {
  slots : option (list Slot);
  parent : bool;
  candidate : option Ref;
  candidatePosition : Z;
  destroyCallback : bool;
  hasClient : bool
}.

(** The function [DropCompetitor(competitor, xyRect)]. *)
Definition DropCompetitor (h : Heap) (r : Ref) (xyRect : option Rectangle)
  : Slot :=
  let c := Heap.get h r in
  let rct := match c with
             | Some c => match rect c with Some q => q | None => newRectangle end
             | None => newRectangle
             end in
  match xyRect with
  | Some xy => mkSlot r (mkRect (x xy) (y xy) (width rct) (height rct))
  | None =>
      let box := match c with Some c => allocationBox c | None => (0, 0)%Z end in
      mkSlot r (mkRect (fst box) (snd box) (width rct) (height rct))
  end.

(** [get #parentRect] *)
Definition parentRect (tk : Toolkit) (d : t) : Rectangle :=
  match parent d, parentRect0 tk with
  | true, Some q =>
      mkRect (x q - fst (parentPosition tk)) (y q - snd (parentPosition tk))
             (width q) (height q)
  | _, _ => newRectangle
  end.

(** [constructor(parent, competitors, destroyCallback)] with a parent, a
    competitor array and a callback that is a function. *)
Definition new (h : Heap) (competitors : list Ref) : t :=
  mk (Some (map (fun r => DropCompetitor h r None)
                (filter (Heap.valid h) competitors)))
     true None (-1) true false.

(** [destroy()]; the second component tells whether the destroy callback
    has to be run by the owner. *)
Definition destroy (h : Heap) (d : t) : Heap * t * bool :=
  (Heap.destroyOpt h (candidate d),
   mk None false None (candidatePosition d) false false,
   destroyCallback d).

(** Modelled from the spec: [new AppButton(app, true)], the ephemeral
    candidate of section 4.2; a new item is valid. *)
Definition newCandidate (tk : Toolkit) (a : App) : Component :=
  mkComponent (AppButton a) true false true
              (newButtonRect tk) (newButtonAllocation tk) true.

(** The scan of [handleDrag]: the first slot, from index [i] on, whose
    rectangle spans [px]. *)
Fixpoint scan (px : Z) (sl : list Slot) (i : nat)
  : option (nat * Rectangle) :=
  match sl with
  | [] => None
  | s :: sl' =>
      let q := slotRect s in
      if ((px <? x q) || (px >? x q + width q))%Z then scan px sl' (S i)
      else Some (i, q)
  end.

(** [this.#slots[i]?.competitor] for an index that may be [-1]. *)
Definition competitorAt (sl : list Slot) (i : Z) : option Ref :=
  if (i <? 0)%Z then None
  else option_map competitor (nth_error sl (Z.to_nat i)).

(** The value of the local [position] of [handleDrag] once the scan and
    the append-after-target case are through, for pruned slots [sl]. *)
Definition resolvePosition (px : Z) (sl : list Slot) (tg : Target)
  : nat :=
  let position := match scan px sl 0 with
                  | Some (i, _) => i
                  | None => length sl
                  end in
  let competitorBeforePosition := competitorAt sl (Z.of_nat position - 1) in
  let lastSlotPosition := (Z.of_nat (length sl) - 1)%Z in
  if sameRef (identity tg) competitorBeforePosition
     && (Z.of_nat position =? lastSlotPosition)%Z
  then S position else position.

(** [handleDrag(params)]: the new heap, the new handler and the
    competitor that is returned. *)
Definition handleDrag (tk : Toolkit) (h : Heap) (d : t)
           (params : option DragParams) : Heap * t * option Ref :=
  match params, slots d, parent d with
  | Some p, Some slots0, true =>
      let tg := target p in
      (* #watchDragActor *)
      let watched := true in
      let px := (x (parentRect tk d) + dragX p)%Z in
      let sl := filter (fun s => Heap.valid h (competitor s)) slots0 in
      let position := length sl in
      let candPos := if (candidatePosition d >? Z.of_nat position)%Z
                     then Z.of_nat position else candidatePosition d in
      let found := scan px sl 0 in
      let position := match found with Some (i, _) => i | None => position end in
      let slotRect := option_map snd found in
      let competitorAtPosition := competitorAt sl (Z.of_nat position) in
      let competitorBeforePosition := competitorAt sl (Z.of_nat position - 1) in
      let lastSlotPosition := (Z.of_nat (length sl) - 1)%Z in
      let appendAfter := sameRef (identity tg) competitorBeforePosition
                         && (Z.of_nat position =? lastSlotPosition)%Z in
      if negb appendAfter
         && (sameRef (identity tg) competitorAtPosition
             || sameRef (identity tg) competitorBeforePosition)
      then
        (Heap.destroyOpt h (candidate d),
         mk (Some sl) true None candPos (destroyCallback d) watched,
         competitorAtPosition)
      else
        let position := if appendAfter then S position else position in
        let slotRect := if appendAfter then None else slotRect in
        let keep := match candidate d with
                    | Some c =>
                        (candPos =? Z.of_nat position)%Z
                        || sameRef competitorAtPosition (Some c)
                        || sameRef competitorBeforePosition (Some c)
                    | None => false
                    end in
        if keep then
          (h,
           mk (Some sl) true (candidate d) (Z.of_nat position)
              (destroyCallback d) watched,
           competitorAtPosition)
        else
          let h1 := Heap.destroyOpt h (candidate d) in
          let (h2, c) := Heap.alloc h1 (newCandidate tk (targetApp tg)) in
          let sl' := match slotRect with
                     | Some q => Js.splice position (DropCompetitor h2 c (Some q)) sl
                     | None => sl
                     end in
          (h2,
           mk (Some sl') true (Some c) (Z.of_nat position)
              (destroyCallback d) watched,
           competitorAtPosition)
  | _, _, _ => (h, d, None)
  end.

(** [handleDrop()] *)
Definition handleDrop (h : Heap) (d : t) : option (Ref * list Ref) * t :=
  match slots d, candidate d with
  | Some sl, Some c =>
      let set := Js.setFrom Nat.eqb
                   (filter (Heap.valid h) (map competitor sl)) in
      let set := if Js.setHas Nat.eqb set c then set else Js.setAdd Nat.eqb set c in
      (Some (c, set),
       mk (slots d) (parent d) None (candidatePosition d)
          (destroyCallback d) (hasClient d))
  | _, _ => (None, d)
  end.

(** [#handleDragActorPosition(actor)] for an actor whose box does (or
    does not) intersect the rectangle of the parent. *)
Definition handleDragActorPosition (h : Heap) (d : t)
           (parentRct : option Rectangle) (parentContainsActor : bool)
  : Heap * t :=
  match parentRct with
  | None => (h, d)
  | Some _ =>
      if parentContainsActor then (h, d)
      else (Heap.destroyOpt h (candidate d),
            mk (slots d) (parent d) None (candidatePosition d)
               (destroyCallback d) (hasClient d))
  end.

End DragAndDropHandler.

(** The pointer position [px] lies in the rectangle, as the scan of
    [handleDrag] tests it. *)
Definition spans (q : Rectangle) (px : Z) : Prop :=
  (x q <= px <= x q + width q)%Z.

(** Slots in ascending order of the left edge of their rectangles. *)
Definition ascending (sl : list Slot) : Prop :=
  StronglySorted (fun s s' => (x (slotRect s) <= x (slotRect s'))%Z) sl.

(** ** TaskbarAllocation *)

(** [Delay] of core/enums.js, by name; [NoDelay] is the literal [0]. *)
Inductive Delay := NoDelay | Redraw | Scheduled | Queue.

(** [AnimationDuration] of ui/base/animation.js, by name; [Instant] is
    the literal [0]. *)
Inductive Duration := Instant | Faster | Slower.

(** Modelled from the spec: a [Job] of core/context/jobs.js is not part
    of the sources at hand.  Section 4.3: [reset(delay).queue(callback)]
    schedules one coalesced call of the callback after the delay,
    replacing what was scheduled before. *)
Record Job := mkJob {
  jobDelay : Delay;
  jobQueued : bool
}.

(** What [update()] does to its collaborators, in the order it does it. *)
Inductive Effect :=
| RemoveAllTransitions
| SetScrollLimit (offset : Z)
| ScrollToPosition (offset : Z)
| Animate (duration : Duration) (toWidth : Z) (delay : Delay).

(** The readouts of the scroll view, and whether [scrollToPosition]
    answers with a job ([null] means that there is nothing to scroll). *)
Record Viewport := mkViewport {
  pageSize : Z;
  scrollSize : Z;
  scrollPosition : Z;
  scrollJob : Z -> bool
}.

Definition APP_ALLOCATION_THRESHOLD : nat := 2.

Module TaskbarAllocation.

Record t := mk {
  isDragMode : bool;
  isUpdating : bool;
  actor : bool;
  allocation : option (list (Ref * Z));
  job : option Job;
  taskbar : bool
}.

Definition new : t := mk false false true (Some []) (Some (mkJob Redraw false)) true.

(** The loop of [get #allocationSize]: [apps] counts the instances seen
    of each application. *)
Fixpoint allocationLoop (h : Heap) (entries : list (Ref * Z))
         (apps : list (App * nat)) (result : Z) : Z :=
  match entries with
  | [] => result
  | (source, size) :: rest =>
      match Heap.app h source with
      | Some a =>
          let count := match Js.mapGet Nat.eqb apps a with
                       | Some n => n
                       | None => 0
                       end in
          if APP_ALLOCATION_THRESHOLD <=? count
          then allocationLoop h rest apps result
          else allocationLoop h rest (Js.mapSet Nat.eqb apps a (count + 1))
                              (result + size)
      | None => allocationLoop h rest apps (result + size)
      end
  end.

(** [get #allocationSize] *)
Definition allocationSize (h : Heap) (a : t) : Z :=
  match allocation a with
  | None | Some [] => 0%Z
  | Some entries => allocationLoop h entries [] 0
  end.

(** [this.#job?.reset(delay).queue(() => this.update())] *)
Definition schedule (j : option Job) (d : Delay) : option Job :=
  match j with
  | Some _ => Some (mkJob d true)
  | None => None
  end.

(** [add(source)]; [None] stands for a source that is [null]. *)
Definition add (h : Heap) (a : t) (source : option Ref) : t :=
  match source, allocation a with
  | Some s, Some al =>
      match option_map rect (Heap.get h s) with
      | Some (Some q) =>
          mk (isDragMode a) (isUpdating a) (actor a)
             (Some (Js.mapSet Nat.eqb al s (width q)))
             (schedule (job a) Redraw) (taskbar a)
      | _ => a
      end
  | _, _ => a
  end.

(** [remove(source)] *)
Definition remove (a : t) (source : option Ref) : t :=
  match source, allocation a with
  | Some s, Some al =>
      if Js.mapHas Nat.eqb al s then
        let delay := if isDragMode a then Scheduled else Redraw in
        mk (isDragMode a) (isUpdating a) (actor a)
           (Some (Js.mapDelete Nat.eqb al s))
           (schedule (job a) delay) (taskbar a)
      else a
  | _, _ => a
  end.

(** The closure [allocate] of [update()], which carries the width, the
    duration and the delay that were computed before the [await]. *)
Record Allocate := mkAllocate {
  toWidth : Z;
  duration : Duration;
  delay : Delay
}.

Definition allocate (a : t) (k : Allocate) : list Effect :=
  if actor a then [Animate (duration k) (toWidth k) (delay k)] else [].

(** [update()] up to its [await]: the new state, what was done so far,
    and the closure that is left suspended on the scroll job, if any. *)
Definition update (vp : Viewport) (h : Heap) (a : t)
  : t * list Effect * option Allocate :=
  match allocation a, actor a, taskbar a with
  | Some _, true, true =>
      let a1 := mk (isDragMode a) false (actor a) (allocation a) (job a)
                   (taskbar a) in
      let w := allocationSize h a1 in
      let scrollOffset := Z.max 0 (w - pageSize vp) in
      let dur := if (w >=? scrollSize vp)%Z
                 then (if isDragMode a1 then Instant else Faster)
                 else Slower in
      let dly := if (w >=? scrollSize vp)%Z then NoDelay else Queue in
      let k := mkAllocate w dur dly in
      let done := [RemoveAllTransitions; SetScrollLimit scrollOffset] in
      if (scrollOffset >? scrollPosition vp)%Z
      then (a1, done ++ allocate a1 k, None)
      else if scrollJob vp scrollOffset
      then (mk (isDragMode a) true (actor a) (allocation a) (job a) (taskbar a),
            done ++ [ScrollToPosition scrollOffset], Some k)
      else (a1, done ++ [ScrollToPosition scrollOffset] ++ allocate a1 k, None)
  | _, _, _ => (a, [], None)
  end.

(** [update()] after its [await]: [a] is the state found on resumption,
    [scrollJobResult] what the scroll job resolved to. *)
Definition resume (a : t) (k : Allocate) (scrollJobResult : bool)
  : t * list Effect :=
  if negb scrollJobResult || negb (isUpdating a) then (a, [])
  else
    let a1 := mk (isDragMode a) false (actor a) (allocation a) (job a)
                 (taskbar a) in
    (a1, allocate a1 k).

End TaskbarAllocation.

(** The entry of the allocation map belongs to an [AppButton] bound to
    the application [a]. *)
Definition boundTo (h : Heap) (a : App) (e : Ref * Z) : bool :=
  match Heap.app h (fst e) with
  | Some b => Nat.eqb b a
  | None => false
  end.

(** The entry of the allocation map belongs to an [AppButton]. *)
Definition ofAppButton (h : Heap) (e : Ref * Z) : bool :=
  match Heap.app h (fst e) with
  | Some _ => true
  | None => false
  end.

(** The sum of the recorded sizes. *)
Definition totalSize (entries : list (Ref * Z)) : Z :=
  fold_right (fun e acc => (snd e + acc)%Z) 0%Z entries.

(** ** Taskbar *)

(** A key of the map [#appButtons]: an application, or one of the
    object literals [{ app }], each of which is a new object and so a key
    equal to no other. *)
Inductive Key :=
| KApp (a : App)
| KObj (n : nat).

Definition key_eqb (k k' : Key) : bool :=
  match k, k' with
  | KApp a, KApp a' => Nat.eqb a a'
  | KObj n, KObj n' => Nat.eqb n n'
  | _, _ => false
  end.

(** Modelled from the spec: the favorites collaborator of section 6,
    [apps], [canAdd(app)], [add(app, position)] and [remove(app)]; its
    code is not part of the sources at hand. *)
Record Favorites := mkFavorites {
  apps : list App;
  canAdd : App -> bool
}.

(** Modelled from the spec: [Favorites.remove(app)] takes the
    application out of the ordered set. *)
Definition favoritesRemove (f : Favorites) (a : App) : Favorites :=
  mkFavorites (filter (fun b => negb (Nat.eqb a b)) (apps f)) (canAdd f).

(** Modelled from the spec: [Favorites.add(app, position)] puts the
    application at the position, moving it when it is a favorite
    already; a position of [-1] stands for the end. *)
Definition favoritesAdd (f : Favorites) (a : App) (position : Z) : Favorites :=
  let others := filter (fun b => negb (Nat.eqb a b)) (apps f) in
  mkFavorites (if (position <? 0)%Z then others ++ [a]
               else Js.splice (Z.to_nat position) a others)
              (canAdd f).

(** [TaskbarClient]: the active workspace, the favorites and the query
    of the running applications, [queryApps(isolateWorkspaces,
    showAllWindows)]. *)
Record TaskbarClient := mkTaskbarClient {
  workspace : option Workspace;
  favorites : option Favorites;
  queryApps : bool -> bool -> option (list App)
}.

Record Config := mkConfig {
  enableSeparator : bool;
  showAllWindows : bool;
  isolateWorkspaces : bool
}.

(** A dragged payload as [#handleDragOver] receives it. *)
Inductive Payload :=
| PComponent (r : Ref)
| PForeign (a : App).

Module Taskbar.

(** The fields of the class, the heap of components they point into,
    and what the base class and the layout context answer
    ([isValid], [hasAllocation], [Context.layout.isQueued(this)]).
    Modelled from the spec: [setParent(parent, position)] of [Component]
    is not part of the sources at hand; [placed] is the sequence of
    buttons in the order of the positions they were last given by
    [#rerender], [separatorIndex] the position last given to the
    separator. *)
Record t := mk {
  heap : Heap;
  objects : nat;
  valid : bool;
  hasAllocation : bool;
  isQueued : bool;
  allocation : option TaskbarAllocation.t;
  config : Config;
  runningApps : list (Workspace * list App);
  appButtons : option (list (Key * Ref));
  service : option TaskbarClient;
  dndHandler : option DragAndDropHandler.t;
  separator : option Ref;
  separatorPosition : Z;
  placed : list Ref;
  separatorIndex : Z
}.

Definition setHeap (t0 : t) (h : Heap) : t :=
  mk h (objects t0) (valid t0) (hasAllocation t0) (isQueued t0)
     (allocation t0) (config t0) (runningApps t0) (appButtons t0)
     (service t0) (dndHandler t0) (separator t0) (separatorPosition t0)
     (placed t0) (separatorIndex t0).

Definition setRunningApps (t0 : t) (c : list (Workspace * list App)) : t :=
  mk (heap t0) (objects t0) (valid t0) (hasAllocation t0) (isQueued t0)
     (allocation t0) (config t0) c (appButtons t0)
     (service t0) (dndHandler t0) (separator t0) (separatorPosition t0)
     (placed t0) (separatorIndex t0).

Definition setDndHandler (t0 : t) (d : option DragAndDropHandler.t) : t :=
  mk (heap t0) (objects t0) (valid t0) (hasAllocation t0) (isQueued t0)
     (allocation t0) (config t0) (runningApps t0) (appButtons t0)
     (service t0) d (separator t0) (separatorPosition t0)
     (placed t0) (separatorIndex t0).

(** [this.#service?.favorites?.apps] *)
Definition favoriteApps (t0 : t) : option (list App) :=
  match service t0 with
  | Some s => option_map apps (favorites s)
  | None => None
  end.

(** [#getRunningApps()] *)
Definition getRunningApps (t0 : t) : t * option (list App) :=
  match service t0 with
  | Some s =>
      match workspace s with
      | Some ws =>
          let runningApps0 :=
            queryApps s (isolateWorkspaces (config t0))
                        (showAllWindows (config t0)) in
          match runningApps0 with
          | None | Some [] =>
              (setRunningApps t0 (Js.mapDelete Nat.eqb (runningApps t0) ws),
               runningApps0)
          | Some ra =>
              if negb (Js.mapHas Nat.eqb (runningApps t0) ws)
              then (setRunningApps t0 (Js.mapSet Nat.eqb (runningApps t0) ws ra),
                    Some ra)
              else
                let oldRunningApps :=
                  match Js.mapGet Nat.eqb (runningApps t0) ws with
                  | Some s => s
                  | None => []
                  end in
                let newRunningApps :=
                  Js.setFrom Nat.eqb
                    (filter (Js.setHas Nat.eqb ra) oldRunningApps) in
                let ra' := Js.setFrom Nat.eqb (newRunningApps ++ ra) in
                (setRunningApps t0 (Js.mapSet Nat.eqb (runningApps t0) ws ra'),
                 Some ra')
          end
      | None => (t0, None)
      end
  | None => (t0, None)
  end.

(** The desired set [apps] of [#rerender]. *)
Definition desiredApps (favoriteApps runningApps : option (list App))
  : option (list App) :=
  match favoriteApps, runningApps with
  | Some f, Some r => Some (Js.setFrom Nat.eqb (f ++ r))
  | None, _ => runningApps
  | Some f, None => Some f
  end.

(** Modelled from the spec: [new AppButton(app)], whose code is not part
    of the sources at hand.  A new item is valid, and by section 3 its
    favorite flag tells whether it sits before the separator, which for
    a button made by [#rerender] is whether its application is among
    the favorites. *)
Definition newAppButton (tk : Toolkit) (favs : option (list App)) (a : App)
  : Component :=
  mkComponent (AppButton a) true
              (match favs with
               | Some f => Js.setHas Nat.eqb f a
               | None => false
               end)
              false (newButtonRect tk) (newButtonAllocation tk) true.

(** The locals of the first loop of [#rerender]. *)
Record Pass := mkPass {
  passHeap : Heap;
  newButtons : list (Key * Ref);
  oldFavorites : list App;
  sortedAppButtons : list Ref
}.

(** The local [isFavoriteChanged] of the first loop, for the valid old
    button [b] of the application [a]. *)
Definition isFavoriteChanged (h : Heap) (sepPos : Z) (favs : option (list App))
           (a : App) (b : Ref) : bool :=
  match favs with
  | Some f =>
      negb (sepPos =? -1)%Z
      && negb (Bool.eqb (Heap.favorite h b) (Js.setHas Nat.eqb f a))
  | None => false
  end.

(** The body of [for (const app of apps)]. *)
Definition visit (tk : Toolkit) (old : list (Key * Ref)) (sepPos : Z)
           (favs : option (list App)) (p : Pass) (a : App) : Pass :=
  let create (oldFavs : list App) :=
    let (h1, b) := Heap.alloc (passHeap p) (newAppButton tk favs a) in
    mkPass h1 (Js.mapSet key_eqb (newButtons p) (KApp a) b) oldFavs
           (sortedAppButtons p ++ [b]) in
  match Js.mapGet key_eqb old (KApp a) with
  | Some b =>
      if Heap.valid (passHeap p) b then
        if negb (isFavoriteChanged (passHeap p) sepPos favs a b)
        then mkPass (passHeap p) (Js.mapSet key_eqb (newButtons p) (KApp a) b)
                    (oldFavorites p) (sortedAppButtons p ++ [b])
        else create (Js.setAdd Nat.eqb (oldFavorites p) a)
      else create (oldFavorites p)
  | None => create (oldFavorites p)
  end.

(** The loop under [if (oldFavorites.size)]: the heap, the count of
    object literals and the map [oldAppButtons]. *)
Fixpoint retire (oldFavs : list App) (entries : list (Key * Ref))
         (h : Heap) (n : nat) (acc : list (Key * Ref))
  : Heap * nat * list (Key * Ref) :=
  match entries with
  | [] => (h, n, acc)
  | (k, b) :: rest =>
      let flipped := match k with
                     | KApp a => Js.setHas Nat.eqb oldFavs a
                     | KObj _ => false
                     end in
      if flipped then
        let acc1 := if negb (Heap.favorite h b)
                    then Js.mapSet key_eqb acc k b else acc in
        let acc2 := Js.mapSet key_eqb acc1 (KObj n) b in
        retire oldFavs rest (Heap.destroy h b) (S n) acc2
      else retire oldFavs rest h n (Js.mapSet key_eqb acc k b)
  end.

(** The locals of the loop over [mergedAppButtons]. *)
Record Merge := mkMerge {
  counter : Z;
  mergedButtons : list (Key * Ref);
  mergedSorted : list Ref;
  mergedSeparator : Z
}.

(** The body of [for (const [app, appButton] of mergedAppButtons)]. *)
Definition absorb (h : Heap) (hasFavoritesApps : bool) (m : Merge)
           (e : Key * Ref) : Merge :=
  let (k, b) := e in
  if negb (Heap.valid h b) then m
  else
    let i := (counter m + 1)%Z in
    if Js.mapHas key_eqb (mergedButtons m) k
    then mkMerge i (mergedButtons m) (mergedSorted m) (mergedSeparator m)
    else mkMerge i (Js.mapSet key_eqb (mergedButtons m) k b)
                 (Js.splice (Z.to_nat i) b (mergedSorted m))
                 (if hasFavoritesApps && Heap.favorite h b
                  then (mergedSeparator m + 1)%Z else mergedSeparator m).

(** [this.#separator.isVisible = value] *)
Definition setVisible (h : Heap) (r : Ref) (v : bool) : Heap :=
  Heap.update h r (fun c =>
    mkComponent (kind c) (isValid c) (isFavorite c) (isDropCandidate c)
                (superRect c) (allocationBox c) v).

(** The loop [for (const app of apps)] of [#rerender]. *)
Definition firstPass (tk : Toolkit) (old : list (Key * Ref)) (sepPos : Z)
           (favs : option (list App)) (desired : list App) (h : Heap) : Pass :=
  fold_left (visit tk old sepPos favs) desired (mkPass h [] [] []).

(** The block [if (oldFavorites.size) { ... }] of [#rerender]: the
    heap, the count of object literals and the new value of
    [this.#appButtons]. *)
Definition retirePass (p : Pass) (old : list (Key * Ref)) (n : nat)
  : Heap * nat * list (Key * Ref) :=
  match oldFavorites p with
  | [] => (passHeap p, n, old)
  | _ => retire (oldFavorites p) old (passHeap p) n []
  end.

(** [mergedAppButtons] and the block
    [if (mergedAppButtons.size !== appButtons.size) { ... }]. *)
Definition mergePass (h : Heap) (hasFavoritesApps : bool)
           (old : list (Key * Ref)) (p : Pass) (separatorPosition0 : Z) : Merge :=
  let mergedAppButtons := Js.mapFrom key_eqb (old ++ newButtons p) in
  let m0 := mkMerge (-1) (newButtons p) (sortedAppButtons p) separatorPosition0 in
  if negb (length mergedAppButtons =? length (newButtons p))
  then fold_left (absorb h hasFavoritesApps) mergedAppButtons m0
  else m0.

(** [#rerender()] from the point where the desired set [apps] is known
    not to be empty; [t1] is the taskbar as [#getRunningApps] left it. *)
Definition reconcile (tk : Toolkit) (t1 : t) (old : list (Key * Ref))
           (favs : option (list App)) (desired : list App) : t :=
  let appsSize := length desired in
  let hasFavoritesApps := match favs with Some _ => true | None => false end in
  let favoriteAppsSize := match favs with Some f => length f | None => 0 end in
  let p := firstPass tk old (separatorPosition t1) favs desired (heap t1) in
  let '(h1, n1, old1) := retirePass p old (objects t1) in
  let separatorPosition0 :=
    if hasFavoritesApps then Z.of_nat favoriteAppsSize else (-1)%Z in
  let m := mergePass h1 hasFavoritesApps old1 p separatorPosition0 in
  match separator t1 with
  | None =>
      mk h1 n1 (valid t1) (hasAllocation t1) (isQueued t1)
         (allocation t1) (config t1) (runningApps t1)
         (Some (mergedButtons m)) (service t1) (dndHandler t1)
         (separator t1) separatorPosition0
         (mergedSorted m) (separatorIndex t1)
  | Some sep =>
      let isSeparatorRequired :=
        (0 <? favoriteAppsSize) && (favoriteAppsSize <? appsSize) in
      mk (setVisible h1 sep
            (enableSeparator (config t1) && isSeparatorRequired))
         n1 (valid t1) (hasAllocation t1) (isQueued t1)
         (allocation t1) (config t1) (runningApps t1)
         (Some (mergedButtons m)) (service t1) (dndHandler t1)
         (separator t1) separatorPosition0
         (mergedSorted m) (mergedSeparator m)
  end.

(** [#rerender()] *)
Definition rerender (tk : Toolkit) (t0 : t) : t :=
  match appButtons t0 with
  | Some old =>
      if negb (hasAllocation t0) || isQueued t0 then t0
      else
        let favs := favoriteApps t0 in
        let (t1, running) := getRunningApps t0 in
        match desiredApps favs running with
        | None | Some [] => t1
        | Some desired => reconcile tk t1 old favs desired
        end
  | None => t0
  end.

(** [DragMotionResult] of the shell's dnd.js, as far as it is used. *)
Inductive DragMotionResult := MOVE_DROP | COPY_DROP.

(** [#handleDragOver(target, params)]; [params] is the pointer position,
    [None] stands for a payload or for params that are [null].  The
    toggling of the separator's drag appearance and the scrolling to the
    returned competitor are not tracked. *)
Definition handleDragOver (tk : Toolkit) (t0 : t) (payload : option Payload)
           (params : option (Z * Z)) : t * option DragMotionResult :=
  match params, payload, allocation t0, appButtons t0, separator t0 with
  | Some xy, Some pl, Some al, Some ab, Some sep =>
      let h := heap t0 in
      let payloadApp := match pl with
                        | PComponent r => Heap.app h r
                        | PForeign a => Some a
                        end in
      match payloadApp with
      | Some a =>
          let isAppButton :=
            match pl with PComponent _ => true | PForeign _ => false end in
          let targetIsValid :=
            match pl with PComponent r => Heap.valid h r | PForeign _ => true end in
          if negb (valid t0) || (isAppButton && negb targetIsValid)
          then (t0, None)
          else
            let result := if isAppButton then MOVE_DROP else COPY_DROP in
            let tg :=
              match pl with
              | PComponent r => mkTarget (Some r) a
              | PForeign _ =>
                  match Js.mapGet key_eqb ab (KApp a) with
                  | Some b =>
                      if Heap.valid h b
                      then mkTarget (Some b)
                             (match Heap.app h b with Some a' => a' | None => a end)
                      else mkTarget None a
                  | None => mkTarget None a
                  end
              end in
            let '(al1, d0) :=
              match dndHandler t0 with
              | Some d => (al, d)
              | None =>
                  let al1 :=
                    TaskbarAllocation.mk true (TaskbarAllocation.isUpdating al)
                      (TaskbarAllocation.actor al)
                      (TaskbarAllocation.allocation al)
                      (TaskbarAllocation.job al) (TaskbarAllocation.taskbar al) in
                  let competitors := map snd ab in
                  let hasFavorites :=
                    match service t0 with
                    | Some s => match favorites s with Some _ => true | None => false end
                    | None => false
                    end in
                  let competitors :=
                    if hasFavorites && (separatorPosition t0 >=? 0)%Z
                    then Js.splice (Z.to_nat (separatorPosition t0)) sep competitors
                    else competitors in
                  (al1, DragAndDropHandler.new h competitors)
              end in
            let '(h1, d1, _) :=
              DragAndDropHandler.handleDrag tk h d0
                (Some (mkDragParams (fst xy) (snd xy) tg)) in
            (mk h1 (objects t0) (valid t0) (hasAllocation t0) (isQueued t0)
                (Some al1) (config t0) (runningApps t0) (appButtons t0)
                (service t0) (Some d1) (separator t0) (separatorPosition t0)
                (placed t0) (separatorIndex t0),
             Some result)
      | None => (t0, None)
      end
  | _, _, _, _, _ => (t0, None)
  end.

(** The locals of the loop of [#handleDrop]. *)
Record Drop := mkDrop {
  dropApps : list App;
  dropButtons : list (Key * Ref);
  dropObjects : nat;
  dropCandidatePosition : Z;
  dropSeparatorPosition : Z
}.

(** The loop [for (let i = 0, l = slots.length; i < l; ++i)] of
    [#handleDrop], from index [i] on. *)
Fixpoint collect (h : Heap) (candidate : Ref) (candidateApp : App)
         (oldAppButton : option Ref) (slots : list Ref) (i : nat) (d : Drop)
  : Drop :=
  match slots with
  | [] => d
  | actor :: rest =>
      let next := collect h candidate candidateApp oldAppButton rest (S i) in
      let keep (a : App) (pos : Z) :=
        mkDrop (Js.setAdd Nat.eqb (dropApps d) a)
               (Js.mapSet key_eqb (dropButtons d) (KApp a) actor)
               (dropObjects d) pos (dropSeparatorPosition d) in
      match option_map kind (Heap.get h actor) with
      | Some Separator =>
          next (mkDrop (dropApps d) (dropButtons d) (dropObjects d)
                       (dropCandidatePosition d) (Z.of_nat i))
      | Some (AppButton a) =>
          if Nat.eqb actor candidate then next (keep a (Z.of_nat i))
          else if Nat.eqb a candidateApp then
            if sameRef (Some actor) oldAppButton
            then next (mkDrop (dropApps d)
                         (Js.mapSet key_eqb (dropButtons d)
                                    (KObj (dropObjects d)) actor)
                         (S (dropObjects d)) (dropCandidatePosition d)
                         (dropSeparatorPosition d))
            else next d
          else next (keep a (dropCandidatePosition d))
      | _ => next d
      end
  end.

(** [[...apps].indexOf(app)] *)
Fixpoint indexOf (l : list App) (a : App) (i : Z) : Z :=
  match l with
  | [] => (-1)%Z
  | b :: l' => if Nat.eqb b a then i else indexOf l' a (i + 1)%Z
  end.

(** Modelled from the spec: [drop()] of [AppButton], whose code is not
    part of the sources at hand.  Section 8: once dropped before the
    separator the item's favorite flag becomes true; the item is no
    candidate any more. *)
Definition dropButton (h : Heap) (r : Ref) (favorite : bool) : Heap :=
  Heap.update h r (fun c =>
    mkComponent (kind c) (isValid c) favorite false
                (superRect c) (allocationBox c) (isVisible c)).

(** [#handleDrop()]; the activation of the dropped button is not
    tracked. *)
Definition handleDrop (t0 : t) : t * bool :=
  match dndHandler t0 with
  | None => (t0, false)
  | Some d =>
      match DragAndDropHandler.handleDrop (heap t0) d with
      | (None, _) => (t0, false)
      | (Some (candidate, slots), d1) =>
          let t1 := setDndHandler t0 (Some d1) in
          let h := heap t0 in
          let ws := match service t0 with Some s => workspace s | None => None end in
          let favs := match service t0 with Some s => favorites s | None => None end in
          match Heap.app h candidate, ws, service t0 with
          | Some candidateApp, Some w, Some svc =>
              let oldAppButton :=
                match appButtons t0 with
                | Some ab => Js.mapGet key_eqb ab (KApp candidateApp)
                | None => None
                end in
              let r := collect h candidate candidateApp oldAppButton slots 0
                         (mkDrop [] [] (objects t0) (-1) (-1)) in
              let isFavorite :=
                (dropCandidatePosition r <? dropSeparatorPosition r)%Z in
              let canAddIt :=
                match favs with Some f => canAdd f candidateApp | None => false end in
              if isFavorite && negb canAddIt
              then (setHeap t1 (Heap.destroy h candidate), true)
              else
                let dnd := match oldAppButton with
                           | Some _ =>
                               if (dropSeparatorPosition r >? 0)%Z
                               then None else Some d1
                           | None => Some d1
                           end in
                let h1 := Heap.destroyOpt h oldAppButton in
                let favs1 :=
                  if isFavorite
                  then option_map (fun f => favoritesAdd f candidateApp
                                     (indexOf (dropApps r) candidateApp 0)) favs
                  else option_map (fun f => favoritesRemove f candidateApp) favs in
                let h2 := dropButton h1 candidate isFavorite in
                (mk h2 (dropObjects r) (valid t0) (hasAllocation t0)
                    (isQueued t0) (allocation t0) (config t0)
                    (Js.mapSet Nat.eqb (runningApps t0) w (dropApps r))
                    (Some (dropButtons r))
                    (Some (mkTaskbarClient (workspace svc) favs1 (queryApps svc)))
                    dnd (separator t0) (separatorPosition t0)
                    (placed t0) (separatorIndex t0),
                 true)
          | _, _, _ => (t1, true)
          end
      end
  end.

(** [#handleDragEnd()], the callback of the drag handler; the toggling
    of the separator's drag appearance is not tracked. *)
Definition handleDragEnd (t0 : t) : t :=
  match allocation t0 with
  | Some al =>
      if negb (valid t0) then t0
      else
        mk (heap t0) (objects t0) (valid t0) (hasAllocation t0) (isQueued t0)
           (Some (TaskbarAllocation.mk false (TaskbarAllocation.isUpdating al)
                    (TaskbarAllocation.actor al) (TaskbarAllocation.allocation al)
                    (TaskbarAllocation.job al) (TaskbarAllocation.taskbar al)))
           (config t0) (runningApps t0) (appButtons t0) (service t0)
           None (separator t0) (separatorPosition t0) (placed t0)
           (separatorIndex t0)
  | None => t0
  end.

End Taskbar.

(** ** Sessions: the operations in sequence *)

Module Session.

(** What happens to a taskbar: the three operations of the engine, the
    two signals of the drag actor that the handler watches once a drag
    was handled (it moved, inside the parent or not, and it was
    destroyed), and the two ways the world changes in between, an item
    that destroys itself and collaborators that answer differently. *)
Inductive Operation :=
| Rerender (tk : Toolkit)
| DragOver (tk : Toolkit) (payload : option Payload) (params : option (Z * Z))
| Drop
| ActorMoved (parentRct : option Rectangle) (parentContainsActor : bool)
| ActorDestroyed
| Expire (r : Ref)
| Ambient (svc : option TaskbarClient) (cfg : Config) (hasAllocation isQueued : bool).

Definition step (t0 : Taskbar.t) (op : Operation) : Taskbar.t :=
  match op with
  | Rerender tk => Taskbar.rerender tk t0
  | DragOver tk payload params => fst (Taskbar.handleDragOver tk t0 payload params)
  | Drop => fst (Taskbar.handleDrop t0)
  | ActorMoved parentRct inside =>
      match Taskbar.dndHandler t0 with
      | Some d =>
          if DragAndDropHandler.hasClient d then
            let (h, d') :=
              DragAndDropHandler.handleDragActorPosition (Taskbar.heap t0) d
                parentRct inside in
            Taskbar.setDndHandler (Taskbar.setHeap t0 h) (Some d')
          else t0
      | None => t0
      end
  | ActorDestroyed =>
      match Taskbar.dndHandler t0 with
      | Some d =>
          if DragAndDropHandler.hasClient d then
            let '(h, d', callback) :=
              DragAndDropHandler.destroy (Taskbar.heap t0) d in
            let t1 := Taskbar.setDndHandler (Taskbar.setHeap t0 h) (Some d') in
            if callback then Taskbar.handleDragEnd t1 else t1
          else t0
      | None => t0
      end
  | Expire r => Taskbar.setHeap t0 (Heap.destroy (Taskbar.heap t0) r)
  | Ambient svc cfg alloc queued =>
      Taskbar.mk (Taskbar.heap t0) (Taskbar.objects t0) (Taskbar.valid t0)
                 alloc queued (Taskbar.allocation t0) cfg
                 (Taskbar.runningApps t0) (Taskbar.appButtons t0) svc
                 (Taskbar.dndHandler t0) (Taskbar.separator t0)
                 (Taskbar.separatorPosition t0) (Taskbar.placed t0)
                 (Taskbar.separatorIndex t0)
  end.

Definition run (t0 : Taskbar.t) (ops : list Operation) : Taskbar.t :=
  fold_left step ops t0.

End Session.

(** ** Vocabulary of the properties *)

(** An entry of the button map is in order: its button exists; under an
    application it is a button of that application, under an object
    literal it is a button that was destroyed. *)
Definition entryOK (h : Heap) (e : Key * Ref) : Prop :=
  snd e < length h
  /\ match fst e with
     | KApp a => Heap.app h (snd e) = Some a
     | KObj _ => Heap.valid h (snd e) = false
     end.

(** A button map as the engine keeps it: a [Map] has no key twice, and
    every entry is in order. *)
Definition registered (h : Heap) (m : list (Key * Ref)) : Prop :=
  NoDup (map fst m) /\ Forall (entryOK h) m.

Definition wellFormed (t0 : Taskbar.t) : Prop :=
  match Taskbar.appButtons t0 with
  | Some m => registered (Taskbar.heap t0) m
  | None => True
  end.

(** The entries of a button map whose button is valid and bound to the
    application [a]. *)
Definition instances (h : Heap) (m : list (Key * Ref)) (a : App)
  : list (Key * Ref) :=
  filter (fun e => Heap.valid h (snd e)
                   && match Heap.app h (snd e) with
                      | Some b => Nat.eqb b a
                      | None => false
                      end) m.

(** The heap [h'] comes after [h]: components are only added, none
    changes its kind and none becomes valid again. *)
Definition evolves (h h' : Heap) : Prop :=
  length h <= length h'
  /\ forall r c, Heap.get h r = Some c ->
       exists c', Heap.get h' r = Some c'
                  /\ kind c' = kind c
                  /\ (isValid c' = true -> isValid c = true).

(** The items on display: the buttons that [#rerender] placed and the
    candidate of the drag in progress. *)
Definition displayed (t0 : Taskbar.t) : list Ref :=
  Taskbar.placed t0
  ++ match Taskbar.dndHandler t0 with
     | Some d => match DragAndDropHandler.candidate d with
                 | Some c => [c]
                 | None => []
                 end
     | None => []
     end.

(** The items of [l] that are valid and bound to the application [a]. *)
Definition validFor (h : Heap) (l : list Ref) (a : App) : list Ref :=
  filter (fun r => Heap.valid h r
                   && match Heap.app h r with
                      | Some b => Nat.eqb b a
                      | None => false
                      end) l.

(** The favorite flags of the valid buttons agree with the favorites
    when no separator position was recorded yet, which is when
    [#rerender] does not compare them. *)
Definition flagsAgree (t0 : Taskbar.t) : Prop :=
  Taskbar.separatorPosition t0 = (-1)%Z ->
  forall f old a b,
    Taskbar.favoriteApps t0 = Some f ->
    Taskbar.appButtons t0 = Some old ->
    In (KApp a, b) old ->
    Heap.valid (Taskbar.heap t0) b = true ->
    Heap.favorite (Taskbar.heap t0) b = Js.setHas Nat.eqb f a.

(** The collaborators answer with sets: no application twice. *)
Definition answersSets (t0 : Taskbar.t) : Prop :=
  (forall f, Taskbar.favoriteApps t0 = Some f -> NoDup f)
  /\ (forall s ra,
        Taskbar.service t0 = Some s ->
        queryApps s (isolateWorkspaces (Taskbar.config t0))
                    (showAllWindows (Taskbar.config t0)) = Some ra ->
        NoDup ra).

(** Every valid button of the map is bound to an application of the
    desired set: a reconciliation keeps no other button. *)
Definition nothingKept (t0 : Taskbar.t) : Prop :=
  forall old desired k b,
    Taskbar.appButtons t0 = Some old ->
    Taskbar.desiredApps (Taskbar.favoriteApps t0)
                        (snd (Taskbar.getRunningApps t0)) = Some desired ->
    In (k, b) old ->
    Heap.valid (Taskbar.heap t0) b = true ->
    exists a, k = KApp a /\ In a desired.

(** What holds of the first loop of [#rerender] after the applications
    [done], from the heap [h0] and the old map [old]: the heap was only
    extended, only visited applications were noted as flipped, and
    every registered button is valid, carries the flag of its
    application and is either new or an old button whose application
    was not noted. *)
Definition passInv (h0 : Heap) (old : list (Key * Ref))
           (favs : option (list App)) (done : list App) (p : Taskbar.Pass)
  : Prop :=
  (exists news, Taskbar.passHeap p = h0 ++ news)
  /\ (forall a, In a (Taskbar.oldFavorites p) -> In a done)
  /\ forall k b, In (k, b) (Taskbar.newButtons p) ->
       exists a,
         k = KApp a
         /\ In a done
         /\ Heap.valid (Taskbar.passHeap p) b = true
         /\ (forall f, favs = Some f ->
               Heap.favorite (Taskbar.passHeap p) b = Js.setHas Nat.eqb f a)
         /\ (length h0 <= b
             \/ (In (KApp a, b) old /\ ~ In a (Taskbar.oldFavorites p))).

(** ** Sample states *)

Module Samples.

Definition toolkit : Toolkit :=
  mkToolkit (Some (mkRect 0 0 400 40)) (0, 0)%Z (Some (mkRect 0 0 40 40)) (0, 0)%Z.

Definition button (a : App) (favorite : bool) : Component :=
  mkComponent (AppButton a) true favorite false (Some (mkRect 0 0 40 40))
              (0, 0)%Z true.

Definition separator : Component :=
  mkComponent Separator true false false (Some (mkRect 0 0 4 40)) (0, 0)%Z true.

(** One button and a handler whose only slot is that button, ten to
    twenty pixels from the left edge of the parent. *)
Definition oneButton : Heap := [button 7 false].

Definition oneSlot : list Slot := [mkSlot 0 (mkRect 10 0 10 40)].

Definition oneSlotHandler : DragAndDropHandler.t :=
  DragAndDropHandler.mk (Some oneSlot) true None (-1) true false.

(** A dragged application that has no button on the taskbar. *)
Definition foreign : Target := mkTarget None 9.

(** A page of 50 pixels that is not scrolled, and one entry of 100
    pixels in the allocation map. *)
Definition viewport : Viewport := mkViewport 50 100 0 (fun _ => true).

Definition wideAllocation : TaskbarAllocation.t :=
  TaskbarAllocation.mk false false true (Some [(0, 100%Z)])
                       (Some (mkJob Redraw false)) true.

(** Three valid buttons of one application and a separator, all
    recorded in the allocation map. *)
Definition crowd : Heap := [button 7 false; button 7 false; button 7 false; separator].

Definition crowdEntries : list (Ref * Z) :=
  [(0, 40%Z); (1, 40%Z); (2, 40%Z); (3, 4%Z)].

Definition crowdRest : list (Ref * Z) := [(3, 4%Z)].

Definition crowdButtons : list (Ref * Z) := [(0, 40%Z); (1, 40%Z); (2, 40%Z)].

Definition allocationOf (entries : list (Ref * Z)) : TaskbarAllocation.t :=
  TaskbarAllocation.mk false false true (Some entries)
                       (Some (mkJob Redraw false)) true.

(** A button that was destroyed: its [rect] is [null]. *)
Definition gone : Heap := Heap.destroy oneButton 0.

(** A taskbar with a favorite (application 10, button 1) and a running
    application (11, button 2) around the separator (0); [favs] are the
    favorites, [adds] what [canAdd] answers and [query] what the query of
    the running applications answers. *)
Definition client (favs : list App) (adds : bool) (query : option (list App))
  : TaskbarClient :=
  mkTaskbarClient (Some 0) (Some (mkFavorites favs (fun _ => adds)))
                  (fun _ _ => query).

Definition taskbar (h : Heap) (buttons : list (Key * Ref)) (svc : TaskbarClient)
           (dnd : option DragAndDropHandler.t) (position : Z) (shown : list Ref)
  : Taskbar.t :=
  Taskbar.mk h 0 true true false (Some TaskbarAllocation.new)
             (mkConfig true false false) [] (Some buttons) (Some svc) dnd
             (Some 0) position shown position.

(** Nothing to show: no favorite and no answer from the query. *)
Definition idle : Taskbar.t :=
  taskbar [separator; button 10 true; button 11 false]
          [(KApp 10, 1); (KApp 11, 2)] (client [] true None) None 1 [1; 2].

(** The button of application 11 is dragged before the favorite: its
    candidate (3) sits in the first slot; the favorites take no more. *)
Definition promotion : Taskbar.t :=
  taskbar [separator; button 10 true; button 11 false;
           DragAndDropHandler.newCandidate toolkit 11]
          [(KApp 10, 1); (KApp 11, 2)] (client [10] false (Some [11]))
          (Some (DragAndDropHandler.mk
                   (Some [mkSlot 3 (mkRect 0 0 40 40); mkSlot 1 (mkRect 0 0 40 40);
                          mkSlot 0 (mkRect 40 0 4 40); mkSlot 2 (mkRect 44 0 40 40)])
                   true (Some 3) 0 true true))
          1 [1; 2].

(** A taskbar that has not rendered yet: application 10 is a favorite,
    application 11 is running. *)
Definition fresh : Taskbar.t :=
  taskbar [separator] [] (client [10] true (Some [11])) None (-1) [].

(** Application 10 is no favorite any more and does not run, but its
    button (1) is still valid; application 11 stays a favorite. *)
Definition demoted : Taskbar.t :=
  taskbar [separator; button 10 true; button 11 true]
          [(KApp 10, 1); (KApp 11, 2)] (client [11] true None) None 2 [1; 2].

End Samples.

(** ** Vocabulary of the drag engine *)

(** The slots that [handleDrag] keeps: those of the items still valid. *)
Definition pruned (h : Heap) (sl : list Slot) : list Slot :=
  filter (fun s => Heap.valid h (competitor s)) sl.

(** The horizontal pointer position in the coordinates of the slots. *)
Definition pointer (tk : Toolkit) (d : DragAndDropHandler.t) (p : DragParams) : Z :=
  (x (DragAndDropHandler.parentRect tk d) + dragX p)%Z.

(** The index the scan of [handleDrag] stops at: the first slot under
    the pointer, or the number of slots. *)
Definition scanned (px : Z) (sl : list Slot) : nat :=
  match DragAndDropHandler.scan px sl 0 with
  | Some (i, _) => i
  | None => length sl
  end.

(** ** TaskbarAllocation: the remaining members *)

Module TaskbarAllocationMore.

(** [destroy()]: the job, the taskbar, the map and the actor are given
    up; the two flags are left as they are. *)
Definition destroy (a : TaskbarAllocation.t) : TaskbarAllocation.t :=
  TaskbarAllocation.mk (TaskbarAllocation.isDragMode a)
                       (TaskbarAllocation.isUpdating a)
                       false None None false.

(** [set isDragMode(value)] *)
Definition setIsDragMode (a : TaskbarAllocation.t) (value : bool)
  : TaskbarAllocation.t :=
  TaskbarAllocation.mk value (TaskbarAllocation.isUpdating a)
                       (TaskbarAllocation.actor a)
                       (TaskbarAllocation.allocation a)
                       (TaskbarAllocation.job a)
                       (TaskbarAllocation.taskbar a).

End TaskbarAllocationMore.

(** ** Vocabulary of the reconciliation *)

(** What holds of the first loop of [#rerender] after the applications
    [done], whatever the favorite flags are: the heap was only extended;
    the applications noted in [oldFavorites] are the visited ones whose
    old button was valid with a flag that differs from the favorites;
    every visited application has a valid button of its own in the new
    map and in the sorted list, a new one or its old one; and the new
    map has no other keys. *)
Definition passKeeps (h0 : Heap) (old : list (Key * Ref)) (sp : Z)
           (favs : option (list App)) (done : list App) (p : Taskbar.Pass)
  : Prop :=
  (exists news, Taskbar.passHeap p = h0 ++ news)
  /\ (forall a, In a (Taskbar.oldFavorites p) <->
        In a done
        /\ exists b, Js.mapGet key_eqb old (KApp a) = Some b
                     /\ Heap.valid h0 b = true
                     /\ Taskbar.isFavoriteChanged h0 sp favs a b = true)
  /\ (forall a, In a done ->
        exists b, Js.mapGet key_eqb (Taskbar.newButtons p) (KApp a) = Some b
                  /\ Heap.valid (Taskbar.passHeap p) b = true
                  /\ In b (Taskbar.sortedAppButtons p)
                  /\ (length h0 <= b
                      \/ (Js.mapGet key_eqb old (KApp a) = Some b
                          /\ ~ In a (Taskbar.oldFavorites p))))
  /\ (forall k b, In (k, b) (Taskbar.newButtons p) ->
        exists a, k = KApp a /\ In a done).

(** The button [r] is the old button of the desired application [a],
    and its favorite flag is not what the favorites say. *)
Definition flipped (t0 : Taskbar.t) (old : list (Key * Ref)) (desired : list App)
           (r : Ref) : Prop :=
  exists a,
    In a desired
    /\ Js.mapGet key_eqb old (KApp a) = Some r
    /\ Taskbar.isFavoriteChanged (Taskbar.heap t0) (Taskbar.separatorPosition t0)
         (Taskbar.favoriteApps t0) a r = true.

(** The entry of the button map is a button with the favorite flag whose
    key is not an application of [desired]. *)
Definition keptFavorite (h : Heap) (desired : list App) (e : Key * Ref) : bool :=
  Heap.favorite h (snd e)
  && negb match fst e with
          | KApp a => Js.setHas Nat.eqb desired a
          | KObj _ => false
          end.

(** ** Vocabulary of the sessions *)

(** The cache of running applications holds no empty set. *)
Definition cacheNonEmpty (t0 : Taskbar.t) : Prop :=
  forall w l, In (w, l) (Taskbar.runningApps t0) -> l <> [].

(** ** Taskbar: the remaining members *)

Module TaskbarMore.

(** Who sent a notification: the taskbar itself or one of its children. *)
Inductive Sender :=
| Self
| Child (r : Ref).

(** What the taskbar asks of its collaborators, in the order it asks:
    [Context.layout.removeClient(this)], [Context.jobs.removeAll(this)],
    [Context.signals.removeAll(this)], [this.#service.destroy()],
    [Context.layout.queueAfterInit(this, () => this.#rerender())],
    the job [Context.jobs.new(this, Delay.Scheduled).destroy(...)] that
    scrolls to the active button, [super.scrollToActor(actor,
    deceleration)], and what [this.#allocation.update()] does. *)
Inductive Action :=
| RemoveLayoutClient
| RemoveJobs
| RemoveSignals
| DestroyService
| QueueRerender
| ScheduleScrollToActive
| ScrollToActor (actor : Ref) (deceleration : bool)
| Allocation (e : Effect).

(** What the getters of a child answer when it reacts: [isActive],
    [hasFocus] and [hasHover] of a button (ui/base/button.js), and
    [actor.hover] of another component. *)
Record Reaction := mkReaction {
  isActive : bool;
  hasFocus : bool;
  hasHover : bool;
  actorHover : bool
}.

(** The fields of [Taskbar] that the reconciliation does not read, next
    to those it reads; [events] tells whether [#events] is still there. *)
Record t := mk {
  base : Taskbar.t;
  activeAppButton : option Ref;
  scrollLock : option Ref;
  events : bool
}.

Definition setAllocation (b : Taskbar.t) (al : option TaskbarAllocation.t)
  : Taskbar.t :=
  Taskbar.mk (Taskbar.heap b) (Taskbar.objects b) (Taskbar.valid b)
             (Taskbar.hasAllocation b) (Taskbar.isQueued b) al
             (Taskbar.config b) (Taskbar.runningApps b) (Taskbar.appButtons b)
             (Taskbar.service b) (Taskbar.dndHandler b) (Taskbar.separator b)
             (Taskbar.separatorPosition b) (Taskbar.placed b)
             (Taskbar.separatorIndex b).

(** [scrollToActor(actor, deceleration)]: the scroll of the base class,
    and a new [update()] of the allocation when one is suspended; the
    last component is the closure that this [update()] leaves suspended. *)
Definition scrollToActor (vp : Viewport) (t0 : t) (actor : Ref)
           (deceleration : bool)
  : t * list Action * option TaskbarAllocation.Allocate :=
  let result := [ScrollToActor actor deceleration] in
  match Taskbar.allocation (base t0) with
  | Some al =>
      if TaskbarAllocation.isUpdating al then
        let '(al1, effects, pending) :=
          TaskbarAllocation.update vp (Taskbar.heap (base t0)) al in
        (mk (setAllocation (base t0) (Some al1)) (activeAppButton t0)
            (scrollLock t0) (events t0),
         result ++ map Allocation effects, pending)
      else (t0, result, None)
  | None => (t0, result, None)
  end.

(** [#handleMapped(sender)] *)
Definition handleMapped (t0 : t) (sender : option Sender) : t * list Action :=
  if negb (Taskbar.valid (base t0)) then (t0, [])
  else
    match sender with
    | None => (t0, [])
    | Some Self => (t0, [QueueRerender])
    | Some (Child r) =>
        (mk (setAllocation (base t0)
               (option_map (fun al => TaskbarAllocation.add (Taskbar.heap (base t0))
                                        al (Some r))
                           (Taskbar.allocation (base t0))))
            (activeAppButton t0) (scrollLock t0) (events t0),
         [])
    end.

(** [#destroy()]: the allocation and the service are destroyed, then
    the drag handler, whose destroy callback is [#handleDragEnd]; after
    that the fields are given up. *)
Definition destroy (t0 : t) : t * list Action :=
  let b := base t0 in
  let b1 := setAllocation b (option_map TaskbarAllocationMore.destroy
                                        (Taskbar.allocation b)) in
  let b2 :=
    match Taskbar.dndHandler b1 with
    | Some d =>
        let '(h, d', callback) :=
          DragAndDropHandler.destroy (Taskbar.heap b1) d in
        let b' := Taskbar.setDndHandler (Taskbar.setHeap b1 h) (Some d') in
        if callback then Taskbar.handleDragEnd b' else b'
    | None => b1
    end in
  (mk (Taskbar.mk (Taskbar.heap b2) (Taskbar.objects b2) (Taskbar.valid b2)
                  (Taskbar.hasAllocation b2) (Taskbar.isQueued b2) None
                  (Taskbar.config b2) (Taskbar.runningApps b2) None None None
                  None (Taskbar.separatorPosition b2) (Taskbar.placed b2)
                  (Taskbar.separatorIndex b2))
      None None false,
   [RemoveLayoutClient; RemoveJobs; RemoveSignals]
   ++ match Taskbar.service b with Some _ => [DestroyService] | None => [] end).

(** [#handleDestroy(sender)] *)
Definition handleDestroy (t0 : t) (sender : option Sender) : t * list Action :=
  match sender with
  | Some Self => destroy t0
  | Some (Child r) =>
      (mk (setAllocation (base t0)
             (option_map (fun al => TaskbarAllocation.remove al (Some r))
                         (Taskbar.allocation (base t0))))
          (if sameRef (Some r) (activeAppButton t0) then None
           else activeAppButton t0)
          (if sameRef (Some r) (scrollLock t0) then None else scrollLock t0)
          (events t0),
       [])
  | None => (t0, [])
  end.

(** [#handleChildReaction(child)]; [rc] is what the getters of the
    child answer. *)
Definition handleChildReaction (vp : Viewport) (t0 : t) (child : option Ref)
           (rc : Reaction)
  : t * list Action * option TaskbarAllocation.Allocate :=
  match child with
  | None => (t0, [], None)
  | Some c =>
      let h := Taskbar.heap (base t0) in
      if negb (Taskbar.valid (base t0)) || negb (Heap.valid h c)
      then (t0, [], None)
      else
        let isAppButton :=
          match Heap.app h c with Some _ => true | None => false end in
        let active := if isAppButton then isActive rc else false in
        let focus := if isAppButton then hasFocus rc else false in
        let hover := if isAppButton then hasHover rc else actorHover rc in
        let activeAppButton1 :=
          if active && isAppButton then Some c
          else if sameRef (Some c) (activeAppButton t0) then None
          else activeAppButton t0 in
        let scrollLock1 :=
          if hover then Some c
          else if sameRef (Some c) (scrollLock t0) then None
          else scrollLock t0 in
        let scheduled :=
          if negb hover && sameRef (Some c) (scrollLock t0) && negb focus
             && match activeAppButton1 with Some _ => true | None => false end
          then [ScheduleScrollToActive] else [] in
        let t1 := mk (base t0) activeAppButton1 scrollLock1 (events t0) in
        let locked := match scrollLock1 with
                      | Some l => negb (Nat.eqb l c)
                      | None => false
                      end in
        if locked then (t1, RemoveJobs :: scheduled, None)
        else if negb active && negb hover && negb focus
        then (t1, RemoveJobs :: scheduled, None)
        else
          let '(t2, actions, pending) := scrollToActor vp t1 c (negb hover) in
          (t2, RemoveJobs :: scheduled ++ actions, pending)
  end.

(** The job scheduled by [#handleChildReaction] when it runs:
    [this.#activeAppButton && this.scrollToActor(this.#activeAppButton, true)]. *)
Definition scrollToActive (vp : Viewport) (t0 : t)
  : t * list Action * option TaskbarAllocation.Allocate :=
  match activeAppButton t0 with
  | Some b => scrollToActor vp t0 b true
  | None => (t0, [], None)
  end.

(** A notification as the handler of [ComponentEvent.Notify] sees it:
    the event and what it reads of the data. *)
Inductive Notification :=
| OnDestroy (sender : option Sender)
| OnMapped (sender : option Sender)
| OnDragOver (tk : Toolkit) (target : option Payload) (params : option (Z * Z))
| OnAcceptDrop
| OnReaction (vp : Viewport) (sender : option Ref) (rc : Reaction)
| OnOther.

(** [data => this.#events?.[data?.event]?.(data)]; what
    [#handleDragOver] asks of the job registry and of the scroll view is
    not tracked, as in [Taskbar.handleDragOver]. *)
Definition notify (t0 : t) (n : Notification)
  : t * list Action * option TaskbarAllocation.Allocate :=
  if events t0 then
    match n with
    | OnDestroy sender =>
        let (t1, actions) := handleDestroy t0 sender in (t1, actions, None)
    | OnMapped sender =>
        let (t1, actions) := handleMapped t0 sender in (t1, actions, None)
    | OnDragOver tk target params =>
        (mk (fst (Taskbar.handleDragOver tk (base t0) target params))
            (activeAppButton t0) (scrollLock t0) (events t0), [], None)
    | OnAcceptDrop =>
        (mk (fst (Taskbar.handleDrop (base t0)))
            (activeAppButton t0) (scrollLock t0) (events t0), [], None)
    | OnReaction vp sender rc => handleChildReaction vp t0 sender rc
    | OnOther => (t0, [], None)
    end
  else (t0, [], None).

End TaskbarMore.

(** ** utils/config.js *)

From Stdlib Require String.

Module ConfigJs.
Import String.

(** What [settings.get_value(key)?.unpack()] gives for the settings
    that the extension declares. *)
Inductive Value :=
| VBool (b : bool)
| VNumber (z : Z)
| VString (s : string).

(** The settings object: [get_value(key)?.unpack() ?? null] by key. *)
Definition Settings := string -> option Value.

Definition DUMMY_FIELD_PREFIX : string := "~".

(** An entry of the array [signals]: the name [changed::key] with the
    handler, or [GObject.ConnectFlags.AFTER]. *)
Inductive Signal :=
| Changed (settingsKey : string)
| After.

(** The locals of [Config]: the object [values], the map
    [valueMapping] and the array [signals]. *)
Record Locals := mkLocals {
  values : list (string * option Value);
  valueMapping : list (string * string);
  signals : list Signal
}.

(** The body of [for (const fieldName in fields)]; the value of a field
    is [None] when it is no string. *)
Definition declare (settings : Settings) (isAfter : bool) (l : Locals)
           (field : string * option string) : Locals :=
  match snd field with
  | None => l
  | Some settingsKey =>
      if prefix DUMMY_FIELD_PREFIX settingsKey
      then mkLocals (Js.mapSet eqb (values l) (fst field) None)
                    (valueMapping l) (signals l)
      else mkLocals (Js.mapSet eqb (values l) (fst field) (settings settingsKey))
                    (Js.mapSet eqb (valueMapping l) settingsKey (fst field))
                    (signals l ++ Changed settingsKey
                                  :: (if isAfter then [After] else []))
  end.

(** [Config(client, fields, callback, options)]: [fields] lists the
    fields in the order of [for ... in], [settings] is what
    [Context.getSettings(path)] answers. *)
Definition Config (client : bool) (fields : option (list (string * option string)))
           (settings : option Settings) (isAfter : bool) : Locals :=
  match client, fields, settings with
  | true, Some fs, Some st => fold_left (declare st isAfter) fs (mkLocals [] [] [])
  | _, _, _ => mkLocals [] [] []
  end.

(** The closure [valueHandler]: the object [values] after the call and
    the key that the callback was called with, if it was called;
    [settings] is the settings object at the time of the call. *)
Definition valueHandler (l : Locals) (settings : Settings) (callback : bool)
           (key : string) : list (string * option Value) * option string :=
  match Js.mapGet eqb (valueMapping l) key with
  | Some configField =>
      if eqb configField EmptyString then (values l, None)
      else (Js.mapSet eqb (values l) configField (settings key),
            if callback then Some key else None)
  | None => (values l, None)
  end.

(** The class [SharedConfig].  A client is an object, known by its
    identity; the details kept for it are the callback, if it is a
    function. *)
Module SharedConfig.

Record t := mk {
  config : option (list (string * option Value));
  clients : option (list (nat * option nat));
  configHandler : bool
}.

(** [getConfig(client, callback)]; [None] stands for a client that is
    not given. *)
Definition getConfig (s : t) (client : option nat) (callback : option nat)
  : t * option (list (string * option Value)) :=
  match client, clients s with
  | Some c, Some cl =>
      (mk (config s) (Some (Js.mapSet Nat.eqb cl c callback)) (configHandler s),
       config s)
  | _, _ => (s, config s)
  end.

(** [getClientDetails(client)] *)
Definition getClientDetails (s : t) (client : option nat) : t * option nat :=
  match client with
  | None => (s, None)
  | Some c =>
      match clients s with
      | Some cl =>
          if Js.mapHas Nat.eqb cl c
          then (s, match Js.mapGet Nat.eqb cl c with Some d => d | None => None end)
          else (mk (config s) (Some (Js.mapSet Nat.eqb cl c None)) (configHandler s),
                None)
      | None => (s, None)
      end
  end.

(** [hasClient(client)] *)
Definition hasClient (s : t) (client : nat) : bool :=
  match clients s with
  | Some cl => Js.mapHas Nat.eqb cl client
  | None => false
  end.

(** [destroy(client)] *)
Definition destroy (s : t) (client : nat) : t * bool :=
  match clients s with
  | None => (s, true)
  | Some cl =>
      if negb (Js.mapHas Nat.eqb cl client) then (s, false)
      else
        match Js.mapDelete Nat.eqb cl client with
        | [] => (mk None None false, true)
        | rest => (mk (config s) (Some rest) (configHandler s), false)
        end
  end.

(** [#handleConfig(settingsKey)] with the handler [#handleClientConfig]:
    the callbacks that are called, in order. *)
Definition handleConfig (s : t) (settingsKey : string) : list (nat * string) :=
  match clients s with
  | Some cl =>
      if configHandler s
      then flat_map (fun e => match snd e with
                              | Some callback => [(callback, settingsKey)]
                              | None => []
                              end) cl
      else []
  | None => []
  end.

End SharedConfig.

End ConfigJs.

(** ** services/taskbar/windowRouter.js *)

Module WindowRouter.

(** [WindowInfo] as far as the router reads and writes it: the
    workspace when it is a number, the monitor when it is a string. *)
Record WindowInfo := mkWindowInfo {
  workspace : option Z;
  monitor : option String.string;
  hasFocus : bool
}.

(** [get #monitorsByIndex] *)
Definition monitorsByIndex (monitors : list (String.string * Z))
  : list (Z * String.string) :=
  fold_left (fun result e => Js.mapSet Z.eqb result (snd e) (fst e)) monitors [].

(** The body of the loop of [#saveWindows] for one window, whose
    [has_focus()] and [get_monitor()] answer [focus] and
    [windowMonitor]. *)
Definition saveWindow (monitors : list (String.string * Z)) (info : WindowInfo)
           (focus : bool) (windowMonitor : Z) : WindowInfo :=
  if 1 <? length monitors
  then mkWindowInfo (workspace info)
                    (Js.mapGet Z.eqb (monitorsByIndex monitors) windowMonitor)
                    focus
  else mkWindowInfo (workspace info) (monitor info) focus.

(** [route(windowInfo)] for a window whose [get_monitor()] and
    [get_workspace().index()] answer [windowMonitor] and
    [windowWorkspace]: the window info afterwards and the arguments of
    the call of [RoutedWindow], if it is called. *)
Definition route (monitors : list (String.string * Z)) (info : WindowInfo)
           (windowMonitor windowWorkspace : Z)
  : WindowInfo * option (Z * option Z) :=
  if ((windowMonitor <? 0) || (windowWorkspace <? 0))%Z then (info, None)
  else
    let targetMonitor :=
      match monitor info with
      | Some m => match Js.mapGet String.eqb monitors m with
                  | Some i => i
                  | None => windowMonitor
                  end
      | None => windowMonitor
      end in
    let targetWorkspace :=
      match workspace info with
      | Some w => if (w >? windowWorkspace)%Z then w else windowWorkspace
      | None => windowWorkspace
      end in
    if ((windowMonitor =? targetMonitor) && (windowWorkspace =? targetWorkspace))%Z
    then (info, None)
    else (mkWindowInfo (workspace info) None (hasFocus info),
          Some (targetMonitor, workspace info)).

End WindowRouter.

(** ** The configuration of the taskbar *)

Module TaskbarConfig.
Import String.
Local Open Scope string_scope.

(** [ConfigFields] of ui/taskbar.js, in the order of the literal. *)
Definition ConfigFields : list (string * option string) :=
  [("enableSeparator", Some "taskbar-enable-separator");
   ("showAllWindows", Some "taskbar-show-all-windows");
   ("isolateWorkspaces", Some "taskbar-isolate-workspaces")].

(** [#handleConfig(settingsKey)] *)
Definition handleConfig (tk : Toolkit) (t0 : Taskbar.t) (settingsKey : string)
  : Taskbar.t :=
  if eqb settingsKey "taskbar-enable-separator"
     || eqb settingsKey "taskbar-show-all-windows"
     || eqb settingsKey "taskbar-isolate-workspaces"
  then Taskbar.rerender tk t0
  else t0.

(** Settings that hold a boolean for every key. *)
Definition allOn : ConfigJs.Settings := fun _ => Some (ConfigJs.VBool true).

Definition separatorKey : string := "taskbar-enable-separator".

End TaskbarConfig.

(** Two monitors, the primary one and its left neighbour, and a window
    info that asks for the third workspace. *)
Module RouterSamples.
Import String.
Local Open Scope string_scope.

Definition twoMonitors : list (string * Z) := [("primary", 0%Z); ("left", 1%Z)].

Definition onThird : WindowRouter.WindowInfo :=
  WindowRouter.mkWindowInfo (Some 2%Z) None false.

End RouterSamples.

(** * Properties *)

Unset Implicit Arguments.

(** ** Facts about the containers *)

Section SetFacts.
Variable K : Type.
Variable eqb : K -> K -> bool.
Hypothesis eqb_eq : forall a b, eqb a b = true <-> a = b.

Lemma setHas_In (s : list K) (k : K) : Js.setHas eqb s k = true <-> In k s.
Proof.
  unfold Js.setHas. rewrite existsb_exists. split.
  - intros [y [Hy He]]. apply eqb_eq in He. now subst.
  - intros H. exists k. split; [assumption | now apply eqb_eq].
Qed.

Lemma setHas_false (s : list K) (k : K) :
  Js.setHas eqb s k = false <-> ~ In k s.
Proof.
  rewrite <- setHas_In. destruct (Js.setHas eqb s k); split; congruence.
Qed.

Lemma setAdd_In (s : list K) (k x : K) :
  In x (Js.setAdd eqb s k) <-> In x s \/ x = k.
Proof.
  unfold Js.setAdd. destruct (Js.setHas eqb s k) eqn:E.
  - apply setHas_In in E. split; [tauto | intros [H | ->]; assumption].
  - rewrite in_app_iff. simpl. intuition.
Qed.

Lemma setAdd_NoDup (s : list K) (k : K) :
  NoDup s -> NoDup (Js.setAdd eqb s k).
Proof.
  intros H. unfold Js.setAdd. destruct (Js.setHas eqb s k) eqn:E; [assumption|].
  apply setHas_false in E. apply NoDup_app; [assumption | | ].
  - constructor; [intros [] | constructor].
  - intros y Hy [<- | []]. contradiction.
Qed.

Lemma fold_setAdd_In (l s : list K) (x : K) :
  In x (fold_left (Js.setAdd eqb) l s) <-> In x s \/ In x l.
Proof.
  revert s. induction l as [|k l IH]; intros s; simpl.
  - tauto.
  - rewrite IH, setAdd_In. intuition.
Qed.

Lemma fold_setAdd_NoDup (l s : list K) :
  NoDup s -> NoDup (fold_left (Js.setAdd eqb) l s).
Proof.
  revert s. induction l as [|k l IH]; intros s H; simpl; [assumption|].
  apply IH. now apply setAdd_NoDup.
Qed.

Lemma setFrom_In (l : list K) (x : K) : In x (Js.setFrom eqb l) <-> In x l.
Proof. unfold Js.setFrom. rewrite fold_setAdd_In. simpl. tauto. Qed.

Lemma setFrom_NoDup (l : list K) : NoDup (Js.setFrom eqb l).
Proof. apply fold_setAdd_NoDup. constructor. Qed.

(** Adding members again changes nothing. *)
Lemma fold_setAdd_members (l s : list K) :
  (forall x, In x l -> In x s) -> fold_left (Js.setAdd eqb) l s = s.
Proof.
  induction l as [|k l IH]; intros H; simpl; [reflexivity|].
  unfold Js.setAdd at 2.
  assert (E : Js.setHas eqb s k = true) by (apply setHas_In, H; now left).
  rewrite E. apply IH. intros x Hx. apply H. now right.
Qed.

(** A list without repetition is its own set. *)
Lemma fold_setAdd_fresh (l s : list K) :
  NoDup (s ++ l) -> fold_left (Js.setAdd eqb) l s = s ++ l.
Proof.
  revert s. induction l as [|k l IH]; intros s H; simpl.
  - now rewrite app_nil_r.
  - assert (E : Js.setHas eqb s k = false).
    { apply setHas_false. intros Hin. apply NoDup_remove_2 in H.
      apply H. apply in_or_app. now left. }
    unfold Js.setAdd at 2. rewrite E.
    replace (s ++ k :: l) with ((s ++ [k]) ++ l) in * by (now rewrite <- app_assoc).
    now apply IH.
Qed.

Lemma setFrom_NoDup_id (l : list K) : NoDup l -> Js.setFrom eqb l = l.
Proof. intros H. unfold Js.setFrom. now rewrite fold_setAdd_fresh. Qed.

Lemma fold_setAdd_app (l l' s : list K) :
  fold_left (Js.setAdd eqb) (l ++ l') s
  = fold_left (Js.setAdd eqb) l' (fold_left (Js.setAdd eqb) l s).
Proof. apply fold_left_app. Qed.
End SetFacts.

Arguments setHas_In {K eqb} eqb_eq s k.
Arguments setHas_false {K eqb} eqb_eq s k.
Arguments setAdd_In {K eqb} eqb_eq s k x.
Arguments setAdd_NoDup {K eqb} eqb_eq [s] k _.
Arguments fold_setAdd_In {K eqb} eqb_eq l s x.
Arguments fold_setAdd_NoDup {K eqb} eqb_eq l [s] _.
Arguments setFrom_In {K eqb} eqb_eq l x.
Arguments setFrom_NoDup {K eqb} eqb_eq l.
Arguments fold_setAdd_members {K eqb} eqb_eq l s _.
Arguments fold_setAdd_fresh {K eqb} eqb_eq l s _.
Arguments setFrom_NoDup_id {K eqb} eqb_eq [l] _.

Lemma nat_eqb_eq (a b : nat) : Nat.eqb a b = true <-> a = b.
Proof. apply Nat.eqb_eq. Qed.

(** ** DragAndDropHandler.handleDrop *)

(** C9. [handleDrop()] answers [null] exactly when the handler was
    destroyed (no slots) or holds no candidate.  Otherwise it answers the
    candidate and a list made of the valid slot items in slot order,
    followed by the candidate when it is not among them; the candidate
    occurs in that list exactly once, also when it had been inserted as a
    slot, and the handler holds no candidate afterwards. *)
Theorem handleDrop_candidate_once (h : Heap) (d : DragAndDropHandler.t) :
  match DragAndDropHandler.handleDrop h d with
  | (None, d') =>
      (DragAndDropHandler.slots d = None \/ DragAndDropHandler.candidate d = None)
      /\ d' = d
  | (Some (c, l), d') =>
      DragAndDropHandler.candidate d = Some c
      /\ DragAndDropHandler.candidate d' = None
      /\ DragAndDropHandler.slots d' = DragAndDropHandler.slots d
      /\ count_occ Nat.eq_dec l c = 1
      /\ NoDup l
      /\ exists sl,
           DragAndDropHandler.slots d = Some sl
           /\ let items := Js.setFrom Nat.eqb
                             (filter (Heap.valid h) (map competitor sl)) in
              (forall r, In r items <->
                         exists s, In s sl /\ competitor s = r
                                   /\ Heap.valid h r = true)
              /\ (l = items \/ (~ In c items /\ l = items ++ [c]))
  end.
Proof.
  unfold DragAndDropHandler.handleDrop.
  destruct (DragAndDropHandler.slots d) as [sl|] eqn:Hs;
    [destruct (DragAndDropHandler.candidate d) as [c|] eqn:Hc|];
    try (split; [tauto | reflexivity]).
  set (items := Js.setFrom Nat.eqb (filter (Heap.valid h) (map competitor sl))).
  assert (Hnd : NoDup items) by apply (setFrom_NoDup nat_eqb_eq).
  assert (Hitems : forall r, In r items <->
            exists s, In s sl /\ competitor s = r /\ Heap.valid h r = true).
  { intros r. unfold items. rewrite (setFrom_In nat_eqb_eq), filter_In, in_map_iff.
    split.
    - intros [[s [Hs1 Hs2]] Hv]. exists s. auto.
    - intros [s [Hs1 [Hs2 Hv]]]. split; [exists s; auto | assumption]. }
  simpl.
  destruct (Js.setHas Nat.eqb items c) eqn:E.
  - apply (setHas_In nat_eqb_eq) in E.
    repeat split; try reflexivity; try assumption.
    + now apply NoDup_count_occ'.
    + exists sl. split; [reflexivity|]. split; [assumption | now left].
  - assert (Hc' : ~ In c items) by (now apply (setHas_false nat_eqb_eq)).
    assert (Hadd : Js.setAdd Nat.eqb items c = items ++ [c]).
    { unfold Js.setAdd. now rewrite E. }
    rewrite Hadd.
    assert (Hnd' : NoDup (items ++ [c])).
    { rewrite <- Hadd. now apply (setAdd_NoDup nat_eqb_eq). }
    repeat split; try reflexivity; try assumption.
    + apply NoDup_count_occ'; [assumption|]. apply in_or_app. right. now left.
    + exists sl. split; [reflexivity|]. split; [assumption | now right].
Qed.

(** ** DragAndDropHandler.handleDrag: the resolved position *)

Lemma scan_bounds (px : Z) (sl : list Slot) (i j : nat) (q : Rectangle) :
  DragAndDropHandler.scan px sl i = Some (j, q) ->
  i <= j < i + length sl
  /\ exists s, nth_error sl (j - i) = Some s /\ slotRect s = q /\ spans q px.
Proof.
  revert i. induction sl as [|s sl IH]; intros i; simpl; [discriminate|].
  destruct ((px <? x (slotRect s))%Z || (px >? x (slotRect s) + width (slotRect s))%Z)
    eqn:E.
  - intros H. apply IH in H. destruct H as [Hb [s' [Hn [Hq Hsp]]]].
    split; [lia|]. exists s'. split; [|auto].
    replace (j - i) with (S (j - S i)) by lia. exact Hn.
  - intros H. injection H as <- <-. split; [lia|].
    exists s. rewrite Nat.sub_diag. split; [reflexivity|]. split; [reflexivity|].
    apply orb_false_iff in E. destruct E as [E1 E2]. unfold spans. lia.
Qed.

Lemma scan_none (px : Z) (sl : list Slot) (i : nat) :
  DragAndDropHandler.scan px sl i = None ->
  forall s, In s sl -> ~ spans (slotRect s) px.
Proof.
  revert i. induction sl as [|s sl IH]; intros i; simpl; [intros _ s []|].
  destruct ((px <? x (slotRect s))%Z || (px >? x (slotRect s) + width (slotRect s))%Z)
    eqn:E; [|discriminate].
  intros H s' [<- | Hin].
  - unfold spans. apply orb_true_iff in E. lia.
  - eapply IH; eassumption.
Qed.

(** The scan is monotone from a pointer that lies in some slot. *)
Lemma scan_monotone (sl : list Slot) (px1 px2 : Z) (i j1 : nat) (q1 : Rectangle) :
  ascending sl -> (px1 <= px2)%Z ->
  DragAndDropHandler.scan px1 sl i = Some (j1, q1) ->
  match DragAndDropHandler.scan px2 sl i with
  | Some (j2, _) => j1 <= j2
  | None => True
  end.
Proof.
  intros Hasc Hle. revert i. induction Hasc as [|s sl Hs IH Hall]; intros i; simpl;
    [discriminate|].
  destruct ((px1 <? x (slotRect s))%Z || (px1 >? x (slotRect s) + width (slotRect s))%Z)
    eqn:E1.
  - intros H1.
    destruct ((px2 <? x (slotRect s))%Z || (px2 >? x (slotRect s) + width (slotRect s))%Z)
      eqn:E2.
    + now apply IH.
    + exfalso. apply scan_bounds in H1. destruct H1 as [_ [s1 [Hn [Hq Hsp]]]].
      apply nth_error_In in Hn. rewrite Forall_forall in Hall.
      specialize (Hall _ Hn). subst q1. unfold spans in Hsp.
      apply orb_true_iff in E1. apply orb_false_iff in E2. lia.
  - intros H1. injection H1 as <- <-.
    destruct ((px2 <? x (slotRect s))%Z || (px2 >? x (slotRect s) + width (slotRect s))%Z).
    + destruct (DragAndDropHandler.scan px2 sl (S i)) as [[j2 q2]|] eqn:H2; [|exact I].
      apply scan_bounds in H2. lia.
    + lia.
Qed.

(** C4, as the code has it.  For pruned slots in ascending order of
    their left edge and one drag target, the position resolved by
    [handleDrag] for a pointer [px1] that lies in the rectangle of some
    slot is at most the position resolved for any pointer [px2] to its
    right. *)
Theorem resolvePosition_monotone (sl : list Slot) (tg : Target) (px1 px2 : Z) :
  ascending sl ->
  (exists s, In s sl /\ spans (slotRect s) px1) ->
  (px1 <= px2)%Z ->
  DragAndDropHandler.resolvePosition px1 sl tg
  <= DragAndDropHandler.resolvePosition px2 sl tg.
Proof.
  intros Hasc [s [Hin Hsp]] Hle. unfold DragAndDropHandler.resolvePosition.
  destruct (DragAndDropHandler.scan px1 sl 0) as [[j1 q1]|] eqn:H1.
  2:{ exfalso. eapply scan_none; eassumption. }
  pose proof (@scan_monotone sl px1 px2 0 j1 q1 Hasc Hle H1) as Hm.
  apply scan_bounds in H1. destruct H1 as [Hb1 _].
  destruct (DragAndDropHandler.scan px2 sl 0) as [[j2 q2]|] eqn:H2.
  - apply scan_bounds in H2. destruct H2 as [Hb2 _].
    destruct (Z.of_nat j1 =? Z.of_nat (length sl) - 1)%Z eqn:L1.
    + assert (j2 = j1) by lia. subst j2. rewrite L1. lia.
    + rewrite andb_false_r.
      destruct (sameRef (identity tg)
                  (DragAndDropHandler.competitorAt sl (Z.of_nat j2 - 1))
                && (Z.of_nat j2 =? Z.of_nat (length sl) - 1)%Z); lia.
  - assert (L2 : (Z.of_nat (length sl) =? Z.of_nat (length sl) - 1)%Z = false)
      by (apply Z.eqb_neq; lia).
    rewrite L2, andb_false_r.
    destruct (sameRef (identity tg)
                (DragAndDropHandler.competitorAt sl (Z.of_nat j1 - 1))
              && (Z.of_nat j1 =? Z.of_nat (length sl) - 1)%Z); lia.
Qed.

(** Whenever [handleDrag] comes back with a candidate, the position it
    recorded for it is [resolvePosition] of the pointer over the pruned
    slots. *)
Lemma handleDrag_resolves (tk : Toolkit) (h : Heap) (d : DragAndDropHandler.t)
      (p : DragParams) (sl : list Slot) :
  DragAndDropHandler.slots d = Some sl ->
  DragAndDropHandler.parent d = true ->
  let d' := snd (fst (DragAndDropHandler.handleDrag tk h d (Some p))) in
  DragAndDropHandler.candidate d' <> None ->
  DragAndDropHandler.candidatePosition d'
  = Z.of_nat (DragAndDropHandler.resolvePosition
                (x (DragAndDropHandler.parentRect tk d) + dragX p)
                (filter (fun s => Heap.valid h (competitor s)) sl)
                (target p)).
Proof.
  intros Hs Hp. unfold DragAndDropHandler.handleDrag, DragAndDropHandler.resolvePosition.
  rewrite Hs, Hp.
  set (px := (x (DragAndDropHandler.parentRect tk d) + dragX p)%Z).
  set (pruned := filter (fun s => Heap.valid h (competitor s)) sl).
  set (pos := match DragAndDropHandler.scan px pruned 0 with
              | Some (i, _) => i
              | None => length pruned
              end).
  set (after := sameRef (identity (target p))
                  (DragAndDropHandler.competitorAt pruned (Z.of_nat pos - 1))
                && (Z.of_nat pos =? Z.of_nat (length pruned) - 1)%Z).
  destruct (negb after
            && (sameRef (identity (target p))
                  (DragAndDropHandler.competitorAt pruned (Z.of_nat pos))
                || sameRef (identity (target p))
                     (DragAndDropHandler.competitorAt pruned (Z.of_nat pos - 1)))).
  - simpl. intros H. now contradiction H.
  - match goal with |- context [if ?k then _ else _] =>
      destruct k eqn:Hk end.
    + simpl. intros _. reflexivity.
    + simpl. intros _. reflexivity.
Qed.

(** C4, counterexample.  With one slot spanning 10..20, a pointer at 0
    lies in no slot and resolves to the append position 1, while the
    pointer at 15 resolves to position 0. *)
Lemma handleDrag_position_decreases :
  ascending Samples.oneSlot
  /\ DragAndDropHandler.candidatePosition
       (snd (fst (DragAndDropHandler.handleDrag Samples.toolkit Samples.oneButton
                    Samples.oneSlotHandler
                    (Some (mkDragParams 0 0 Samples.foreign))))) = 1%Z
  /\ DragAndDropHandler.candidatePosition
       (snd (fst (DragAndDropHandler.handleDrag Samples.toolkit Samples.oneButton
                    Samples.oneSlotHandler
                    (Some (mkDragParams 15 0 Samples.foreign))))) = 0%Z
  /\ ~ (forall (sl : list Slot) (tg : Target) (px1 px2 : Z),
          ascending sl -> (px1 <= px2)%Z ->
          DragAndDropHandler.resolvePosition px1 sl tg
          <= DragAndDropHandler.resolvePosition px2 sl tg).
Proof.
  assert (Hasc : ascending Samples.oneSlot).
  { unfold ascending, Samples.oneSlot. repeat constructor. }
  split; [exact Hasc|]. split; [reflexivity|]. split; [reflexivity|].
  intros H.
  specialize (H Samples.oneSlot Samples.foreign 0%Z 15%Z Hasc).
  vm_compute in H. assert (Hle : (0 ?= 15)%Z <> Gt) by discriminate.
  specialize (H Hle). inversion H.
Qed.

(** C4 on the sample: a pointer inside the only slot and one to its right. *)
Lemma resolvePosition_monotone_witness :
  DragAndDropHandler.resolvePosition 12 Samples.oneSlot Samples.foreign
  <= DragAndDropHandler.resolvePosition 30 Samples.oneSlot Samples.foreign.
Proof.
  apply resolvePosition_monotone.
  - unfold ascending, Samples.oneSlot. repeat constructor.
  - exists (mkSlot 0 (mkRect 10 0 10 40)). split; [now left|].
    unfold spans. simpl. lia.
  - lia.
Defined.

(** ** Facts about maps *)

Section MapFacts.
Variables K V : Type.
Variable eqb : K -> K -> bool.
Hypothesis eqb_eq : forall a b, eqb a b = true <-> a = b.

Lemma eqb_refl (k : K) : eqb k k = true.
Proof. now apply eqb_eq. Qed.

Lemma eqb_neq (k k' : K) : eqb k k' = false <-> k <> k'.
Proof.
  rewrite <- eqb_eq. destruct (eqb k k'); split; congruence.
Qed.

Lemma mapGet_mapSet (m : list (K * V)) (k k' : K) (v : V) :
  Js.mapGet eqb (Js.mapSet eqb m k v) k'
  = if eqb k' k then Some v else Js.mapGet eqb m k'.
Proof.
  induction m as [|[k0 v0] m IH]; simpl.
  - reflexivity.
  - destruct (eqb k k0) eqn:E; simpl.
    + apply eqb_eq in E. subst k0. destruct (eqb k' k); reflexivity.
    + destruct (eqb k' k0) eqn:E'.
      * destruct (eqb k' k) eqn:E''; [|reflexivity].
        apply eqb_eq in E'. apply eqb_eq in E''. subst.
        rewrite eqb_refl in E. discriminate.
      * exact IH.
Qed.

Lemma mapHas_In (m : list (K * V)) (k : K) :
  Js.mapHas eqb m k = true <-> In k (map fst m).
Proof.
  unfold Js.mapHas. rewrite existsb_exists, in_map_iff. split.
  - intros [e [He Hk]]. apply eqb_eq in Hk. exists e. auto.
  - intros [e [Hk He]]. exists e. split; [assumption|]. now apply eqb_eq.
Qed.

Lemma mapHas_false (m : list (K * V)) (k : K) :
  Js.mapHas eqb m k = false <-> ~ In k (map fst m).
Proof.
  rewrite <- mapHas_In. destruct (Js.mapHas eqb m k); split; congruence.
Qed.
End MapFacts.

Arguments eqb_refl {K eqb} eqb_eq k.
Arguments eqb_neq {K eqb} eqb_eq k k'.
Arguments mapGet_mapSet {K V eqb} eqb_eq m k k' v.
Arguments mapHas_In {K V eqb} eqb_eq m k.
Arguments mapHas_false {K V eqb} eqb_eq m k.

(** ** TaskbarAllocation: the allocation size *)

Lemma allocationLoop_result (h : Heap) (es : list (Ref * Z))
      (apps : list (App * nat)) (r k : Z) :
  TaskbarAllocation.allocationLoop h es apps (r + k)
  = (TaskbarAllocation.allocationLoop h es apps r + k)%Z.
Proof.
  revert apps r. induction es as [|[s w] es IH]; intros apps r;
    cbn [TaskbarAllocation.allocationLoop].
  - reflexivity.
  - destruct (Heap.app h s) as [a|].
    + destruct (APP_ALLOCATION_THRESHOLD <=?
                match Js.mapGet Nat.eqb apps a with Some n => n | None => 0 end).
      * apply IH.
      * replace (r + k + w)%Z with (r + w + k)%Z by lia. apply IH.
    + replace (r + k + w)%Z with (r + w + k)%Z by lia. apply IH.
Qed.

(** The count kept for one application does not matter to the entries
    of the others. *)
Lemma allocationLoop_other (h : Heap) (a : App) (es : list (Ref * Z)) :
  forall (apps apps' : list (App * nat)) (r : Z),
  (forall b, b <> a -> Js.mapGet Nat.eqb apps b = Js.mapGet Nat.eqb apps' b) ->
  (forall e, In e es -> boundTo h a e = false) ->
  TaskbarAllocation.allocationLoop h es apps r
  = TaskbarAllocation.allocationLoop h es apps' r.
Proof.
  induction es as [|[s w] es IH]; intros apps apps' r Hag Hno;
    cbn [TaskbarAllocation.allocationLoop].
  - reflexivity.
  - assert (Hrest : forall e, In e es -> boundTo h a e = false)
      by (intros e He; apply Hno; now right).
    pose proof (Hno (s, w) (or_introl eq_refl)) as Hs.
    unfold boundTo in Hs. simpl in Hs.
    destruct (Heap.app h s) as [b|].
    + apply Nat.eqb_neq in Hs. rewrite <- (Hag b Hs).
      destruct (APP_ALLOCATION_THRESHOLD <=?
                match Js.mapGet Nat.eqb apps b with Some n => n | None => 0 end).
      * now apply IH.
      * apply IH; [|assumption]. intros c Hc.
        rewrite !(mapGet_mapSet nat_eqb_eq). rewrite (Hag c Hc). reflexivity.
    + now apply IH.
Qed.

(** What is counted of an application whose instances all record the
    width [w]: as many instances as the threshold leaves room for. *)
Lemma allocationLoop_split (h : Heap) (a : App) (w : Z) (es : list (Ref * Z)) :
  forall (apps : list (App * nat)) (r : Z),
  (forall e, In e es -> boundTo h a e = true -> snd e = w) ->
  TaskbarAllocation.allocationLoop h es apps r
  = (TaskbarAllocation.allocationLoop h
       (filter (fun e => negb (boundTo h a e)) es) apps r
     + w * Z.of_nat
             (Nat.min (APP_ALLOCATION_THRESHOLD
                       - match Js.mapGet Nat.eqb apps a with
                         | Some n => n
                         | None => 0
                         end)
                      (length (filter (boundTo h a) es))))%Z.
Proof.
  induction es as [|[s z] es IH]; intros apps r Hw.
  - simpl. rewrite Nat.min_0_r. lia.
  - assert (Hrest : forall e, In e es -> boundTo h a e = true -> snd e = w)
      by (intros e He; apply Hw; now right).
    pose proof (Hw (s, z) (or_introl eq_refl)) as Hz.
    assert (Hbt : boundTo h a (s, z)
                  = match Heap.app h s with
                    | Some b => Nat.eqb b a
                    | None => false
                    end) by reflexivity.
    simpl filter. rewrite Hbt in Hz |- *. cbn [snd] in Hz.
    cbn [TaskbarAllocation.allocationLoop].
    destruct (Heap.app h s) as [b|] eqn:Hb.
    + destruct (Nat.eqb b a) eqn:Hba.
      * apply Nat.eqb_eq in Hba. subst b. specialize (Hz eq_refl). subst z.
        cbn [negb]. cbn [length].
        set (count := match Js.mapGet Nat.eqb apps a with
                      | Some n => n | None => 0 end).
        destruct (APP_ALLOCATION_THRESHOLD <=? count) eqn:Hc.
        -- apply Nat.leb_le in Hc. rewrite (IH apps r Hrest). fold count.
           replace (APP_ALLOCATION_THRESHOLD - count) with 0 by lia.
           reflexivity.
        -- apply Nat.leb_gt in Hc.
           rewrite (IH (Js.mapSet Nat.eqb apps a (count + 1)) (r + w)%Z Hrest).
           rewrite (mapGet_mapSet nat_eqb_eq), Nat.eqb_refl.
           rewrite (allocationLoop_other h a
                      (filter (fun e => negb (boundTo h a e)) es)
                      (Js.mapSet Nat.eqb apps a (count + 1)) apps).
           ++ rewrite allocationLoop_result.
              replace (Nat.min (APP_ALLOCATION_THRESHOLD - count)
                         (S (length (filter (boundTo h a) es))))
                with (S (Nat.min (APP_ALLOCATION_THRESHOLD - (count + 1))
                           (length (filter (boundTo h a) es)))) by lia.
              lia.
           ++ intros c Hc'. rewrite (mapGet_mapSet nat_eqb_eq).
              destruct (Nat.eqb c a) eqn:E; [|reflexivity].
              apply Nat.eqb_eq in E. contradiction.
           ++ intros e He. apply filter_In in He. destruct He as [_ He].
              now apply negb_true_iff in He.
      * cbn [negb]. cbn [TaskbarAllocation.allocationLoop]. rewrite Hb.
        destruct (APP_ALLOCATION_THRESHOLD <=?
                  match Js.mapGet Nat.eqb apps b with Some n => n | None => 0 end).
        -- now apply IH.
        -- rewrite (IH (Js.mapSet Nat.eqb apps b _) (r + z)%Z Hrest).
           rewrite (mapGet_mapSet nat_eqb_eq).
           apply Nat.eqb_neq in Hba.
           assert (E : Nat.eqb a b = false) by (apply Nat.eqb_neq; congruence).
           rewrite E. reflexivity.
    + cbn [negb]. cbn [TaskbarAllocation.allocationLoop]. rewrite Hb.
      now apply IH.
Qed.

(** Entries of other components are all counted. *)
Lemma allocationLoop_widgets (h : Heap) (es : list (Ref * Z)) :
  forall (apps : list (App * nat)) (r : Z),
  TaskbarAllocation.allocationLoop h es apps r
  = (TaskbarAllocation.allocationLoop h (filter (ofAppButton h) es) apps r
     + totalSize (filter (fun e => negb (ofAppButton h e)) es))%Z.
Proof.
  induction es as [|[s z] es IH]; intros apps r.
  - simpl. lia.
  - assert (Hbt : ofAppButton h (s, z)
                  = match Heap.app h s with
                    | Some _ => true
                    | None => false
                    end) by reflexivity.
    simpl filter. rewrite Hbt.
    cbn [TaskbarAllocation.allocationLoop].
    destruct (Heap.app h s) as [b|] eqn:Hb.
    + cbn [negb]. cbn [TaskbarAllocation.allocationLoop]. rewrite Hb.
      destruct (APP_ALLOCATION_THRESHOLD <=?
                match Js.mapGet Nat.eqb apps b with Some n => n | None => 0 end);
        apply IH.
    + cbn [negb]. cbn [totalSize fold_right snd]. fold (totalSize
        (filter (fun e => negb (ofAppButton h e)) es)).
      rewrite IH, allocationLoop_result. lia.
Qed.

Lemma allocationSize_loop (h : Heap) (al : TaskbarAllocation.t)
      (es : list (Ref * Z)) :
  TaskbarAllocation.allocation al = Some es ->
  TaskbarAllocation.allocationSize h al
  = TaskbarAllocation.allocationLoop h es [] 0.
Proof.
  intros H. unfold TaskbarAllocation.allocationSize. rewrite H.
  destruct es; reflexivity.
Qed.

(** C5. When more than two buttons of one application are recorded, all
    with the width [w], the allocation size is [2 * w] plus the size of
    the map without them; and the size of a map is the size of its
    [AppButton] entries plus every recorded size of the other entries. *)
Theorem allocationSize_threshold (h : Heap) (al rest buttons : TaskbarAllocation.t)
        (entries : list (Ref * Z)) (a : App) (w : Z) :
  TaskbarAllocation.allocation al = Some entries ->
  TaskbarAllocation.allocation rest
  = Some (filter (fun e => negb (boundTo h a e)) entries) ->
  TaskbarAllocation.allocation buttons = Some (filter (ofAppButton h) entries) ->
  (forall e, In e entries -> boundTo h a e = true -> snd e = w) ->
  2 < length (filter (boundTo h a) entries) ->
  TaskbarAllocation.allocationSize h al
  = (2 * w + TaskbarAllocation.allocationSize h rest)%Z
  /\ TaskbarAllocation.allocationSize h al
     = (TaskbarAllocation.allocationSize h buttons
        + totalSize (filter (fun e => negb (ofAppButton h e)) entries))%Z.
Proof.
  intros Hal Hrest Hbuttons Hw Hn.
  rewrite (allocationSize_loop h al _ Hal), (allocationSize_loop h rest _ Hrest),
    (allocationSize_loop h buttons _ Hbuttons).
  split.
  - rewrite (allocationLoop_split h a w entries [] 0 Hw). cbn [Js.mapGet].
    match goal with |- context [Nat.min ?m ?n] =>
      replace (Nat.min m n) with 2 by (unfold APP_ALLOCATION_THRESHOLD; lia)
    end.
    change (Z.of_nat 2) with 2%Z. lia.
  - apply allocationLoop_widgets.
Qed.

(** C5 on the sample: three buttons of one application, 40 wide each,
    and a separator. *)
Lemma allocationSize_threshold_witness :
  TaskbarAllocation.allocationSize Samples.crowd
    (Samples.allocationOf Samples.crowdEntries)
  = (2 * 40 + TaskbarAllocation.allocationSize Samples.crowd
                (Samples.allocationOf Samples.crowdRest))%Z
  /\ TaskbarAllocation.allocationSize Samples.crowd
       (Samples.allocationOf Samples.crowdEntries)
     = (TaskbarAllocation.allocationSize Samples.crowd
          (Samples.allocationOf Samples.crowdButtons)
        + totalSize Samples.crowdRest)%Z.
Proof.
  apply (allocationSize_threshold Samples.crowd
           (Samples.allocationOf Samples.crowdEntries)
           (Samples.allocationOf Samples.crowdRest)
           (Samples.allocationOf Samples.crowdButtons)
           Samples.crowdEntries 7 40%Z).
  - reflexivity.
  - reflexivity.
  - reflexivity.
  - intros e He Hb. simpl in He.
    destruct He as [<- | [<- | [<- | [<- | []]]]];
      [reflexivity | reflexivity | reflexivity | discriminate Hb].
  - simpl. repeat constructor.
Defined.

(** ** TaskbarAllocation: add and remove *)

(** C10. [add(source)] changes nothing when the rectangle of the source
    is [null]: nothing is recorded and no update is scheduled.
    [remove(source)] changes nothing when the source is not in the
    allocation map; when it is, the entry is deleted and the update job
    is reset, to the scheduled delay in drag mode and to the redraw delay
    otherwise, and queued. *)
Theorem add_remove_frame (h : Heap) (al : TaskbarAllocation.t) (s : Ref)
        (entries : list (Ref * Z)) :
  TaskbarAllocation.allocation al = Some entries ->
  ((forall c, Heap.get h s = Some c -> rect c = None) ->
   TaskbarAllocation.add h al (Some s) = al)
  /\ (Js.mapHas Nat.eqb entries s = false ->
      TaskbarAllocation.remove al (Some s) = al)
  /\ (Js.mapHas Nat.eqb entries s = true ->
      TaskbarAllocation.remove al (Some s)
      = TaskbarAllocation.mk
          (TaskbarAllocation.isDragMode al) (TaskbarAllocation.isUpdating al)
          (TaskbarAllocation.actor al)
          (Some (Js.mapDelete Nat.eqb entries s))
          (TaskbarAllocation.schedule (TaskbarAllocation.job al)
             (if TaskbarAllocation.isDragMode al then Scheduled else Redraw))
          (TaskbarAllocation.taskbar al)
      /\ Js.mapHas Nat.eqb (Js.mapDelete Nat.eqb entries s) s = false
      /\ (forall j, TaskbarAllocation.job al = Some j ->
          TaskbarAllocation.job (TaskbarAllocation.remove al (Some s))
          = Some (mkJob (if TaskbarAllocation.isDragMode al
                         then Scheduled else Redraw) true))).
Proof.
  intros Hal. split; [|split].
  - intros Hrect. unfold TaskbarAllocation.add. rewrite Hal.
    destruct (Heap.get h s) as [c|] eqn:Hc; simpl; [|reflexivity].
    now rewrite (Hrect c eq_refl).
  - intros Hhas. unfold TaskbarAllocation.remove. now rewrite Hal, Hhas.
  - intros Hhas. unfold TaskbarAllocation.remove. rewrite Hal, Hhas.
    split; [reflexivity|]. split.
    + apply (mapHas_false nat_eqb_eq). intros Hin.
      apply in_map_iff in Hin. destruct Hin as [e [He Hin]].
      unfold Js.mapDelete in Hin. apply filter_In in Hin.
      destruct Hin as [_ Hin]. rewrite He, Nat.eqb_refl in Hin. discriminate.
    + intros j Hj. simpl. rewrite Hj. reflexivity.
Qed.

(** C10 on the sample: a destroyed button is not recorded. *)
Lemma add_remove_frame_witness :
  TaskbarAllocation.add Samples.gone (Samples.allocationOf Samples.crowdEntries)
    (Some 0)
  = Samples.allocationOf Samples.crowdEntries.
Proof.
  apply (proj1 (add_remove_frame Samples.gone
                  (Samples.allocationOf Samples.crowdEntries) 0
                  Samples.crowdEntries eq_refl)).
  intros c Hc. injection Hc as <-. reflexivity.
Defined.

(** A source that is [null] and a manager that was destroyed are left
    alone as well. *)
Lemma add_remove_null (h : Heap) (al : TaskbarAllocation.t) (s : option Ref) :
  TaskbarAllocation.add h al None = al
  /\ TaskbarAllocation.remove al None = al
  /\ (TaskbarAllocation.allocation al = None ->
      TaskbarAllocation.add h al s = al /\ TaskbarAllocation.remove al s = al).
Proof.
  split; [reflexivity|]. split; [reflexivity|]. intros H.
  unfold TaskbarAllocation.add, TaskbarAllocation.remove. rewrite H.
  destruct s; split; reflexivity.
Qed.

(** ** TaskbarAllocation: update *)




(** ** Facts about the heap *)

Lemma get_update (h : Heap) (r r' : Ref) (f : Component -> Component) :
  Heap.get (Heap.update h r f) r'
  = if Nat.eqb r r' then option_map f (Heap.get h r') else Heap.get h r'.
Proof.
  unfold Heap.get. revert r r'.
  induction h as [|c h IH]; intros r r'.
  - simpl. destruct (Nat.eqb r r'); destruct r'; reflexivity.
  - destruct r as [|r]; destruct r' as [|r']; simpl; try reflexivity.
    apply IH.
Qed.

Lemma length_update (h : Heap) (r : Ref) (f : Component -> Component) :
  length (Heap.update h r f) = length h.
Proof.
  revert r. induction h as [|c h IH]; intros [|r]; simpl; auto.
Qed.

Lemma get_alloc (h : Heap) (c : Component) (r : Ref) :
  Heap.get (fst (Heap.alloc h c)) r
  = if r <? length h then Heap.get h r
    else if Nat.eqb r (length h) then Some c else None.
Proof.
  unfold Heap.get, Heap.alloc. simpl.
  destruct (r <? length h) eqn:E.
  - apply Nat.ltb_lt in E. now apply nth_error_app1.
  - apply Nat.ltb_ge in E. rewrite nth_error_app2 by assumption.
    destruct (Nat.eqb r (length h)) eqn:E'.
    + apply Nat.eqb_eq in E'. subst r. now rewrite Nat.sub_diag.
    + apply Nat.eqb_neq in E'.
      destruct (r - length h) as [|n] eqn:D; [lia|]. simpl. now destruct n.
Qed.

Lemma get_Some_lt (h : Heap) (r : Ref) (c : Component) :
  Heap.get h r = Some c -> r < length h.
Proof. intros H. apply nth_error_Some. unfold Heap.get in H. congruence. Qed.

Lemma get_None_ge (h : Heap) (r : Ref) :
  Heap.get h r = None <-> length h <= r.
Proof. apply nth_error_None. Qed.

Lemma valid_destroy_same (h : Heap) (r : Ref) :
  Heap.valid (Heap.destroy h r) r = false.
Proof.
  unfold Heap.valid, Heap.destroy. rewrite get_update, Nat.eqb_refl.
  destruct (Heap.get h r); reflexivity.
Qed.

Lemma valid_destroy_other (h : Heap) (r r' : Ref) :
  r <> r' -> Heap.valid (Heap.destroy h r) r' = Heap.valid h r'.
Proof.
  intros H. unfold Heap.valid, Heap.destroy. rewrite get_update.
  apply Nat.eqb_neq in H. now rewrite H.
Qed.

Lemma app_destroy (h : Heap) (r r' : Ref) :
  Heap.app (Heap.destroy h r) r' = Heap.app h r'.
Proof.
  unfold Heap.app, Heap.destroy. rewrite get_update.
  destruct (Nat.eqb r r'); [|reflexivity].
  destruct (Heap.get h r'); reflexivity.
Qed.

Lemma favorite_destroy (h : Heap) (r r' : Ref) :
  Heap.favorite (Heap.destroy h r) r' = Heap.favorite h r'.
Proof.
  unfold Heap.favorite, Heap.destroy. rewrite get_update.
  destruct (Nat.eqb r r'); [|reflexivity].
  destruct (Heap.get h r'); reflexivity.
Qed.

(** ** Taskbar.#rerender: nothing to show *)

(** C7. When the desired set of [#rerender] is [null] or empty, the call
    leaves every component as it was (none is created, none destroyed,
    the visibility of the separator is not written), and the button map,
    the placement of the buttons and of the separator, the recorded
    separator position, the drag handler and the allocation manager are
    unchanged. *)
Theorem rerender_nothing_desired (tk : Toolkit) (t0 : Taskbar.t) :
  (let desired := Taskbar.desiredApps (Taskbar.favoriteApps t0)
                    (snd (Taskbar.getRunningApps t0)) in
   desired = None \/ desired = Some []) ->
  let t' := Taskbar.rerender tk t0 in
  Taskbar.heap t' = Taskbar.heap t0
  /\ Taskbar.appButtons t' = Taskbar.appButtons t0
  /\ Taskbar.placed t' = Taskbar.placed t0
  /\ Taskbar.separatorIndex t' = Taskbar.separatorIndex t0
  /\ Taskbar.separatorPosition t' = Taskbar.separatorPosition t0
  /\ Taskbar.separator t' = Taskbar.separator t0
  /\ Taskbar.objects t' = Taskbar.objects t0
  /\ Taskbar.dndHandler t' = Taskbar.dndHandler t0
  /\ Taskbar.allocation t' = Taskbar.allocation t0.
Proof.
  intros Hd t'. subst t'. unfold Taskbar.rerender.
  destruct (Taskbar.appButtons t0) as [old|] eqn:Hab; rewrite <- ?Hab;
    [|repeat split].
  destruct (negb (Taskbar.hasAllocation t0) || Taskbar.isQueued t0);
    [repeat split|].
  assert (Hframe : forall t1 r, Taskbar.getRunningApps t0 = (t1, r) ->
            Taskbar.heap t1 = Taskbar.heap t0
            /\ Taskbar.appButtons t1 = Taskbar.appButtons t0
            /\ Taskbar.placed t1 = Taskbar.placed t0
            /\ Taskbar.separatorIndex t1 = Taskbar.separatorIndex t0
            /\ Taskbar.separatorPosition t1 = Taskbar.separatorPosition t0
            /\ Taskbar.separator t1 = Taskbar.separator t0
            /\ Taskbar.objects t1 = Taskbar.objects t0
            /\ Taskbar.dndHandler t1 = Taskbar.dndHandler t0
            /\ Taskbar.allocation t1 = Taskbar.allocation t0).
  { intros t1 r. unfold Taskbar.getRunningApps.
    destruct (Taskbar.service t0) as [s|]; [|intros [= <- _]; repeat split].
    destruct (workspace s) as [ws|]; [|intros [= <- _]; repeat split].
    destruct (queryApps s _ _) as [[|a ra]|]; try (intros [= <- _]; repeat split).
    destruct (negb (Js.mapHas Nat.eqb (Taskbar.runningApps t0) ws));
      intros [= <- _]; repeat split. }
  destruct (Taskbar.getRunningApps t0) as [t1 running] eqn:Hg.
  specialize (Hframe t1 running eq_refl). cbv zeta in Hd |- *. cbn [snd] in Hd.
  destruct Hd as [Hd | Hd]; rewrite Hd; exact Hframe.
Qed.

(** C7 on the sample: no favorite and no answer from the query. *)
Lemma rerender_nothing_desired_witness :
  Taskbar.heap (Taskbar.rerender Samples.toolkit Samples.idle)
  = Taskbar.heap Samples.idle
  /\ Taskbar.appButtons (Taskbar.rerender Samples.toolkit Samples.idle)
     = Taskbar.appButtons Samples.idle
  /\ Taskbar.placed (Taskbar.rerender Samples.toolkit Samples.idle)
     = Taskbar.placed Samples.idle.
Proof.
  pose proof (rerender_nothing_desired Samples.toolkit Samples.idle
                (or_intror eq_refl)) as H.
  split; [apply H|]. split; apply H.
Defined.

(** The desired set is empty when there is no favorite and the query of
    the running applications answers [null] or an empty set. *)
Lemma desiredApps_empty (t0 : Taskbar.t) :
  (Taskbar.favoriteApps t0 = None \/ Taskbar.favoriteApps t0 = Some []) ->
  (snd (Taskbar.getRunningApps t0) = None
   \/ snd (Taskbar.getRunningApps t0) = Some []) ->
  Taskbar.desiredApps (Taskbar.favoriteApps t0) (snd (Taskbar.getRunningApps t0))
  = None
  \/ Taskbar.desiredApps (Taskbar.favoriteApps t0)
       (snd (Taskbar.getRunningApps t0)) = Some [].
Proof.
  intros [-> | ->] [-> | ->]; simpl; auto.
Qed.

(** The query decides what [#getRunningApps] answers when it is empty. *)
Lemma getRunningApps_empty (t0 : Taskbar.t) (s : TaskbarClient) :
  Taskbar.service t0 = Some s ->
  (queryApps s (isolateWorkspaces (Taskbar.config t0))
             (showAllWindows (Taskbar.config t0)) = None
   \/ queryApps s (isolateWorkspaces (Taskbar.config t0))
                (showAllWindows (Taskbar.config t0)) = Some []) ->
  snd (Taskbar.getRunningApps t0) = None
  \/ snd (Taskbar.getRunningApps t0) = Some [].
Proof.
  intros Hs Hq. unfold Taskbar.getRunningApps. rewrite Hs.
  destruct (workspace s); [|now left].
  destruct Hq as [-> | ->]; simpl; auto.
Qed.

(** ** Taskbar.#handleDrop: a promotion that the favorites refuse *)

(** C8. When the drag handler hands over a candidate bound to an
    application, a workspace is active, the candidate lies before the
    separator among the dropped items and [canAdd] refuses its
    application, [#handleDrop] answers [true], destroys the candidate and
    nothing else, and leaves the cache of running applications, the
    button map and the favorites as they were. *)
Theorem handleDrop_refused (t0 : Taskbar.t) (d d1 : DragAndDropHandler.t)
        (c : Ref) (items : list Ref) (a : App) (svc : TaskbarClient)
        (w : Workspace) (f : Favorites) :
  Taskbar.dndHandler t0 = Some d ->
  DragAndDropHandler.handleDrop (Taskbar.heap t0) d = (Some (c, items), d1) ->
  Heap.app (Taskbar.heap t0) c = Some a ->
  Taskbar.service t0 = Some svc ->
  workspace svc = Some w ->
  favorites svc = Some f ->
  (let r := Taskbar.collect (Taskbar.heap t0) c a
              (match Taskbar.appButtons t0 with
               | Some ab => Js.mapGet key_eqb ab (KApp a)
               | None => None
               end)
              items 0 (Taskbar.mkDrop [] [] (Taskbar.objects t0) (-1) (-1)) in
   (Taskbar.dropCandidatePosition r < Taskbar.dropSeparatorPosition r)%Z) ->
  canAdd f a = false ->
  let t' := fst (Taskbar.handleDrop t0) in
  snd (Taskbar.handleDrop t0) = true
  /\ Taskbar.heap t' = Heap.destroy (Taskbar.heap t0) c
  /\ Heap.valid (Taskbar.heap t') c = false
  /\ (forall r, r <> c ->
        Heap.get (Taskbar.heap t') r = Heap.get (Taskbar.heap t0) r)
  /\ Taskbar.runningApps t' = Taskbar.runningApps t0
  /\ Taskbar.appButtons t' = Taskbar.appButtons t0
  /\ Taskbar.service t' = Taskbar.service t0
  /\ Taskbar.objects t' = Taskbar.objects t0.
Proof.
  intros Hd Hdrop Happ Hsvc Hws Hfav Hpos Hcan t'. subst t'.
  unfold Taskbar.handleDrop. rewrite Hd, Hdrop, Happ, Hsvc, Hws, Hfav.
  cbv zeta in Hpos. apply Z.ltb_lt in Hpos. rewrite Hpos, Hcan. simpl.
  repeat split; try assumption.
  - apply valid_destroy_same.
  - intros r Hr. unfold Heap.destroy. rewrite get_update.
    assert (E : Nat.eqb c r = false) by (apply Nat.eqb_neq; congruence).
    now rewrite E.
Qed.

(** C8 on the sample: the candidate of application 11 dropped before
    the separator, with favorites that take no more. *)
Lemma handleDrop_refused_witness :
  snd (Taskbar.handleDrop Samples.promotion) = true
  /\ Taskbar.heap (fst (Taskbar.handleDrop Samples.promotion))
     = Heap.destroy (Taskbar.heap Samples.promotion) 3.
Proof.
  pose proof (handleDrop_refused Samples.promotion
                (DragAndDropHandler.mk
                   (Some [mkSlot 3 (mkRect 0 0 40 40); mkSlot 1 (mkRect 0 0 40 40);
                          mkSlot 0 (mkRect 40 0 4 40); mkSlot 2 (mkRect 44 0 40 40)])
                   true (Some 3) 0 true true)
                (DragAndDropHandler.mk
                   (Some [mkSlot 3 (mkRect 0 0 40 40); mkSlot 1 (mkRect 0 0 40 40);
                          mkSlot 0 (mkRect 40 0 4 40); mkSlot 2 (mkRect 44 0 40 40)])
                   true None 0 true true)
                3 [3; 1; 0; 2] 11 (Samples.client [10] false (Some [11])) 0
                (mkFavorites [10] (fun _ => false))
                eq_refl eq_refl eq_refl eq_refl eq_refl eq_refl eq_refl eq_refl)
    as H.
  split; apply H.
Defined.

(** ** Heaps that come after one another *)

Lemma evolves_refl (h : Heap) : evolves h h.
Proof.
  split; [lia|]. intros r c H. exists c. auto.
Qed.

Lemma evolves_trans (h1 h2 h3 : Heap) :
  evolves h1 h2 -> evolves h2 h3 -> evolves h1 h3.
Proof.
  intros [L1 H1] [L2 H2]. split; [lia|].
  intros r c Hc. destruct (H1 r c Hc) as [c2 [G2 [K2 V2]]].
  destruct (H2 r c2 G2) as [c3 [G3 [K3 V3]]].
  exists c3. repeat split; [assumption | congruence | auto].
Qed.

Lemma evolves_update (h : Heap) (r : Ref) (f : Component -> Component) :
  (forall c, kind (f c) = kind c /\ (isValid (f c) = true -> isValid c = true)) ->
  evolves h (Heap.update h r f).
Proof.
  intros Hf. split; [rewrite length_update; lia|].
  intros r' c Hc. rewrite get_update, Hc.
  destruct (Nat.eqb r r').
  - exists (f c). split; [reflexivity|]. apply Hf.
  - exists c. auto.
Qed.

Lemma evolves_destroy (h : Heap) (r : Ref) : evolves h (Heap.destroy h r).
Proof.
  apply evolves_update. intros c. simpl. split; [reflexivity | discriminate].
Qed.

Lemma evolves_destroyOpt (h : Heap) (r : option Ref) :
  evolves h (Heap.destroyOpt h r).
Proof.
  destruct r; [apply evolves_destroy | apply evolves_refl].
Qed.

Lemma evolves_setVisible (h : Heap) (r : Ref) (v : bool) :
  evolves h (Taskbar.setVisible h r v).
Proof.
  apply evolves_update. intros c. simpl. auto.
Qed.

Lemma evolves_dropButton (h : Heap) (r : Ref) (v : bool) :
  evolves h (Taskbar.dropButton h r v).
Proof.
  apply evolves_update. intros c. simpl. auto.
Qed.

Lemma evolves_alloc (h : Heap) (c : Component) :
  evolves h (fst (Heap.alloc h c)).
Proof.
  split.
  - simpl. rewrite length_app. lia.
  - intros r c' Hc. exists c'. rewrite get_alloc.
    apply get_Some_lt in Hc as Hlt. apply Nat.ltb_lt in Hlt. rewrite Hlt. auto.
Qed.

Lemma evolves_app (h h' : Heap) (r : Ref) (a : App) :
  evolves h h' -> Heap.app h r = Some a -> Heap.app h' r = Some a.
Proof.
  intros [_ H] Ha. unfold Heap.app in *.
  destruct (Heap.get h r) as [c|] eqn:Hc; [|discriminate].
  destruct (H r c Hc) as [c' [G [K _]]]. rewrite G.
  unfold appOf in *. now rewrite K.
Qed.

Lemma evolves_invalid (h h' : Heap) (r : Ref) :
  evolves h h' -> r < length h -> Heap.valid h r = false ->
  Heap.valid h' r = false.
Proof.
  intros [_ H] Hlt Hv. unfold Heap.valid in *.
  destruct (Heap.get h r) as [c|] eqn:Hc.
  - destruct (H r c Hc) as [c' [G [_ V]]]. rewrite G.
    destruct (isValid c'); [|reflexivity]. rewrite V in Hv; auto.
  - apply get_None_ge in Hc. lia.
Qed.

Lemma evolves_valid (h h' : Heap) (r : Ref) :
  evolves h h' -> r < length h -> Heap.valid h' r = true ->
  Heap.valid h r = true.
Proof.
  intros He Hlt Hv. destruct (Heap.valid h r) eqn:E; [reflexivity|].
  rewrite (evolves_invalid h h' r He Hlt E) in Hv. discriminate.
Qed.

Lemma valid_lt (h : Heap) (r : Ref) : Heap.valid h r = true -> r < length h.
Proof.
  unfold Heap.valid. destruct (Heap.get h r) eqn:E; [|discriminate].
  intros _. eapply get_Some_lt; eassumption.
Qed.

Lemma app_lt (h : Heap) (r : Ref) (a : App) :
  Heap.app h r = Some a -> r < length h.
Proof.
  unfold Heap.app. destruct (Heap.get h r) eqn:E; [|discriminate].
  intros _. eapply get_Some_lt; eassumption.
Qed.

(** ** Button maps in order *)

Lemma key_eqb_eq (k k' : Key) : key_eqb k k' = true <-> k = k'.
Proof.
  destruct k, k'; simpl; rewrite ?Nat.eqb_eq; split; congruence.
Qed.

Section MapSetFacts.
Variables K V : Type.
Variable eqb : K -> K -> bool.
Hypothesis eqb_eq : forall a b, eqb a b = true <-> a = b.

Lemma mapSet_In (m : list (K * V)) (k : K) (v : V) (e : K * V) :
  In e (Js.mapSet eqb m k v) -> In e m \/ e = (k, v).
Proof.
  induction m as [|[k0 v0] m IH]; simpl.
  - intros [<- | []]. now right.
  - destruct (eqb k k0) eqn:E.
    + apply eqb_eq in E. subst k0. intros [<- | H]; [now right | left; now right].
    + intros [<- | H]; [left; now left|].
      destruct (IH H); [left; now right | now right].
Qed.

Lemma mapSet_keys (m : list (K * V)) (k : K) (v : V) :
  map fst (Js.mapSet eqb m k v)
  = if Js.mapHas eqb m k then map fst m else map fst m ++ [k].
Proof.
  induction m as [|[k0 v0] m IH]; simpl.
  - reflexivity.
  - unfold Js.mapHas in *. simpl. destruct (eqb k k0) eqn:E; simpl.
    + reflexivity.
    + rewrite IH. destruct (existsb (fun e => eqb k (fst e)) m); reflexivity.
Qed.

Lemma mapSet_fresh (m : list (K * V)) (k : K) (v : V) :
  Js.mapHas eqb m k = false -> Js.mapSet eqb m k v = m ++ [(k, v)].
Proof.
  induction m as [|[k0 v0] m IH]; simpl; [reflexivity|].
  unfold Js.mapHas in *. simpl. destruct (eqb k k0); simpl; [discriminate|].
  intros H. now rewrite IH.
Qed.

Lemma mapSet_NoDup (m : list (K * V)) (k : K) (v : V) :
  NoDup (map fst m) -> NoDup (map fst (Js.mapSet eqb m k v)).
Proof.
  intros H. rewrite mapSet_keys. destruct (Js.mapHas eqb m k) eqn:E; [assumption|].
  apply (mapHas_false eqb_eq) in E.
  apply NoDup_app; [assumption | | ].
  - constructor; [intros [] | constructor].
  - intros y Hy [<- | []]. contradiction.
Qed.

Lemma mapSet_Forall (P : K * V -> Prop) (m : list (K * V)) (k : K) (v : V) :
  Forall P m -> P (k, v) -> Forall P (Js.mapSet eqb m k v).
Proof.
  intros Hm Hk. rewrite Forall_forall in *. intros e He.
  apply mapSet_In in He. destruct He as [He | ->]; auto.
Qed.

Lemma mapFrom_fold_In (l m : list (K * V)) (e : K * V) :
  In e (fold_left (fun m e => Js.mapSet eqb m (fst e) (snd e)) l m) ->
  In e m \/ In e l.
Proof.
  revert m. induction l as [|[k v] l IH]; intros m; simpl; [tauto|].
  intros H. apply IH in H. destruct H as [H | H]; [|right; now right].
  apply mapSet_In in H. destruct H as [H | ->]; [now left | right; now left].
Qed.

Lemma mapFrom_In (l : list (K * V)) (e : K * V) :
  In e (Js.mapFrom eqb l) -> In e l.
Proof.
  intros H. apply mapFrom_fold_In in H. destruct H as [[] | H]. exact H.
Qed.

Lemma mapFrom_fold_NoDup (l m : list (K * V)) :
  NoDup (map fst m) ->
  NoDup (map fst (fold_left (fun m e => Js.mapSet eqb m (fst e) (snd e)) l m)).
Proof.
  revert m. induction l as [|[k v] l IH]; intros m H; simpl; [assumption|].
  apply IH. now apply mapSet_NoDup.
Qed.

Lemma mapFrom_NoDup (l : list (K * V)) : NoDup (map fst (Js.mapFrom eqb l)).
Proof. apply mapFrom_fold_NoDup. constructor. Qed.
End MapSetFacts.

Arguments mapSet_In {K V eqb} eqb_eq m k v e _.
Arguments mapSet_keys {K V eqb} m k v.
Arguments mapSet_fresh {K V eqb} m k v _.
Arguments mapSet_NoDup {K V eqb} eqb_eq m k v _.
Arguments mapSet_Forall {K V eqb} eqb_eq P m k v _ _.
Arguments mapFrom_In {K V eqb} eqb_eq l e _.
Arguments mapFrom_NoDup {K V eqb} eqb_eq l.

Lemma entryOK_evolves (h h' : Heap) (e : Key * Ref) :
  evolves h h' -> entryOK h e -> entryOK h' e.
Proof.
  intros He [Hlt Hk]. split; [destruct He; lia|].
  destruct (fst e).
  - eapply evolves_app; eassumption.
  - eapply evolves_invalid; eassumption.
Qed.

Lemma Forall_entryOK_evolves (h h' : Heap) (m : list (Key * Ref)) :
  evolves h h' -> Forall (entryOK h) m -> Forall (entryOK h') m.
Proof.
  intros He. apply Forall_impl. intros e. now apply entryOK_evolves.
Qed.

Lemma registered_evolves (h h' : Heap) (m : list (Key * Ref)) :
  evolves h h' -> registered h m -> registered h' m.
Proof.
  intros He [Hn Hf]. split; [assumption|].
  eapply Forall_entryOK_evolves; eassumption.
Qed.

Lemma registered_mapSet (h : Heap) (m : list (Key * Ref)) (k : Key) (b : Ref) :
  registered h m -> entryOK h (k, b) -> registered h (Js.mapSet key_eqb m k b).
Proof.
  intros [Hn Hf] Hk. split.
  - now apply (mapSet_NoDup key_eqb_eq).
  - now apply (mapSet_Forall key_eqb_eq).
Qed.

Lemma registered_nil (h : Heap) : registered h [].
Proof. split; constructor. Qed.

Lemma mapGet_In (m : list (Key * Ref)) (k : Key) (b : Ref) :
  Js.mapGet key_eqb m k = Some b -> In (k, b) m.
Proof.
  induction m as [|[k0 v0] m IH]; simpl; [discriminate|].
  destruct (key_eqb k k0) eqn:E.
  - apply key_eqb_eq in E. subst k0. intros [= ->]. now left.
  - intros H. right. now apply IH.
Qed.

(** ** The button map stays in order *)

Lemma getRunningApps_fields (t0 : Taskbar.t) :
  fst (Taskbar.getRunningApps t0)
  = Taskbar.setRunningApps t0
      (Taskbar.runningApps (fst (Taskbar.getRunningApps t0))).
Proof.
  unfold Taskbar.getRunningApps.
  destruct (Taskbar.service t0) as [s|]; [|now destruct t0].
  destruct (workspace s) as [ws|]; [|now destruct t0].
  destruct (queryApps s _ _) as [[|a ra]|]; try reflexivity.
  destruct (negb (Js.mapHas Nat.eqb (Taskbar.runningApps t0) ws)); reflexivity.
Qed.

Lemma create_inv (tk : Toolkit) (favs : option (list App)) (h0 hp : Heap)
      (nb : list (Key * Ref)) (a : App) :
  evolves h0 hp -> registered hp nb ->
  evolves h0 (fst (Heap.alloc hp (Taskbar.newAppButton tk favs a)))
  /\ registered (fst (Heap.alloc hp (Taskbar.newAppButton tk favs a)))
       (Js.mapSet key_eqb nb (KApp a)
          (snd (Heap.alloc hp (Taskbar.newAppButton tk favs a)))).
Proof.
  intros He Hr.
  pose proof (evolves_alloc hp (Taskbar.newAppButton tk favs a)) as Ha.
  split; [eapply evolves_trans; eassumption|].
  apply registered_mapSet; [eapply registered_evolves; eassumption|].
  split; simpl.
  - rewrite length_app. simpl. lia.
  - unfold Heap.app.
    change (hp ++ [Taskbar.newAppButton tk favs a])
      with (fst (Heap.alloc hp (Taskbar.newAppButton tk favs a))).
    rewrite get_alloc, Nat.ltb_irrefl, Nat.eqb_refl. reflexivity.
Qed.

Lemma visit_inv (tk : Toolkit) (old : list (Key * Ref)) (sp : Z)
      (favs : option (list App)) (h0 : Heap) (p : Taskbar.Pass) (a : App) :
  registered h0 old ->
  evolves h0 (Taskbar.passHeap p) ->
  registered (Taskbar.passHeap p) (Taskbar.newButtons p) ->
  evolves h0 (Taskbar.passHeap (Taskbar.visit tk old sp favs p a))
  /\ registered (Taskbar.passHeap (Taskbar.visit tk old sp favs p a))
       (Taskbar.newButtons (Taskbar.visit tk old sp favs p a)).
Proof.
  intros Hold He Hr. unfold Taskbar.visit.
  pose proof (create_inv tk favs h0 (Taskbar.passHeap p) (Taskbar.newButtons p) a
                He Hr) as Hc.
  destruct (Js.mapGet key_eqb old (KApp a)) as [b|] eqn:Hg; [|exact Hc].
  destruct (Heap.valid (Taskbar.passHeap p) b); [|exact Hc].
  match goal with |- context [if ?c then _ else _] => destruct c end;
    [|exact Hc].
  simpl. split; [assumption|].
  apply registered_mapSet; [assumption|].
  apply (entryOK_evolves h0); [assumption|].
  destruct Hold as [_ Hf]. rewrite Forall_forall in Hf.
  apply Hf. now apply mapGet_In.
Qed.

Lemma visit_fold_inv (tk : Toolkit) (old : list (Key * Ref)) (sp : Z)
      (favs : option (list App)) (h0 : Heap) (l : list App) :
  forall p,
  registered h0 old ->
  evolves h0 (Taskbar.passHeap p) ->
  registered (Taskbar.passHeap p) (Taskbar.newButtons p) ->
  evolves h0 (Taskbar.passHeap (fold_left (Taskbar.visit tk old sp favs) l p))
  /\ registered (Taskbar.passHeap (fold_left (Taskbar.visit tk old sp favs) l p))
       (Taskbar.newButtons (fold_left (Taskbar.visit tk old sp favs) l p)).
Proof.
  induction l as [|a l IH]; intros p Hold He Hr; simpl; [now split|].
  destruct (visit_inv tk old sp favs h0 p a Hold He Hr) as [He' Hr'].
  now apply IH.
Qed.

Lemma retire_inv (fl : list App) (es : list (Key * Ref)) :
  forall (h : Heap) (n : nat) (acc : list (Key * Ref)),
  Forall (entryOK h) es -> registered h acc ->
  evolves h (fst (fst (Taskbar.retire fl es h n acc)))
  /\ registered (fst (fst (Taskbar.retire fl es h n acc)))
       (snd (Taskbar.retire fl es h n acc)).
Proof.
  induction es as [|[k b] es IH]; intros h n acc Hes Hacc; simpl.
  - split; [apply evolves_refl | assumption].
  - inversion Hes as [|e es' Hkb Hrest]; subst.
    destruct (match k with
              | KApp a => Js.setHas Nat.eqb fl a
              | KObj _ => false
              end).
    + pose proof (evolves_destroy h b) as Hd.
      assert (Hacc1 : registered h
                (if negb (Heap.favorite h b)
                 then Js.mapSet key_eqb acc k b else acc)).
      { destruct (negb (Heap.favorite h b)); [|assumption].
        now apply registered_mapSet. }
      assert (Hacc2 : registered (Heap.destroy h b)
                (Js.mapSet key_eqb
                   (if negb (Heap.favorite h b)
                    then Js.mapSet key_eqb acc k b else acc) (KObj n) b)).
      { apply registered_mapSet; [eapply registered_evolves; eassumption|].
        destruct Hkb as [Hlt _]. split; simpl.
        - unfold Heap.destroy. rewrite length_update. exact Hlt.
        - apply valid_destroy_same. }
      destruct (IH (Heap.destroy h b) (S n) _
                  (Forall_entryOK_evolves _ _ _ Hd Hrest) Hacc2) as [He Hr].
      split; [eapply evolves_trans; eassumption | assumption].
    + apply IH; [assumption|]. now apply registered_mapSet.
Qed.

Lemma absorb_inv (h : Heap) (hasFavoritesApps : bool) (l : list (Key * Ref)) :
  forall m,
  Forall (entryOK h) l -> registered h (Taskbar.mergedButtons m) ->
  registered h (Taskbar.mergedButtons
                  (fold_left (Taskbar.absorb h hasFavoritesApps) l m)).
Proof.
  induction l as [|[k b] l IH]; intros m Hl Hm; simpl; [assumption|].
  inversion Hl as [|e l' Hkb Hrest]; subst.
  apply IH; [assumption|].
  destruct (negb (Heap.valid h b)); [assumption|].
  destruct (Js.mapHas key_eqb (Taskbar.mergedButtons m) k); simpl; [assumption|].
  now apply registered_mapSet.
Qed.

Lemma retirePass_inv (p : Taskbar.Pass) (old : list (Key * Ref)) (n : nat) :
  registered (Taskbar.passHeap p) old ->
  evolves (Taskbar.passHeap p) (fst (fst (Taskbar.retirePass p old n)))
  /\ registered (fst (fst (Taskbar.retirePass p old n)))
       (snd (Taskbar.retirePass p old n)).
Proof.
  intros Hold. unfold Taskbar.retirePass. destruct (Taskbar.oldFavorites p).
  - simpl. split; [apply evolves_refl | assumption].
  - apply retire_inv; [apply Hold | apply registered_nil].
Qed.

Lemma mergePass_inv (h : Heap) (hasFavoritesApps : bool) (old : list (Key * Ref))
      (p : Taskbar.Pass) (sep0 : Z) :
  registered h old -> registered h (Taskbar.newButtons p) ->
  registered h (Taskbar.mergedButtons
                  (Taskbar.mergePass h hasFavoritesApps old p sep0)).
Proof.
  intros [_ Hold] Hnew. unfold Taskbar.mergePass. cbv zeta.
  destruct (negb (length (Js.mapFrom key_eqb (old ++ Taskbar.newButtons p))
                  =? length (Taskbar.newButtons p))); [|exact Hnew].
  apply absorb_inv; [|exact Hnew].
  apply Forall_forall. intros e He. apply (mapFrom_In key_eqb_eq) in He.
  apply in_app_or in He. destruct Hnew as [_ Hnew].
  rewrite Forall_forall in Hold, Hnew. destruct He; auto.
Qed.

Lemma reconcile_wellFormed (tk : Toolkit) (t1 : Taskbar.t)
      (old : list (Key * Ref)) (favs : option (list App)) (desired : list App) :
  registered (Taskbar.heap t1) old ->
  wellFormed (Taskbar.reconcile tk t1 old favs desired).
Proof.
  intros Hold. unfold Taskbar.reconcile. cbv zeta.
  set (p := Taskbar.firstPass tk old (Taskbar.separatorPosition t1) favs desired
              (Taskbar.heap t1)).
  destruct (visit_fold_inv tk old (Taskbar.separatorPosition t1) favs
              (Taskbar.heap t1) desired
              (Taskbar.mkPass (Taskbar.heap t1) [] [] []) Hold
              (evolves_refl _) (registered_nil _)) as [Hep Hrp].
  fold (Taskbar.firstPass tk old (Taskbar.separatorPosition t1) favs desired
          (Taskbar.heap t1)) in Hep, Hrp. fold p in Hep, Hrp.
  destruct (retirePass_inv p old (Taskbar.objects t1)
              (registered_evolves _ _ _ Hep Hold)) as [He1 Hr1].
  destruct (Taskbar.retirePass p old (Taskbar.objects t1)) as [[h1 n1] old1].
  simpl in He1, Hr1.
  assert (Hnew : registered h1 (Taskbar.newButtons p))
    by (eapply registered_evolves; eassumption).
  match goal with |- context [Taskbar.mergePass h1 ?hf old1 p ?s0] =>
    pose proof (mergePass_inv h1 hf old1 p s0 Hr1 Hnew) as Hm;
    set (m := Taskbar.mergePass h1 hf old1 p s0) in *
  end.
  destruct (Taskbar.separator t1) as [sep|]; unfold wellFormed; simpl.
  - eapply registered_evolves; [apply evolves_setVisible | exact Hm].
  - exact Hm.
Qed.

(** [#rerender] keeps the button map in order. *)
Lemma rerender_wellFormed (tk : Toolkit) (t0 : Taskbar.t) :
  wellFormed t0 -> wellFormed (Taskbar.rerender tk t0).
Proof.
  intros Hwf. unfold Taskbar.rerender.
  destruct (Taskbar.appButtons t0) as [old|] eqn:Hab; [|assumption].
  destruct (negb (Taskbar.hasAllocation t0) || Taskbar.isQueued t0);
    [assumption|].
  pose proof (getRunningApps_fields t0) as Hg.
  destruct (Taskbar.getRunningApps t0) as [t1 running]. simpl in Hg.
  assert (Hwf1 : wellFormed t1).
  { rewrite Hg. unfold wellFormed in *. simpl. exact Hwf. }
  cbv zeta.
  destruct (Taskbar.desiredApps (Taskbar.favoriteApps t0) running)
    as [[|a desired]|]; try exact Hwf1.
  apply reconcile_wellFormed.
  unfold wellFormed in Hwf. rewrite Hab in Hwf. rewrite Hg. exact Hwf.
Qed.

Lemma handleDrag_evolves (tk : Toolkit) (h : Heap) (d : DragAndDropHandler.t)
      (params : option DragParams) :
  evolves h (fst (fst (DragAndDropHandler.handleDrag tk h d params))).
Proof.
  unfold DragAndDropHandler.handleDrag.
  destruct params as [p|]; [|apply evolves_refl].
  destruct (DragAndDropHandler.slots d) as [sl|]; [|apply evolves_refl].
  destruct (DragAndDropHandler.parent d); [|apply evolves_refl].
  cbv zeta.
  match goal with |- context [if ?c then _ else _] => destruct c end.
  - simpl. apply evolves_destroyOpt.
  - match goal with |- context [if ?c then _ else _] => destruct c end.
    + simpl. apply evolves_refl.
    + simpl. eapply evolves_trans; [apply evolves_destroyOpt|].
      apply (evolves_alloc (Heap.destroyOpt h (DragAndDropHandler.candidate d))).
Qed.

Ltac untouched :=
  simpl; split; [apply evolves_refl | split; first [assumption | reflexivity]].

(** [#handleDragOver] does not touch the button map. *)
Lemma handleDragOver_frame (tk : Toolkit) (t0 : Taskbar.t)
      (payload : option Payload) (params : option (Z * Z)) :
  evolves (Taskbar.heap t0)
          (Taskbar.heap (fst (Taskbar.handleDragOver tk t0 payload params)))
  /\ Taskbar.appButtons (fst (Taskbar.handleDragOver tk t0 payload params))
     = Taskbar.appButtons t0
  /\ Taskbar.placed (fst (Taskbar.handleDragOver tk t0 payload params))
     = Taskbar.placed t0.
Proof.
  unfold Taskbar.handleDragOver.
  destruct params as [xy|]; [|untouched].
  destruct payload as [pl|]; [|untouched].
  destruct (Taskbar.allocation t0) as [al|]; [|untouched].
  destruct (Taskbar.appButtons t0) as [ab|] eqn:Hab; [|untouched].
  destruct (Taskbar.separator t0) as [sep|]; [|untouched].
  cbv zeta.
  destruct (match pl with
            | PComponent r => Heap.app (Taskbar.heap t0) r
            | PForeign a => Some a
            end) as [a|]; [|untouched].
  match goal with |- context [if ?c then _ else _] => destruct c end;
    [untouched|].
  match goal with |- context [match ?d with Some _ => _ | None => _ end] =>
    match type of d with option DragAndDropHandler.t => destruct d end end.
  - match goal with
      |- context [DragAndDropHandler.handleDrag ?tk ?h ?d ?q] =>
        pose proof (handleDrag_evolves tk h d q) as He;
        destruct (DragAndDropHandler.handleDrag tk h d q) as [[h1 d1] c1]
    end.
    simpl in *. split; [exact He | split; first [assumption | reflexivity]].
  - match goal with
      |- context [DragAndDropHandler.handleDrag ?tk ?h ?d ?q] =>
        pose proof (handleDrag_evolves tk h d q) as He;
        destruct (DragAndDropHandler.handleDrag tk h d q) as [[h1 d1] c1]
    end.
    simpl in *. split; [exact He | split; first [assumption | reflexivity]].
Qed.

Lemma collect_inv (h : Heap) (c : Ref) (ca : App) (old : option Ref)
      (slots : list Ref) :
  forall (i : nat) (d : Taskbar.Drop),
  NoDup (map fst (Taskbar.dropButtons d)) ->
  Forall (fun e => snd e < length h
                   /\ match fst e with
                      | KApp a => Heap.app h (snd e) = Some a
                      | KObj _ => old = Some (snd e)
                      end) (Taskbar.dropButtons d) ->
  NoDup (map fst (Taskbar.dropButtons (Taskbar.collect h c ca old slots i d)))
  /\ Forall (fun e => snd e < length h
                      /\ match fst e with
                         | KApp a => Heap.app h (snd e) = Some a
                         | KObj _ => old = Some (snd e)
                         end)
            (Taskbar.dropButtons (Taskbar.collect h c ca old slots i d)).
Proof.
  induction slots as [|actor rest IH]; intros i d Hn Hf;
    cbn [Taskbar.collect]; [now split|].
  assert (Hkeep : forall a pos,
            Heap.app h actor = Some a ->
            NoDup (map fst (Taskbar.dropButtons
                     (Taskbar.collect h c ca old rest (S i)
                        (Taskbar.mkDrop (Js.setAdd Nat.eqb (Taskbar.dropApps d) a)
                           (Js.mapSet key_eqb (Taskbar.dropButtons d) (KApp a) actor)
                           (Taskbar.dropObjects d) pos
                           (Taskbar.dropSeparatorPosition d)))))
            /\ Forall (fun e => snd e < length h
                                /\ match fst e with
                                   | KApp a => Heap.app h (snd e) = Some a
                                   | KObj _ => old = Some (snd e)
                                   end)
                 (Taskbar.dropButtons
                    (Taskbar.collect h c ca old rest (S i)
                       (Taskbar.mkDrop (Js.setAdd Nat.eqb (Taskbar.dropApps d) a)
                          (Js.mapSet key_eqb (Taskbar.dropButtons d) (KApp a) actor)
                          (Taskbar.dropObjects d) pos
                          (Taskbar.dropSeparatorPosition d))))).
  { intros a pos Ha. apply IH; simpl.
    - now apply (mapSet_NoDup key_eqb_eq).
    - apply (mapSet_Forall key_eqb_eq); [assumption|]. simpl.
      split; [eapply app_lt; eassumption | assumption]. }
  cbv zeta.
  destruct (Heap.get h actor) as [comp|] eqn:Hg; cbn [option_map];
    [|now apply IH].
  destruct (kind comp) as [a| |] eqn:Hk; try (now apply IH).
  assert (Ha : Heap.app h actor = Some a).
  { unfold Heap.app, appOf. now rewrite Hg, Hk. }
  destruct (Nat.eqb actor c); [now apply Hkeep|].
  destruct (Nat.eqb a ca); [|now apply Hkeep].
  destruct (sameRef (Some actor) old) eqn:Hs; [|now apply IH].
  apply IH; simpl.
  - now apply (mapSet_NoDup key_eqb_eq).
  - apply (mapSet_Forall key_eqb_eq); [assumption|]. simpl.
    split; [eapply app_lt; eassumption|].
    destruct old as [o|]; simpl in Hs; [|discriminate].
    apply Nat.eqb_eq in Hs. now subst.
Qed.

(** [#handleDrop] keeps the button map in order. *)
Lemma handleDrop_wellFormed (t0 : Taskbar.t) :
  wellFormed t0 -> wellFormed (fst (Taskbar.handleDrop t0)).
Proof.
  intros Hwf. unfold Taskbar.handleDrop.
  destruct (Taskbar.dndHandler t0) as [d|]; [|exact Hwf].
  destruct (DragAndDropHandler.handleDrop (Taskbar.heap t0) d)
    as [[[c items]|] d1]; [|exact Hwf].
  assert (Hwf1 : wellFormed (Taskbar.setDndHandler t0 (Some d1))) by exact Hwf.
  cbv zeta.
  destruct (Heap.app (Taskbar.heap t0) c) as [ca|] eqn:Hca; [|exact Hwf1].
  destruct (Taskbar.service t0) as [svc|]; [|exact Hwf1].
  destruct (workspace svc) as [w|]; [|exact Hwf1].
  set (old := match Taskbar.appButtons t0 with
              | Some ab => Js.mapGet key_eqb ab (KApp ca)
              | None => None
              end).
  set (r := Taskbar.collect (Taskbar.heap t0) c ca old items 0
              (Taskbar.mkDrop [] [] (Taskbar.objects t0) (-1) (-1))).
  match goal with |- context [if ?b then _ else _] => destruct b end.
  - unfold wellFormed in *. simpl.
    destruct (Taskbar.appButtons t0); [|exact I].
    eapply registered_evolves; [apply evolves_destroy | exact Hwf].
  - destruct (collect_inv (Taskbar.heap t0) c ca old items 0
                (Taskbar.mkDrop [] [] (Taskbar.objects t0) (-1) (-1))
                (NoDup_nil _) (Forall_nil _)) as [Hn Hf].
    fold r in Hn, Hf. unfold wellFormed. simpl. split; [exact Hn|].
    assert (He : evolves (Heap.destroyOpt (Taskbar.heap t0) old)
                   (Taskbar.dropButton (Heap.destroyOpt (Taskbar.heap t0) old) c
                      (Taskbar.dropCandidatePosition r
                       <? Taskbar.dropSeparatorPosition r)%Z))
      by apply evolves_dropButton.
    pose proof (evolves_destroyOpt (Taskbar.heap t0) old) as Hd.
    eapply Forall_impl; [|exact Hf]. intros [k b] [Hlt Hk]. simpl in *.
    apply (entryOK_evolves (Heap.destroyOpt (Taskbar.heap t0) old)); [exact He|].
    split; simpl.
    + destruct Hd. lia.
    + destruct k as [a|n].
      * eapply evolves_app; eassumption.
      * rewrite Hk. simpl. apply valid_destroy_same.
Qed.

Lemma handleDragEnd_wellFormed (t0 : Taskbar.t) :
  wellFormed t0 -> wellFormed (Taskbar.handleDragEnd t0).
Proof.
  intros Hwf. unfold Taskbar.handleDragEnd.
  destruct (Taskbar.allocation t0); [|exact Hwf].
  destruct (negb (Taskbar.valid t0)); exact Hwf.
Qed.

Lemma setHeap_wellFormed (t0 : Taskbar.t) (h : Heap)
      (d : option DragAndDropHandler.t) :
  evolves (Taskbar.heap t0) h -> wellFormed t0 ->
  wellFormed (Taskbar.setDndHandler (Taskbar.setHeap t0 h) d).
Proof.
  intros He Hwf. unfold wellFormed in *. simpl.
  destruct (Taskbar.appButtons t0); [|exact I].
  eapply registered_evolves; eassumption.
Qed.

(** Every operation keeps the button map in order. *)
Lemma step_wellFormed (t0 : Taskbar.t) (op : Session.Operation) :
  wellFormed t0 -> wellFormed (Session.step t0 op).
Proof.
  intros Hwf.
  destruct op as [tk | tk payload params | | pr inside | | r | svc cfg al q]; simpl.
  - now apply rerender_wellFormed.
  - destruct (handleDragOver_frame tk t0 payload params) as [He [Hab _]].
    unfold wellFormed in *. rewrite Hab.
    destruct (Taskbar.appButtons t0); [|exact I].
    eapply registered_evolves; eassumption.
  - now apply handleDrop_wellFormed.
  - destruct (Taskbar.dndHandler t0) as [d|]; [|exact Hwf].
    destruct (DragAndDropHandler.hasClient d); [|exact Hwf].
    unfold DragAndDropHandler.handleDragActorPosition.
    destruct pr; [destruct inside|]; apply setHeap_wellFormed;
      first [assumption | apply evolves_refl | apply evolves_destroyOpt].
  - destruct (Taskbar.dndHandler t0) as [d|]; [|exact Hwf].
    destruct (DragAndDropHandler.hasClient d); [|exact Hwf].
    unfold DragAndDropHandler.destroy.
    destruct (DragAndDropHandler.destroyCallback d).
    + apply handleDragEnd_wellFormed. apply setHeap_wellFormed;
        [apply evolves_destroyOpt | assumption].
    + apply setHeap_wellFormed; [apply evolves_destroyOpt | assumption].
  - unfold wellFormed in *. simpl.
    destruct (Taskbar.appButtons t0); [|exact I].
    eapply registered_evolves; [apply evolves_destroy | exact Hwf].
  - exact Hwf.
Qed.

Lemma run_wellFormed (ops : list Session.Operation) :
  forall t0, wellFormed t0 -> wellFormed (Session.run t0 ops).
Proof.
  unfold Session.run.
  induction ops as [|op ops IH]; intros t0 Hwf; simpl; [assumption|].
  apply IH. now apply step_wellFormed.
Qed.

(** A selection of the entries of a map has no key twice either. *)
Lemma selection_keys (m : list (Key * Ref)) (keep : Key * Ref -> bool) :
  NoDup (map fst m) -> NoDup (map fst (filter keep m)).
Proof.
  induction m as [|e m IH]; intros Hn; simpl; [constructor|].
  apply NoDup_cons_iff in Hn. destruct Hn as [Hfresh Hrest].
  destruct (keep e); simpl; [|now apply IH].
  apply NoDup_cons; [|now apply IH].
  intros Hin. apply in_map_iff in Hin. destruct Hin as [e' [Hkey Hsel]].
  apply Hfresh. apply in_map_iff. exists e'. split; [exact Hkey|].
  apply filter_In in Hsel. tauto.
Qed.

Lemma NoDup_constant (A : Type) (k : A) (l : list A) :
  NoDup l -> (forall y, In y l -> y = k) -> length l <= 1.
Proof.
  intros Hn Hk. destruct l as [|a [|b l]]; simpl; try lia.
  exfalso. inversion Hn as [|z l' Ha _]; subst. apply Ha.
  rewrite (Hk a), (Hk b); simpl; auto.
Qed.

(** In a button map in order an application has at most one valid
    button. *)
Lemma registered_instances (h : Heap) (m : list (Key * Ref)) (a : App) :
  registered h m -> length (instances h m a) <= 1.
Proof.
  intros [Hn Hf]. rewrite <- (length_map fst).
  apply (NoDup_constant _ (KApp a)).
  - unfold instances. now apply selection_keys.
  - intros k Hk. apply in_map_iff in Hk. destruct Hk as [[k' b] [<- Hin]].
    unfold instances in Hin. apply filter_In in Hin. destruct Hin as [Hin Hp].
    rewrite Forall_forall in Hf. destruct (Hf _ Hin) as [_ Hkey].
    simpl in *. apply andb_true_iff in Hp. destruct Hp as [Hv Ha].
    destruct k' as [a'|n].
    + rewrite Hkey in Ha. apply Nat.eqb_eq in Ha. now subst.
    + rewrite Hkey in Hv. discriminate.
Qed.


Lemma fresh_wellFormed : wellFormed Samples.fresh.
Proof. unfold wellFormed. simpl. apply registered_nil. Qed.



(** The drag of a foreign application leaves the container: the
    candidate is destroyed at once, and the drop that follows is turned
    down with the button map as it was. *)
Lemma drag_left_container :
  let dragged :=
    Session.run Samples.fresh
      [Session.Rerender Samples.toolkit;
       Session.DragOver Samples.toolkit (Some (PForeign 12)) (Some (5, 0)%Z)] in
  let left := Session.step dragged
                (Session.ActorMoved (Some (mkRect 0 0 400 40)) false) in
  validFor (Taskbar.heap dragged) (displayed dragged) 12 = [3]
  /\ Heap.valid (Taskbar.heap left) 3 = false
  /\ snd (Taskbar.handleDrop left) = false
  /\ Taskbar.appButtons (fst (Taskbar.handleDrop left))
     = Taskbar.appButtons dragged.
Proof. repeat split. Qed.

(** ** Taskbar.#rerender: the three loops *)

(** Every visit registers one button for the application, the old one
    or a new one, and appends it to the sorted buttons. *)
Lemma visit_outcome (tk : Toolkit) (old : list (Key * Ref)) (sp : Z)
      (favs : option (list App)) (p : Taskbar.Pass) (a : App) :
  exists b,
    Taskbar.newButtons (Taskbar.visit tk old sp favs p a)
    = Js.mapSet key_eqb (Taskbar.newButtons p) (KApp a) b
    /\ Taskbar.sortedAppButtons (Taskbar.visit tk old sp favs p a)
       = Taskbar.sortedAppButtons p ++ [b].
Proof.
  unfold Taskbar.visit.
  destruct (Js.mapGet key_eqb old (KApp a)) as [b|];
    [|eexists; split; reflexivity].
  destruct (Heap.valid (Taskbar.passHeap p) b); [|eexists; split; reflexivity].
  match goal with |- context [if ?c then _ else _] => destruct c end;
    eexists; split; reflexivity.
Qed.

Lemma visit_fold_shape (tk : Toolkit) (old : list (Key * Ref)) (sp : Z)
      (favs : option (list App)) (l : list App) :
  forall (done : list App) (p : Taskbar.Pass),
  NoDup (done ++ l) ->
  map fst (Taskbar.newButtons p) = map KApp done ->
  Taskbar.sortedAppButtons p = map snd (Taskbar.newButtons p) ->
  map fst (Taskbar.newButtons (fold_left (Taskbar.visit tk old sp favs) l p))
  = map KApp (done ++ l)
  /\ Taskbar.sortedAppButtons (fold_left (Taskbar.visit tk old sp favs) l p)
     = map snd (Taskbar.newButtons (fold_left (Taskbar.visit tk old sp favs) l p)).
Proof.
  induction l as [|a l IH]; intros done p Hn Hk Hs; simpl.
  - rewrite app_nil_r. now split.
  - destruct (visit_outcome tk old sp favs p a) as [b [Hb1 Hb2]].
    assert (Hfresh : Js.mapHas key_eqb (Taskbar.newButtons p) (KApp a) = false).
    { apply (mapHas_false key_eqb_eq). rewrite Hk. intros Hin.
      apply in_map_iff in Hin. destruct Hin as [a' [[= ->] Hin]].
      apply NoDup_remove_2 in Hn. apply Hn. apply in_or_app. now left. }
    rewrite (mapSet_fresh _ _ _ Hfresh) in Hb1.
    replace (done ++ a :: l) with ((done ++ [a]) ++ l) in *
      by (now rewrite <- app_assoc).
    apply IH; [assumption | |].
    + rewrite Hb1, !map_app, Hk. reflexivity.
    + rewrite Hb2, Hb1, map_app, Hs. reflexivity.
Qed.

Lemma firstPass_shape (tk : Toolkit) (old : list (Key * Ref)) (sp : Z)
      (favs : option (list App)) (desired : list App) (h : Heap) :
  NoDup desired ->
  map fst (Taskbar.newButtons (Taskbar.firstPass tk old sp favs desired h))
  = map KApp desired
  /\ Taskbar.sortedAppButtons (Taskbar.firstPass tk old sp favs desired h)
     = map snd (Taskbar.newButtons (Taskbar.firstPass tk old sp favs desired h)).
Proof.
  intros Hn. apply (visit_fold_shape tk old sp favs desired [] _ Hn);
    reflexivity.
Qed.

Lemma valid_destroy_false (h : Heap) (b r : Ref) :
  Heap.valid h r = false -> Heap.valid (Heap.destroy h b) r = false.
Proof.
  intros H. destruct (Nat.eq_dec b r) as [-> | Hne].
  - apply valid_destroy_same.
  - now rewrite valid_destroy_other.
Qed.

Lemma retire_invalid (fl : list App) (es : list (Key * Ref)) :
  forall (h : Heap) (n : nat) (acc : list (Key * Ref)) (r : Ref),
  Heap.valid h r = false ->
  Heap.valid (fst (fst (Taskbar.retire fl es h n acc))) r = false.
Proof.
  induction es as [|[k b] es IH]; intros h n acc r Hr; simpl; [assumption|].
  destruct (match k with
            | KApp a => Js.setHas Nat.eqb fl a
            | KObj _ => false
            end).
  - apply IH. now apply valid_destroy_false.
  - now apply IH.
Qed.

(** What [oldAppButtons] holds in the end: entries of the old map, and
    entries under object literals whose button was destroyed. *)
Lemma retire_entries (fl : list App) (es : list (Key * Ref)) :
  forall (h : Heap) (n : nat) (acc : list (Key * Ref)) (e : Key * Ref),
  In e (snd (Taskbar.retire fl es h n acc)) ->
  In e acc \/ In e es
  \/ Heap.valid (fst (fst (Taskbar.retire fl es h n acc))) (snd e) = false.
Proof.
  induction es as [|[k b] es IH]; intros h n acc e; simpl; [tauto|].
  destruct (match k with
            | KApp a => Js.setHas Nat.eqb fl a
            | KObj _ => false
            end).
  - intros H. apply IH in H. destruct H as [H | [H | H]]; [|tauto|tauto].
    apply (mapSet_In key_eqb_eq) in H. destruct H as [H | ->].
    + destruct (negb (Heap.favorite h b)); [|tauto].
      apply (mapSet_In key_eqb_eq) in H. destruct H as [H | ->]; tauto.
    + right. right. simpl. apply retire_invalid. apply valid_destroy_same.
  - intros H. apply IH in H. destruct H as [H | [H | H]]; [|tauto|tauto].
    apply (mapSet_In key_eqb_eq) in H. destruct H as [H | ->]; tauto.
Qed.

Lemma retirePass_entries (p : Taskbar.Pass) (old : list (Key * Ref)) (n : nat)
      (e : Key * Ref) :
  In e (snd (Taskbar.retirePass p old n)) ->
  In e old
  \/ Heap.valid (fst (fst (Taskbar.retirePass p old n))) (snd e) = false.
Proof.
  unfold Taskbar.retirePass. destruct (Taskbar.oldFavorites p); simpl; [tauto|].
  intros H. apply retire_entries in H. destruct H as [[] | H]. exact H.
Qed.

(** The merge loop changes nothing but its counter when every entry is
    invalid or already in the new map. *)
Lemma absorb_idle (h : Heap) (hasFavoritesApps : bool) (l : list (Key * Ref)) :
  forall m,
  (forall e, In e l ->
     Heap.valid h (snd e) = false
     \/ Js.mapHas key_eqb (Taskbar.mergedButtons m) (fst e) = true) ->
  Taskbar.mergedButtons (fold_left (Taskbar.absorb h hasFavoritesApps) l m)
  = Taskbar.mergedButtons m
  /\ Taskbar.mergedSorted (fold_left (Taskbar.absorb h hasFavoritesApps) l m)
     = Taskbar.mergedSorted m
  /\ Taskbar.mergedSeparator (fold_left (Taskbar.absorb h hasFavoritesApps) l m)
     = Taskbar.mergedSeparator m.
Proof.
  induction l as [|[k b] l IH]; intros m H; cbn [fold_left]; [auto|].
  assert (Hstep : Taskbar.mergedButtons (Taskbar.absorb h hasFavoritesApps m (k, b))
                  = Taskbar.mergedButtons m
                  /\ Taskbar.mergedSorted (Taskbar.absorb h hasFavoritesApps m (k, b))
                     = Taskbar.mergedSorted m
                  /\ Taskbar.mergedSeparator
                       (Taskbar.absorb h hasFavoritesApps m (k, b))
                     = Taskbar.mergedSeparator m).
  { unfold Taskbar.absorb.
    destruct (H (k, b) (or_introl eq_refl)) as [Hv | Hh]; simpl in *.
    - rewrite Hv. simpl. auto.
    - destruct (negb (Heap.valid h b)); [auto|]. rewrite Hh. simpl. auto. }
  destruct Hstep as [S1 [S2 S3]].
  destruct (IH (Taskbar.absorb h hasFavoritesApps m (k, b))) as [I1 [I2 I3]].
  - intros e He. rewrite S1. apply H. now right.
  - rewrite I1, I2, I3. auto.
Qed.

Lemma mergePass_idle (h : Heap) (hasFavoritesApps : bool) (old : list (Key * Ref))
      (p : Taskbar.Pass) (sep0 : Z) :
  (forall e, In e old ->
     Heap.valid h (snd e) = false
     \/ Js.mapHas key_eqb (Taskbar.newButtons p) (fst e) = true) ->
  Taskbar.mergedButtons (Taskbar.mergePass h hasFavoritesApps old p sep0)
  = Taskbar.newButtons p
  /\ Taskbar.mergedSorted (Taskbar.mergePass h hasFavoritesApps old p sep0)
     = Taskbar.sortedAppButtons p
  /\ Taskbar.mergedSeparator (Taskbar.mergePass h hasFavoritesApps old p sep0)
     = sep0.
Proof.
  intros H. unfold Taskbar.mergePass. cbv zeta.
  destruct (negb (length (Js.mapFrom key_eqb (old ++ Taskbar.newButtons p))
                  =? length (Taskbar.newButtons p))); [|auto].
  apply absorb_idle. intros e He. apply (mapFrom_In key_eqb_eq) in He.
  apply in_app_or in He. destruct He as [He | He]; [now apply H|].
  right. simpl. apply (mapHas_In key_eqb_eq). now apply in_map.
Qed.

(** The desired set lists the favorites first. *)
Lemma fold_setAdd_extends (l s : list App) :
  exists rest,
    fold_left (Js.setAdd Nat.eqb) l s = s ++ rest
    /\ forall x, In x rest -> ~ In x s.
Proof.
  revert s. induction l as [|a l IH]; intros s; simpl.
  - exists []. rewrite app_nil_r. split; [reflexivity | intros x []].
  - destruct (IH (Js.setAdd Nat.eqb s a)) as [rest [Hr Hn]].
    unfold Js.setAdd in *. destruct (Js.setHas Nat.eqb s a) eqn:E.
    + exists rest. auto.
    + exists (a :: rest). rewrite Hr, <- app_assoc. split; [reflexivity|].
      intros x [<- | Hx].
      * now apply (setHas_false nat_eqb_eq).
      * intros Hs. apply (Hn x Hx). apply in_or_app. now left.
Qed.

Lemma desiredApps_favorites_first (f : list App) (running : option (list App))
      (desired : list App) :
  NoDup f ->
  Taskbar.desiredApps (Some f) running = Some desired ->
  NoDup desired
  /\ exists rest, desired = f ++ rest /\ forall x, In x rest -> ~ In x f.
Proof.
  intros Hn. unfold Taskbar.desiredApps. destruct running as [r|]; intros [= <-].
  - split; [apply (setFrom_NoDup nat_eqb_eq)|].
    destruct (fold_setAdd_extends r f) as [rest [Hr Hd]]. exists rest.
    split; [|exact Hd]. unfold Js.setFrom. rewrite fold_left_app.
    pose proof (fold_setAdd_fresh nat_eqb_eq f [] Hn) as Hf. simpl in Hf.
    rewrite <- Hr. f_equal. exact Hf.
  - split; [assumption|]. exists []. rewrite app_nil_r.
    split; [reflexivity | intros x []].
Qed.

Lemma nth_error_prefix (f rest : list App) (i : nat) (a : App) :
  (forall x, In x rest -> ~ In x f) ->
  nth_error (f ++ rest) i = Some a ->
  (In a f <-> i < length f).
Proof.
  intros Hd Hn. split.
  - intros Ha. destruct (Nat.lt_ge_cases i (length f)) as [Hlt | Hge]; [assumption|].
    rewrite nth_error_app2 in Hn by assumption.
    apply nth_error_In in Hn. exfalso. now apply (Hd a).
  - intros Hlt. rewrite nth_error_app1 in Hn by assumption.
    eapply nth_error_In; eassumption.
Qed.

(** ** Taskbar.#rerender: the separator *)

Lemma rerender_reconcile (tk : Toolkit) (t0 : Taskbar.t) (old : list (Key * Ref))
      (desired : list App) :
  Taskbar.appButtons t0 = Some old ->
  Taskbar.hasAllocation t0 = true ->
  Taskbar.isQueued t0 = false ->
  Taskbar.desiredApps (Taskbar.favoriteApps t0) (snd (Taskbar.getRunningApps t0))
  = Some desired ->
  desired <> [] ->
  Taskbar.rerender tk t0
  = Taskbar.reconcile tk (fst (Taskbar.getRunningApps t0)) old
      (Taskbar.favoriteApps t0) desired.
Proof.
  intros Hab Ha Hq Hd Hne. unfold Taskbar.rerender. rewrite Hab, Ha, Hq. simpl.
  destruct (Taskbar.getRunningApps t0) as [t1 running]. simpl in *.
  rewrite Hd. destruct desired; [congruence | reflexivity].
Qed.

(** A reconciliation that keeps no button of an application outside the
    desired set: the new map and the placement are those of the first
    loop. *)
Lemma reconcile_plain (tk : Toolkit) (t1 : Taskbar.t) (old : list (Key * Ref))
      (favs : option (list App)) (desired : list App) :
  registered (Taskbar.heap t1) old ->
  NoDup desired ->
  (forall k b, In (k, b) old -> Heap.valid (Taskbar.heap t1) b = true ->
     exists a, k = KApp a /\ In a desired) ->
  let p := Taskbar.firstPass tk old (Taskbar.separatorPosition t1) favs desired
             (Taskbar.heap t1) in
  let t' := Taskbar.reconcile tk t1 old favs desired in
  let sep0 := if match favs with Some _ => true | None => false end
              then Z.of_nat match favs with Some f => length f | None => 0 end
              else (-1)%Z in
  Taskbar.appButtons t' = Some (Taskbar.newButtons p)
  /\ Taskbar.placed t' = map snd (Taskbar.newButtons p)
  /\ map fst (Taskbar.newButtons p) = map KApp desired
  /\ Taskbar.separatorPosition t' = sep0
  /\ evolves (Taskbar.heap t1) (fst (fst (Taskbar.retirePass p old (Taskbar.objects t1))))
  /\ match Taskbar.separator t1 with
     | Some sep =>
         Taskbar.separatorIndex t' = sep0
         /\ Taskbar.heap t'
            = Taskbar.setVisible
                (fst (fst (Taskbar.retirePass p old (Taskbar.objects t1)))) sep
                (enableSeparator (Taskbar.config t1)
                 && ((0 <? match favs with Some f => length f | None => 0 end)
                     && (match favs with Some f => length f | None => 0 end
                         <? length desired)))
     | None =>
         Taskbar.separatorIndex t' = Taskbar.separatorIndex t1
         /\ Taskbar.heap t'
            = fst (fst (Taskbar.retirePass p old (Taskbar.objects t1)))
     end.
Proof.
  intros Hold Hnd Hnr p t' sep0.
  destruct (firstPass_shape tk old (Taskbar.separatorPosition t1) favs desired
              (Taskbar.heap t1) Hnd) as [Hkeys Hsorted].
  fold p in Hkeys, Hsorted.
  destruct (visit_fold_inv tk old (Taskbar.separatorPosition t1) favs
              (Taskbar.heap t1) desired
              (Taskbar.mkPass (Taskbar.heap t1) [] [] []) Hold
              (evolves_refl _) (registered_nil _)) as [Hep Hrp].
  fold (Taskbar.firstPass tk old (Taskbar.separatorPosition t1) favs desired
          (Taskbar.heap t1)) in Hep, Hrp. fold p in Hep, Hrp.
  destruct (retirePass_inv p old (Taskbar.objects t1)
              (registered_evolves _ _ _ Hep Hold)) as [He1 Hr1].
  pose proof (retirePass_entries p old (Taskbar.objects t1)) as Hent.
  subst t'. unfold Taskbar.reconcile. cbv zeta. fold p.
  destruct (Taskbar.retirePass p old (Taskbar.objects t1)) as [[h1 n1] old1].
  simpl in He1, Hr1, Hent. cbn [fst snd].
  assert (Hevo : evolves (Taskbar.heap t1) h1)
    by (eapply evolves_trans; eassumption).
  assert (Hidle : forall e, In e old1 ->
            Heap.valid h1 (snd e) = false
            \/ Js.mapHas key_eqb (Taskbar.newButtons p) (fst e) = true).
  { intros [k b] He. destruct (Hent _ He) as [Hin | Hinv]; [|now left].
    simpl. destruct (Heap.valid h1 b) eqn:Hv; [right | now left].
    destruct Hold as [_ Hf]. rewrite Forall_forall in Hf.
    destruct (Hf _ Hin) as [Hlt _]. simpl in Hlt.
    destruct (Hnr k b Hin (evolves_valid _ _ _ Hevo Hlt Hv)) as [a [-> Ha]].
    apply (mapHas_In key_eqb_eq). rewrite Hkeys. now apply in_map. }
  match goal with |- context [Taskbar.mergePass h1 ?hf old1 p ?s0] =>
    destruct (mergePass_idle h1 hf old1 p s0 Hidle) as [M1 [M2 M3]];
    set (m := Taskbar.mergePass h1 hf old1 p s0) in *
  end.
  destruct (Taskbar.separator t1) as [sep|]; simpl;
    rewrite M1, M2, ?M3, Hsorted; repeat split; auto; apply Hevo.
Qed.




(** ** Taskbar.#rerender: what the first call leaves *)

Lemma get_extended (h0 news : Heap) (r : Ref) :
  r < length h0 -> Heap.get (h0 ++ news) r = Heap.get h0 r.
Proof. intros H. unfold Heap.get. now apply nth_error_app1. Qed.

Lemma valid_extended (h : Heap) (c : Component) (r : Ref) :
  Heap.valid h r = true -> Heap.valid (h ++ [c]) r = true.
Proof.
  intros H. pose proof (valid_lt h r H) as Hlt. unfold Heap.valid in *.
  now rewrite get_extended.
Qed.

Lemma favorite_extended (h : Heap) (c : Component) (r : Ref) :
  r < length h -> Heap.favorite (h ++ [c]) r = Heap.favorite h r.
Proof. intros H. unfold Heap.favorite. now rewrite get_extended. Qed.

Lemma registered_lt (h : Heap) (m : list (Key * Ref)) (k : Key) (b : Ref) :
  registered h m -> In (k, b) m -> b < length h.
Proof.
  intros [_ Hf] Hin. rewrite Forall_forall in Hf. now destruct (Hf _ Hin).
Qed.

Lemma registered_app (h : Heap) (m : list (Key * Ref)) (a : App) (b : Ref) :
  registered h m -> In (KApp a, b) m -> Heap.app h b = Some a.
Proof.
  intros [_ Hf] Hin. rewrite Forall_forall in Hf. now destruct (Hf _ Hin).
Qed.

Lemma visit_passInv (tk : Toolkit) (old : list (Key * Ref)) (sp : Z)
      (favs : option (list App)) (h0 : Heap) (done : list App)
      (p : Taskbar.Pass) (a : App) :
  registered h0 old ->
  (sp = (-1)%Z -> forall f a' b, favs = Some f -> In (KApp a', b) old ->
     Heap.valid h0 b = true -> Heap.favorite h0 b = Js.setHas Nat.eqb f a') ->
  ~ In a done ->
  passInv h0 old favs done p ->
  passInv h0 old favs (done ++ [a]) (Taskbar.visit tk old sp favs p a).
Proof.
  intros Hold Hflags Hfresh [[news Hheap] [Hnoted Hbuttons]].
  assert (Hcreate : forall noted,
            (forall x, In x noted -> In x (Taskbar.oldFavorites p) \/ x = a) ->
            passInv h0 old favs (done ++ [a])
              (Taskbar.mkPass (Taskbar.passHeap p ++ [Taskbar.newAppButton tk favs a])
                 (Js.mapSet key_eqb (Taskbar.newButtons p) (KApp a)
                    (length (Taskbar.passHeap p)))
                 noted
                 (Taskbar.sortedAppButtons p ++ [length (Taskbar.passHeap p)]))).
  { intros noted Hn. split; [|split]; simpl.
    - exists (news ++ [Taskbar.newAppButton tk favs a]).
      now rewrite Hheap, app_assoc.
    - intros x Hx. apply in_or_app. destruct (Hn x Hx) as [H | ->].
      + left. now apply Hnoted.
      + right. now left.
    - intros k b Hin. apply (mapSet_In key_eqb_eq) in Hin.
      destruct Hin as [Hin | [= -> ->]].
      + destruct (Hbuttons k b Hin) as [a' [-> [Hd [Hv [Hfl Hor]]]]].
        exists a'. split; [reflexivity|]. split; [apply in_or_app; now left|].
        split; [now apply valid_extended|]. split.
        * intros f Hf. rewrite favorite_extended by (now apply valid_lt). auto.
        * destruct Hor as [Hge | [Hi Hno]]; [now left | right].
          split; [assumption|]. intros Hx. destruct (Hn a' Hx) as [H | ->]; auto.
      + exists a. split; [reflexivity|]. split; [apply in_or_app; right; now left|].
        assert (Hg : Heap.get (Taskbar.passHeap p ++ [Taskbar.newAppButton tk favs a])
                       (length (Taskbar.passHeap p))
                     = Some (Taskbar.newAppButton tk favs a)).
        { unfold Heap.get. rewrite nth_error_app2, Nat.sub_diag by lia. reflexivity. }
        split; [unfold Heap.valid; now rewrite Hg|]. split.
        * intros f ->. unfold Heap.favorite. now rewrite Hg.
        * left. rewrite Hheap, length_app. lia. }
  unfold Taskbar.visit. cbn [Heap.alloc].
  destruct (Js.mapGet key_eqb old (KApp a)) as [b|] eqn:Hg;
    [|apply Hcreate; auto].
  destruct (Heap.valid (Taskbar.passHeap p) b) eqn:Hv; [|apply Hcreate; auto].
  match goal with |- context [if negb ?c then _ else _] => destruct c eqn:Hc end;
    cbn [negb].
  - apply Hcreate. intros x Hx. apply (setAdd_In nat_eqb_eq) in Hx. exact Hx.
  - apply mapGet_In in Hg.
    pose proof (registered_lt h0 old _ _ Hold Hg) as Hlt.
    split; [|split]; simpl.
    + now exists news.
    + intros x Hx. apply in_or_app. left. now apply Hnoted.
    + intros k b' Hin. apply (mapSet_In key_eqb_eq) in Hin.
      destruct Hin as [Hin | [= -> ->]].
      * destruct (Hbuttons k b' Hin) as [a' [-> [Hd [Hv' [Hfl Hor]]]]].
        exists a'. repeat split; auto. apply in_or_app. now left.
      * exists a. split; [reflexivity|]. split; [apply in_or_app; right; now left|].
        split; [assumption|]. split.
        -- intros f ->. unfold Taskbar.isFavoriteChanged in Hc.
           destruct (sp =? -1)%Z eqn:Hsp; simpl in Hc.
           ++ apply Z.eqb_eq in Hsp. unfold Heap.valid, Heap.favorite in *.
              rewrite Hheap, get_extended in * by assumption.
              now apply (Hflags Hsp f a b).
           ++ apply negb_false_iff in Hc. now apply eqb_prop in Hc.
        -- right. split; [assumption|]. intros Hx. apply Hfresh. now apply Hnoted.
Qed.

Lemma visit_fold_passInv (tk : Toolkit) (old : list (Key * Ref)) (sp : Z)
      (favs : option (list App)) (h0 : Heap) (l : list App) :
  forall (done : list App) (p : Taskbar.Pass),
  registered h0 old ->
  (sp = (-1)%Z -> forall f a' b, favs = Some f -> In (KApp a', b) old ->
     Heap.valid h0 b = true -> Heap.favorite h0 b = Js.setHas Nat.eqb f a') ->
  NoDup (done ++ l) ->
  passInv h0 old favs done p ->
  passInv h0 old favs (done ++ l) (fold_left (Taskbar.visit tk old sp favs) l p).
Proof.
  induction l as [|a l IH]; intros done p Hold Hflags Hn Hp; simpl.
  - now rewrite app_nil_r.
  - replace (done ++ a :: l) with ((done ++ [a]) ++ l) in *
      by (now rewrite <- app_assoc).
    apply IH; try assumption.
    apply visit_passInv; try assumption.
    intros Hin. apply NoDup_app_remove_r in Hn.
    apply NoDup_remove_2 in Hn. apply Hn. now rewrite app_nil_r.
Qed.

Lemma firstPass_passInv (tk : Toolkit) (old : list (Key * Ref)) (sp : Z)
      (favs : option (list App)) (h0 : Heap) (desired : list App) :
  registered h0 old ->
  (sp = (-1)%Z -> forall f a' b, favs = Some f -> In (KApp a', b) old ->
     Heap.valid h0 b = true -> Heap.favorite h0 b = Js.setHas Nat.eqb f a') ->
  NoDup desired ->
  passInv h0 old favs desired (Taskbar.firstPass tk old sp favs desired h0).
Proof.
  intros Hold Hflags Hn.
  apply (visit_fold_passInv tk old sp favs h0 desired []); try assumption.
  split; [|split]; simpl.
  - exists []. now rewrite app_nil_r.
  - intros a [].
  - intros k b [].
Qed.

(** The second loop leaves alone every component that is not the button
    of a noted application. *)
Lemma retire_get_other (fl : list App) (es : list (Key * Ref)) (r : Ref) :
  forall (h : Heap) (n : nat) (acc : list (Key * Ref)),
  (forall a b, In (KApp a, b) es -> In a fl -> b <> r) ->
  Heap.get (fst (fst (Taskbar.retire fl es h n acc))) r = Heap.get h r.
Proof.
  induction es as [|[k b] es IH]; intros h n acc H; simpl; [reflexivity|].
  assert (Hrest : forall a b', In (KApp a, b') es -> In a fl -> b' <> r)
    by (intros a b' Hin; apply H; now right).
  destruct k as [a|m].
  - destruct (Js.setHas Nat.eqb fl a) eqn:E.
    + rewrite IH by assumption. unfold Heap.destroy. rewrite get_update.
      apply (setHas_In nat_eqb_eq) in E.
      pose proof (H a b (or_introl eq_refl) E) as Hne.
      apply Nat.eqb_neq in Hne. now rewrite Hne.
    + now apply IH.
  - now apply IH.
Qed.

(** The merge loop only appends valid buttons to the new map. *)
Lemma absorb_extends (h : Heap) (hasFavoritesApps : bool) (l : list (Key * Ref)) :
  forall m,
  exists kept,
    Taskbar.mergedButtons (fold_left (Taskbar.absorb h hasFavoritesApps) l m)
    = Taskbar.mergedButtons m ++ kept
    /\ forall e, In e kept -> Heap.valid h (snd e) = true.
Proof.
  induction l as [|[k b] l IH]; intros m; cbn [fold_left].
  - exists []. rewrite app_nil_r. split; [reflexivity | intros e []].
  - destruct (IH (Taskbar.absorb h hasFavoritesApps m (k, b))) as [kept [Hk Hv]].
    assert (Hstep : exists first,
              Taskbar.mergedButtons (Taskbar.absorb h hasFavoritesApps m (k, b))
              = Taskbar.mergedButtons m ++ first
              /\ forall e, In e first -> Heap.valid h (snd e) = true).
    { unfold Taskbar.absorb.
      destruct (Heap.valid h b) eqn:Hb; cbn [negb].
      - destruct (Js.mapHas key_eqb (Taskbar.mergedButtons m) k) eqn:Hh;
          cbn [Taskbar.mergedButtons].
        + exists []. rewrite app_nil_r. split; [reflexivity | intros e []].
        + exists [(k, b)]. rewrite (mapSet_fresh _ _ _ Hh).
          split; [reflexivity|]. intros e [<- | []]. exact Hb.
      - exists []. rewrite app_nil_r. split; [reflexivity | intros e []]. }
    destruct Hstep as [first [Hf Hfv]].
    exists (first ++ kept). rewrite Hk, Hf, <- app_assoc. split; [reflexivity|].
    intros e He. apply in_app_or in He. destruct He; auto.
Qed.

(** ** Taskbar.#rerender: the second call *)

Section MapAgainFacts.
Variables K V : Type.
Variable eqb : K -> K -> bool.
Hypothesis eqb_eq : forall a b, eqb a b = true <-> a = b.

Lemma mapGet_NoDup_In (m : list (K * V)) (k : K) (v : V) :
  NoDup (map fst m) -> In (k, v) m -> Js.mapGet eqb m k = Some v.
Proof.
  induction m as [|[k0 v0] m IH]; simpl; [intros _ []|].
  intros Hn Hin. inversion Hn as [|x l Hx Hl]; subst.
  destruct Hin as [[= -> ->] | Hin].
  - now rewrite (eqb_refl eqb_eq).
  - destruct (eqb k k0) eqn:E.
    + apply eqb_eq in E. subst k0. exfalso. apply Hx.
      apply in_map_iff. now exists (k, v).
    + now apply IH.
Qed.

Lemma mapSet_same (m : list (K * V)) (k : K) (v : V) :
  NoDup (map fst m) -> In (k, v) m -> Js.mapSet eqb m k v = m.
Proof.
  induction m as [|[k0 v0] m IH]; simpl; [intros _ []|].
  intros Hn Hin. inversion Hn as [|x l Hx Hl]; subst.
  destruct (eqb k k0) eqn:E.
  - apply eqb_eq in E. subst k0. destruct Hin as [[= ->] | Hin]; [reflexivity|].
    exfalso. apply Hx. apply in_map_iff. now exists (k, v).
  - destruct Hin as [[= -> ->] | Hin].
    + rewrite (eqb_refl eqb_eq) in E. discriminate.
    + now rewrite IH.
Qed.

Lemma fold_mapSet_same (l m : list (K * V)) :
  NoDup (map fst m) -> (forall e, In e l -> In e m) ->
  fold_left (fun m e => Js.mapSet eqb m (fst e) (snd e)) l m = m.
Proof.
  intros Hn. induction l as [|[k v] l IH]; intros H; simpl; [reflexivity|].
  rewrite mapSet_same; [|assumption|apply H; now left].
  apply IH. intros e He. apply H. now right.
Qed.

Lemma fold_mapSet_fresh (l : list (K * V)) :
  forall acc, NoDup (map fst (acc ++ l)) ->
  fold_left (fun m e => Js.mapSet eqb m (fst e) (snd e)) l acc = acc ++ l.
Proof.
  induction l as [|[k v] l IH]; intros acc Hn; simpl.
  - now rewrite app_nil_r.
  - assert (Hfresh : Js.mapHas eqb acc k = false).
    { apply (mapHas_false eqb_eq). intros Hin. rewrite map_app in Hn.
      simpl in Hn. apply NoDup_remove_2 in Hn. apply Hn.
      apply in_or_app. now left. }
    rewrite (mapSet_fresh _ _ _ Hfresh).
    replace (acc ++ (k, v) :: l) with ((acc ++ [(k, v)]) ++ l) in *
      by (now rewrite <- app_assoc).
    now apply IH.
Qed.

(** Entries that are set again leave a map as it is. *)
Lemma mapFrom_again (l l' : list (K * V)) :
  NoDup (map fst l) -> (forall e, In e l' -> In e l) ->
  Js.mapFrom eqb (l ++ l') = l.
Proof.
  intros Hn H. unfold Js.mapFrom. rewrite fold_left_app.
  rewrite (fold_mapSet_fresh l []) by assumption. simpl.
  now apply fold_mapSet_same.
Qed.

Lemma mapHas_mapSet (m : list (K * V)) (k : K) (v : V) :
  Js.mapHas eqb (Js.mapSet eqb m k v) k = true.
Proof.
  apply (mapHas_In eqb_eq). rewrite mapSet_keys.
  destruct (Js.mapHas eqb m k) eqn:E.
  - now apply (mapHas_In eqb_eq).
  - apply in_or_app. right. now left.
Qed.

Lemma mapSet_mapSet (m : list (K * V)) (k : K) (v v' : V) :
  Js.mapSet eqb (Js.mapSet eqb m k v) k v' = Js.mapSet eqb m k v'.
Proof.
  induction m as [|[k0 v0] m IH]; simpl.
  - now rewrite (eqb_refl eqb_eq).
  - destruct (eqb k k0) eqn:E; simpl; rewrite E; [reflexivity|].
    now rewrite IH.
Qed.

Lemma mapDelete_mapDelete (m : list (K * V)) (k : K) :
  Js.mapDelete eqb (Js.mapDelete eqb m k) k = Js.mapDelete eqb m k.
Proof.
  unfold Js.mapDelete. induction m as [|[k0 v0] m IH]; simpl; [reflexivity|].
  destruct (negb (eqb k k0)) eqn:E; simpl; [|exact IH].
  now rewrite E, IH.
Qed.
End MapAgainFacts.

Arguments mapGet_NoDup_In {K V eqb} eqb_eq m k v _ _.
Arguments mapSet_same {K V eqb} eqb_eq m k v _ _.
Arguments mapFrom_again {K V eqb} eqb_eq l l' _ _.
Arguments mapHas_mapSet {K V eqb} eqb_eq m k v.
Arguments mapSet_mapSet {K V eqb} eqb_eq m k v v'.
Arguments mapDelete_mapDelete {K V eqb} m k.

(** A valid old button whose flag agrees is taken over as it is. *)
Lemma visit_reuse (tk : Toolkit) (old : list (Key * Ref)) (sp : Z)
      (favs : option (list App)) (p : Taskbar.Pass) (a : App) (b : Ref) :
  Js.mapGet key_eqb old (KApp a) = Some b ->
  Heap.valid (Taskbar.passHeap p) b = true ->
  Taskbar.isFavoriteChanged (Taskbar.passHeap p) sp favs a b = false ->
  Taskbar.visit tk old sp favs p a
  = Taskbar.mkPass (Taskbar.passHeap p)
      (Js.mapSet key_eqb (Taskbar.newButtons p) (KApp a) b)
      (Taskbar.oldFavorites p) (Taskbar.sortedAppButtons p ++ [b]).
Proof.
  intros Hg Hv Hc. unfold Taskbar.visit. now rewrite Hg, Hv, Hc.
Qed.

(** When the old map starts with the buttons of the desired
    applications, in their order, all valid and with agreeing flags, the
    first loop rebuilds exactly this part of the map. *)
Lemma visit_fold_reuse (tk : Toolkit) (sp : Z) (favs : option (list App))
      (h : Heap) (old : list (Key * Ref)) (rest : list (Key * Ref)) :
  forall (todo : list (Key * Ref)) (l : list App) (done : list (Key * Ref)),
  old = (done ++ todo) ++ rest ->
  NoDup (map fst old) ->
  map fst todo = map KApp l ->
  (forall a b, In (KApp a, b) todo ->
     Heap.valid h b = true
     /\ Taskbar.isFavoriteChanged h sp favs a b = false) ->
  fold_left (Taskbar.visit tk old sp favs) l
            (Taskbar.mkPass h done [] (map snd done))
  = Taskbar.mkPass h (done ++ todo) [] (map snd (done ++ todo)).
Proof.
  induction todo as [|[k b] todo IH]; intros l done Hold Hn Hk Hok.
  - destruct l; [|discriminate]. simpl. now rewrite app_nil_r.
  - destruct l as [|a l]; [discriminate|]. simpl in Hk.
    injection Hk as -> Hk. cbn [fold_left].
    destruct (Hok a b (or_introl eq_refl)) as [Hv Hc].
    assert (Hin : In (KApp a, b) old).
    { rewrite Hold. apply in_or_app. left. apply in_or_app. right. now left. }
    rewrite (visit_reuse tk old sp favs
               (Taskbar.mkPass h done [] (map snd done)) a b
               (mapGet_NoDup_In key_eqb_eq old _ _ Hn Hin) Hv Hc).
    cbn [Taskbar.passHeap Taskbar.newButtons Taskbar.oldFavorites
         Taskbar.sortedAppButtons].
    assert (Hfresh : Js.mapHas key_eqb done (KApp a) = false).
    { apply (mapHas_false key_eqb_eq). intros Hd. rewrite Hold in Hn.
      rewrite !map_app in Hn. simpl in Hn. apply NoDup_app_remove_r in Hn.
      apply NoDup_remove_2 in Hn. apply Hn. apply in_or_app. now left. }
    rewrite (mapSet_fresh _ _ _ Hfresh).
    replace (map snd done ++ [b]) with (map snd (done ++ [(KApp a, b)]))
      by (rewrite map_app; reflexivity).
    replace (done ++ (KApp a, b) :: todo) with ((done ++ [(KApp a, b)]) ++ todo)
      by (now rewrite <- app_assoc).
    apply IH; try assumption.
    + rewrite Hold. now rewrite <- (app_assoc done [(KApp a, b)] todo).
    + intros a' b' Hin'. apply Hok. now right.
Qed.

(** The merge loop over valid buttons whose keys are new appends them
    in order. *)
Lemma absorb_append (h : Heap) (hasFavoritesApps : bool) (kept : list (Key * Ref)) :
  forall m,
  NoDup (map fst (Taskbar.mergedButtons m ++ kept)) ->
  (forall e, In e kept -> Heap.valid h (snd e) = true) ->
  Taskbar.mergedButtons (fold_left (Taskbar.absorb h hasFavoritesApps) kept m)
  = Taskbar.mergedButtons m ++ kept.
Proof.
  induction kept as [|[k b] kept IH]; intros m Hn Hv; cbn [fold_left].
  - now rewrite app_nil_r.
  - assert (Hfresh : Js.mapHas key_eqb (Taskbar.mergedButtons m) k = false).
    { apply (mapHas_false key_eqb_eq). intros Hin. rewrite map_app in Hn.
      simpl in Hn. apply NoDup_remove_2 in Hn. apply Hn.
      apply in_or_app. now left. }
    assert (Hstep : Taskbar.mergedButtons
                      (Taskbar.absorb h hasFavoritesApps m (k, b))
                    = Taskbar.mergedButtons m ++ [(k, b)]).
    { pose proof (Hv (k, b) (or_introl eq_refl)) as Hb. simpl in Hb.
      unfold Taskbar.absorb. rewrite Hb. cbn [negb]. rewrite Hfresh. cbn [Taskbar.mergedButtons].
      now apply mapSet_fresh. }
    rewrite IH.
    + rewrite Hstep, <- app_assoc. reflexivity.
    + rewrite Hstep, <- app_assoc. exact Hn.
    + intros e He. apply Hv. now right.
Qed.

Lemma setVisible_again (h : Heap) (r : Ref) (v : bool) :
  Taskbar.setVisible (Taskbar.setVisible h r v) r v = Taskbar.setVisible h r v.
Proof.
  unfold Taskbar.setVisible. revert r.
  induction h as [|c h IH]; intros [|r]; simpl; try reflexivity.
  now rewrite IH.
Qed.

Lemma valid_setVisible (h : Heap) (r r' : Ref) (v : bool) :
  Heap.valid (Taskbar.setVisible h r v) r' = Heap.valid h r'.
Proof.
  unfold Heap.valid, Taskbar.setVisible. rewrite get_update.
  destruct (Nat.eqb r r'); [|reflexivity]. destruct (Heap.get h r'); reflexivity.
Qed.

Lemma favorite_setVisible (h : Heap) (r r' : Ref) (v : bool) :
  Heap.favorite (Taskbar.setVisible h r v) r' = Heap.favorite h r'.
Proof.
  unfold Heap.favorite, Taskbar.setVisible. rewrite get_update.
  destruct (Nat.eqb r r'); [|reflexivity]. destruct (Heap.get h r'); reflexivity.
Qed.

(** ** Taskbar.#getRunningApps: asking again *)

Lemma filter_all (A : Type) (f : A -> bool) (l : list A) :
  (forall x, In x l -> f x = true) -> filter f l = l.
Proof.
  induction l as [|x l IH]; intros H; simpl; [reflexivity|].
  rewrite (H x (or_introl eq_refl)), IH; [reflexivity|].
  intros y Hy. apply H. now right.
Qed.

Lemma setFrom_known (s l : list App) :
  NoDup s -> (forall x, In x l -> In x s) -> Js.setFrom Nat.eqb (s ++ l) = s.
Proof.
  intros Hn H. unfold Js.setFrom. rewrite fold_left_app.
  pose proof (fold_setAdd_fresh nat_eqb_eq s [] Hn) as Hs. simpl in Hs.
  transitivity (fold_left (Js.setAdd Nat.eqb) l s); [f_equal; exact Hs|].
  now apply (fold_setAdd_members nat_eqb_eq).
Qed.

(** The merge of the cached set with the queried set gives the cached
    set back when both hold the same applications. *)
Lemma merge_cached (cached ra : list App) :
  NoDup cached -> (forall x, In x cached <-> In x ra) ->
  Js.setFrom Nat.eqb
    (Js.setFrom Nat.eqb (filter (Js.setHas Nat.eqb ra) cached) ++ ra)
  = cached.
Proof.
  intros Hn Hsame.
  rewrite filter_all.
  - rewrite (setFrom_NoDup_id nat_eqb_eq Hn).
    apply setFrom_known; [assumption|]. intros x. apply Hsame.
  - intros x Hx. apply (setHas_In nat_eqb_eq). now apply Hsame.
Qed.

Lemma setRunningApps_same (t0 : Taskbar.t) :
  Taskbar.setRunningApps t0 (Taskbar.runningApps t0) = t0.
Proof. now destruct t0. Qed.

(** With a cache that holds the queried applications for the
    workspace, [#getRunningApps] answers the cached set and leaves the
    cache as it is. *)
Lemma getRunningApps_cached (t1 : Taskbar.t) (s : TaskbarClient) (ws : Workspace)
      (q cached : list App) (cache : list (Workspace * list App)) :
  Taskbar.service t1 = Some s ->
  workspace s = Some ws ->
  queryApps s (isolateWorkspaces (Taskbar.config t1))
              (showAllWindows (Taskbar.config t1)) = Some q ->
  q <> [] ->
  Taskbar.runningApps t1 = Js.mapSet Nat.eqb cache ws cached ->
  NoDup cached ->
  (forall x, In x cached <-> In x q) ->
  Taskbar.getRunningApps t1 = (t1, Some cached).
Proof.
  intros Hs Hws Hq Hne Hcache Hnd Hsame.
  unfold Taskbar.getRunningApps. rewrite Hs, Hws, Hq.
  destruct q as [|a q]; [congruence|]. set (q' := a :: q) in *.
  rewrite Hcache, (mapHas_mapSet nat_eqb_eq). cbn [negb].
  rewrite (mapGet_mapSet nat_eqb_eq), Nat.eqb_refl.
  rewrite (merge_cached cached q' Hnd Hsame).
  rewrite (mapSet_mapSet nat_eqb_eq), <- Hcache.
  now rewrite setRunningApps_same.
Qed.

(** Asked again with the same collaborators and the cache that the
    first call left, [#getRunningApps] answers the same and leaves the
    cache as it is. *)
Lemma getRunningApps_again (t0 t1 : Taskbar.t) :
  (forall s ra,
     Taskbar.service t0 = Some s ->
     queryApps s (isolateWorkspaces (Taskbar.config t0))
                 (showAllWindows (Taskbar.config t0)) = Some ra ->
     NoDup ra) ->
  Taskbar.service t1 = Taskbar.service t0 ->
  Taskbar.config t1 = Taskbar.config t0 ->
  Taskbar.runningApps t1 = Taskbar.runningApps (fst (Taskbar.getRunningApps t0)) ->
  Taskbar.getRunningApps t1 = (t1, snd (Taskbar.getRunningApps t0)).
Proof.
  intros Hsets Hs Hc Hr.
  destruct (Taskbar.service t0) as [s|] eqn:Hs0.
  2:{ unfold Taskbar.getRunningApps. now rewrite Hs, Hs0. }
  destruct (workspace s) as [ws|] eqn:Hws.
  2:{ unfold Taskbar.getRunningApps. now rewrite Hs, Hs0, Hws. }
  specialize (Hsets s).
  destruct (queryApps s (isolateWorkspaces (Taskbar.config t0))
                      (showAllWindows (Taskbar.config t0)))
    as [[|a ra]|] eqn:Hq.
  - unfold Taskbar.getRunningApps in *. rewrite Hs, Hc, Hs0, Hws, Hq in *.
    simpl in *. rewrite Hr, mapDelete_mapDelete, <- Hr.
    now rewrite setRunningApps_same.
  - specialize (Hsets (a :: ra) eq_refl eq_refl).
    rewrite <- Hc in Hq.
    unfold Taskbar.getRunningApps in Hr |- * at 2.
    rewrite Hs0, Hws in Hr |- *. rewrite <- Hc, Hq in Hr |- *.
    destruct (Js.mapHas Nat.eqb (Taskbar.runningApps t0) ws); cbn [negb] in *;
      simpl in Hr |- *.
    + eapply getRunningApps_cached; try eassumption; try discriminate.
      * apply (setFrom_NoDup nat_eqb_eq).
      * intros x. rewrite (setFrom_In nat_eqb_eq), in_app_iff,
          (setFrom_In nat_eqb_eq), filter_In, (setHas_In nat_eqb_eq).
        tauto.
    + eapply getRunningApps_cached; try eassumption; try discriminate.
      reflexivity.
  - unfold Taskbar.getRunningApps in *. rewrite Hs, Hc, Hs0, Hws, Hq in *.
    simpl in *. rewrite Hr, mapDelete_mapDelete, <- Hr.
    now rewrite setRunningApps_same.
Qed.

(** ** Taskbar.#rerender: twice in a row *)

Lemma retirePass_get (p : Taskbar.Pass) (old : list (Key * Ref)) (n : nat) (r : Ref) :
  (forall a b, In (KApp a, b) old -> In a (Taskbar.oldFavorites p) -> b <> r) ->
  Heap.get (fst (fst (Taskbar.retirePass p old n))) r
  = Heap.get (Taskbar.passHeap p) r.
Proof.
  intros H. unfold Taskbar.retirePass.
  destruct (Taskbar.oldFavorites p) eqn:E; [reflexivity|].
  rewrite <- E in *. now apply retire_get_other.
Qed.

Lemma mergePass_extends (h : Heap) (hasFavoritesApps : bool)
      (old : list (Key * Ref)) (p : Taskbar.Pass) (sep0 : Z) :
  exists kept,
    Taskbar.mergedButtons (Taskbar.mergePass h hasFavoritesApps old p sep0)
    = Taskbar.newButtons p ++ kept
    /\ forall e, In e kept -> Heap.valid h (snd e) = true.
Proof.
  unfold Taskbar.mergePass. cbv zeta.
  destruct (negb (length (Js.mapFrom key_eqb (old ++ Taskbar.newButtons p))
                  =? length (Taskbar.newButtons p))).
  - apply absorb_extends.
  - exists []. rewrite app_nil_r. split; [reflexivity | intros e []].
Qed.

Lemma mergePass_again (h : Heap) (hasFavoritesApps : bool)
      (new kept : list (Key * Ref)) (p : Taskbar.Pass) (sep0 : Z) :
  Taskbar.newButtons p = new ->
  NoDup (map fst (new ++ kept)) ->
  (forall e, In e (new ++ kept) -> Heap.valid h (snd e) = true) ->
  Taskbar.mergedButtons (Taskbar.mergePass h hasFavoritesApps (new ++ kept) p sep0)
  = new ++ kept
  /\ (kept = [] ->
      Taskbar.mergedSorted (Taskbar.mergePass h hasFavoritesApps (new ++ kept) p sep0)
      = Taskbar.sortedAppButtons p
      /\ Taskbar.mergedSeparator
           (Taskbar.mergePass h hasFavoritesApps (new ++ kept) p sep0)
         = sep0).
Proof.
  intros Hnew Hn Hv. unfold Taskbar.mergePass. cbv zeta. rewrite Hnew.
  rewrite (mapFrom_again key_eqb_eq (new ++ kept) new Hn)
    by (intros e He; apply in_or_app; now left).
  destruct (negb (length (new ++ kept) =? length new)) eqn:E.
  - split.
    + rewrite fold_left_app.
      set (m0 := Taskbar.mkMerge (-1) new (Taskbar.sortedAppButtons p) sep0).
      destruct (absorb_idle h hasFavoritesApps new m0) as [I1 _].
      { intros e He. right. simpl. apply (mapHas_In key_eqb_eq). now apply in_map. }
      rewrite absorb_append; rewrite ?I1; simpl; auto.
      intros e He. apply Hv. apply in_or_app. now right.
    + intros ->. rewrite app_nil_r, Nat.eqb_refl in E. discriminate.
  - apply negb_false_iff, Nat.eqb_eq in E. rewrite length_app in E.
    destruct kept; [|simpl in E; lia]. rewrite app_nil_r. simpl. auto.
Qed.

Lemma keys_KApp (m : list (Key * Ref)) (l : list App) (k : Key) (b : Ref) :
  map fst m = map KApp l -> In (k, b) m -> exists a, k = KApp a /\ In a l.
Proof.
  intros Hk Hin. apply (in_map fst) in Hin. rewrite Hk in Hin.
  apply in_map_iff in Hin. destruct Hin as [a [Ha Hin]]. exists a. auto.
Qed.

(** What [#rerender] does not write. *)
Lemma reconcile_frame (tk : Toolkit) (t1 : Taskbar.t) (old : list (Key * Ref))
      (favs : option (list App)) (desired : list App) :
  Taskbar.service (Taskbar.reconcile tk t1 old favs desired) = Taskbar.service t1
  /\ Taskbar.config (Taskbar.reconcile tk t1 old favs desired) = Taskbar.config t1
  /\ Taskbar.runningApps (Taskbar.reconcile tk t1 old favs desired)
     = Taskbar.runningApps t1
  /\ Taskbar.hasAllocation (Taskbar.reconcile tk t1 old favs desired)
     = Taskbar.hasAllocation t1
  /\ Taskbar.isQueued (Taskbar.reconcile tk t1 old favs desired)
     = Taskbar.isQueued t1
  /\ Taskbar.separator (Taskbar.reconcile tk t1 old favs desired)
     = Taskbar.separator t1.
Proof.
  unfold Taskbar.reconcile. cbv zeta.
  destruct (Taskbar.retirePass _ old (Taskbar.objects t1)) as [[h1 n1] old1].
  destruct (Taskbar.separator t1) eqn:E; simpl; rewrite ?E; repeat split.
Qed.

(** The state that a reconciliation leaves: the new map is the map of
    the first loop followed by the buttons that were kept, all of them
    valid, and the buttons of the desired applications carry the flags
    that the next call expects. *)
Lemma reconcile_first (tk : Toolkit) (t1 : Taskbar.t) (old : list (Key * Ref))
      (favs : option (list App)) (desired : list App) :
  registered (Taskbar.heap t1) old ->
  NoDup desired ->
  (Taskbar.separatorPosition t1 = (-1)%Z ->
   forall f a b, favs = Some f -> In (KApp a, b) old ->
     Heap.valid (Taskbar.heap t1) b = true ->
     Heap.favorite (Taskbar.heap t1) b = Js.setHas Nat.eqb f a) ->
  let p := Taskbar.firstPass tk old (Taskbar.separatorPosition t1) favs desired
             (Taskbar.heap t1) in
  let t' := Taskbar.reconcile tk t1 old favs desired in
  exists kept,
    Taskbar.appButtons t' = Some (Taskbar.newButtons p ++ kept)
    /\ NoDup (map fst (Taskbar.newButtons p ++ kept))
    /\ map fst (Taskbar.newButtons p) = map KApp desired
    /\ (forall a b, In (KApp a, b) (Taskbar.newButtons p) ->
          Heap.valid (Taskbar.heap t') b = true
          /\ Taskbar.isFavoriteChanged (Taskbar.heap t')
               (Taskbar.separatorPosition t') favs a b = false)
    /\ (forall e, In e kept -> Heap.valid (Taskbar.heap t') (snd e) = true)
    /\ (forall sep, Taskbar.separator t1 = Some sep ->
          Taskbar.setVisible (Taskbar.heap t') sep
            (enableSeparator (Taskbar.config t1)
             && ((0 <? match favs with Some f => length f | None => 0 end)
                 && (match favs with Some f => length f | None => 0 end
                     <? length desired)))
          = Taskbar.heap t').
Proof.
  intros Hold Hnd Hflags p t'.
  pose proof (reconcile_wellFormed tk t1 old favs desired Hold) as Hwf.
  fold t' in Hwf.
  destruct (firstPass_shape tk old (Taskbar.separatorPosition t1) favs desired
              (Taskbar.heap t1) Hnd) as [Hkeys _]. fold p in Hkeys.
  destruct (firstPass_passInv tk old (Taskbar.separatorPosition t1) favs
              (Taskbar.heap t1) desired Hold Hflags Hnd) as [_ [_ Hinv]].
  fold p in Hinv.
  assert (Hget : forall a b, In (KApp a, b) (Taskbar.newButtons p) ->
            Heap.get (fst (fst (Taskbar.retirePass p old (Taskbar.objects t1)))) b
            = Heap.get (Taskbar.passHeap p) b).
  { intros a b Hin. apply retirePass_get. intros a' b' Hin' Hnoted ->.
    destruct (Hinv _ _ Hin) as [a0 [[= <-] [_ [_ [_ Hor]]]]].
    destruct Hor as [Hge | [Hi Hno]].
    - pose proof (registered_lt _ _ _ _ Hold Hin'). lia.
    - pose proof (registered_app _ _ _ _ Hold Hin') as A1.
      pose proof (registered_app _ _ _ _ Hold Hi) as A2.
      rewrite A1 in A2. injection A2 as ->. contradiction. }
  subst t'. unfold Taskbar.reconcile in *. cbv zeta in *. fold p in Hwf |- *.
  destruct (Taskbar.retirePass p old (Taskbar.objects t1)) as [[h1 n1] old1].
  cbn [fst snd] in Hget.
  match goal with |- context [Taskbar.mergePass h1 ?hf old1 p ?s0] =>
    destruct (mergePass_extends h1 hf old1 p s0) as [kept [Hm Hkept]];
    set (m := Taskbar.mergePass h1 hf old1 p s0) in *
  end.
  exists kept.
  assert (Hflag : forall h', (forall a b, In (KApp a, b) (Taskbar.newButtons p) ->
                      Heap.valid h' b = Heap.valid h1 b
                      /\ Heap.favorite h' b = Heap.favorite h1 b) ->
            forall a b, In (KApp a, b) (Taskbar.newButtons p) ->
              Heap.valid h' b = true
              /\ Taskbar.isFavoriteChanged h'
                   (if match favs with Some _ => true | None => false end
                    then Z.of_nat match favs with Some f => length f | None => 0 end
                    else (-1)%Z) favs a b = false).
  { intros h' Hsame a b Hin. destruct (Hsame a b Hin) as [S1 S2].
    destruct (Hinv _ _ Hin) as [a0 [[= <-] [_ [Hv [Hfl _]]]]].
    unfold Heap.valid, Heap.favorite in S1, S2, Hv, Hfl |- *.
    rewrite (Hget a b Hin) in S1, S2. split; [now rewrite S1|].
    unfold Taskbar.isFavoriteChanged. destruct favs as [f|]; [|reflexivity].
    unfold Heap.favorite. rewrite S2, (Hfl f eq_refl), Bool.eqb_reflx.
    apply andb_false_r. }
  destruct (Taskbar.separator t1) as [sep|] eqn:Hsep; unfold wellFormed in Hwf;
    simpl in Hwf |- *; rewrite Hm in *.
  - split; [reflexivity|]. split; [apply Hwf|]. split; [exact Hkeys|]. split.
    + apply Hflag. intros a b _.
      now rewrite valid_setVisible, favorite_setVisible.
    + split.
      * intros e He. rewrite valid_setVisible. now apply Hkept.
      * intros sep' [= <-]. apply setVisible_again.
  - split; [reflexivity|]. split; [apply Hwf|]. split; [exact Hkeys|]. split.
    + apply Hflag. auto.
    + split; [exact Hkept | intros sep' [=]].
Qed.

(** The second of two reconciliations in a row finds every button in
    place. *)
Lemma reconcile_second (tk : Toolkit) (t1 : Taskbar.t)
      (new kept : list (Key * Ref)) (favs : option (list App))
      (desired : list App) :
  NoDup (map fst (new ++ kept)) ->
  map fst new = map KApp desired ->
  (forall a b, In (KApp a, b) new ->
     Heap.valid (Taskbar.heap t1) b = true
     /\ Taskbar.isFavoriteChanged (Taskbar.heap t1)
          (Taskbar.separatorPosition t1) favs a b = false) ->
  (forall e, In e kept -> Heap.valid (Taskbar.heap t1) (snd e) = true) ->
  (forall sep, Taskbar.separator t1 = Some sep ->
     Taskbar.setVisible (Taskbar.heap t1) sep
       (enableSeparator (Taskbar.config t1)
        && ((0 <? match favs with Some f => length f | None => 0 end)
            && (match favs with Some f => length f | None => 0 end
                <? length desired)))
     = Taskbar.heap t1) ->
  let t2 := Taskbar.reconcile tk t1 (new ++ kept) favs desired in
  Taskbar.heap t2 = Taskbar.heap t1
  /\ Taskbar.appButtons t2 = Some (new ++ kept)
  /\ Taskbar.objects t2 = Taskbar.objects t1
  /\ (kept = [] ->
      Taskbar.placed t2 = map snd new
      /\ (Taskbar.separator t1 <> None ->
          Taskbar.separatorIndex t2
          = if match favs with Some _ => true | None => false end
            then Z.of_nat match favs with Some f => length f | None => 0 end
            else (-1)%Z)
      /\ (Taskbar.separator t1 = None ->
          Taskbar.separatorIndex t2 = Taskbar.separatorIndex t1)).
Proof.
  intros Hn Hkeys Hnew Hkept Hvis t2. subst t2.
  unfold Taskbar.reconcile. cbv zeta.
  assert (Hpass : Taskbar.firstPass tk (new ++ kept) (Taskbar.separatorPosition t1)
                    favs desired (Taskbar.heap t1)
                  = Taskbar.mkPass (Taskbar.heap t1) new [] (map snd new)).
  { unfold Taskbar.firstPass.
    apply (visit_fold_reuse tk (Taskbar.separatorPosition t1) favs
             (Taskbar.heap t1) (new ++ kept) kept new desired []);
      auto. }
  rewrite Hpass. unfold Taskbar.retirePass.
  cbn [Taskbar.oldFavorites Taskbar.passHeap].
  match goal with |- context [Taskbar.mergePass ?h ?hf (new ++ kept) ?p ?s0] =>
    destruct (mergePass_again h hf new kept p s0 eq_refl Hn) as [M1 M2];
    [|set (m := Taskbar.mergePass h hf (new ++ kept) p s0) in *]
  end.
  { intros [k b] He. apply in_app_or in He. destruct He as [He | He].
    - destruct (keys_KApp new desired k b Hkeys He) as [a [-> _]].
      now destruct (Hnew a b He).
    - now apply Hkept. }
  destruct (Taskbar.separator t1) as [sep|] eqn:Hsep; simpl.
  - rewrite (Hvis sep eq_refl), M1.
    split; [reflexivity|]. split; [reflexivity|]. split; [reflexivity|].
    intros ->. destruct (M2 eq_refl) as [S1 S2].
    split; [exact S1|]. split; [intros _; exact S2 | discriminate].
  - rewrite M1.
    split; [reflexivity|]. split; [reflexivity|]. split; [reflexivity|].
    intros ->. destruct (M2 eq_refl) as [S1 S2].
    split; [exact S1|]. split; [intros H; now contradiction H | reflexivity].
Qed.

Lemma getRunningApps_NoDup (t0 : Taskbar.t) (r : list App) :
  answersSets t0 -> snd (Taskbar.getRunningApps t0) = Some r -> NoDup r.
Proof.
  intros [_ Hq]. unfold Taskbar.getRunningApps.
  destruct (Taskbar.service t0) as [s|]; [|discriminate].
  destruct (workspace s) as [ws|]; [|discriminate].
  specialize (Hq s).
  destruct (queryApps s _ _) as [[|a ra]|]; simpl.
  - intros [= <-]. constructor.
  - destruct (negb (Js.mapHas Nat.eqb (Taskbar.runningApps t0) ws)); simpl.
    + intros [= <-]. now apply Hq.
    + intros [= <-]. apply (setFrom_NoDup nat_eqb_eq).
  - discriminate.
Qed.

Lemma desired_NoDup (t0 : Taskbar.t) (desired : list App) :
  answersSets t0 ->
  Taskbar.desiredApps (Taskbar.favoriteApps t0) (snd (Taskbar.getRunningApps t0))
  = Some desired ->
  NoDup desired.
Proof.
  intros Hsets Hd. destruct (Taskbar.favoriteApps t0) as [f|] eqn:Hf.
  - destruct Hsets as [Hfav _].
    now destruct (desiredApps_favorites_first f _ desired (Hfav f Hf) Hd).
  - simpl in Hd. eapply getRunningApps_NoDup; eassumption.
Qed.

Lemma favoriteApps_service (t t' : Taskbar.t) :
  Taskbar.service t' = Taskbar.service t ->
  Taskbar.favoriteApps t' = Taskbar.favoriteApps t.
Proof. intros H. unfold Taskbar.favoriteApps. now rewrite H. Qed.


Lemma fresh_answersSets : answersSets Samples.fresh.
Proof.
  split.
  - intros f [= <-]. repeat constructor. intros [].
  - intros s ra [= <-]. simpl. intros [= <-]. repeat constructor. intros [].
Qed.

Lemma fresh_flagsAgree : flagsAgree Samples.fresh.
Proof. intros _ f old a b _ [= <-] []. Qed.



(** ** DragAndDropHandler: the outcomes of handleDrag *)

Lemma length_destroyOpt (h : Heap) (c : option Ref) :
  length (Heap.destroyOpt h c) = length h.
Proof. destruct c; [apply length_update | reflexivity]. Qed.

(** The three ways a live [handleDrag] ends: over the own location of
    the target, with the candidate kept, or with a new candidate. *)
Lemma handleDrag_cases (tk : Toolkit) (h : Heap) (d : DragAndDropHandler.t)
      (p : DragParams) (sl : list Slot) :
  DragAndDropHandler.slots d = Some sl ->
  DragAndDropHandler.parent d = true ->
  let sl1 := pruned h sl in
  let px := pointer tk d p in
  let pos := scanned px sl1 in
  let res := DragAndDropHandler.handleDrag tk h d (Some p) in
  let h' := fst (fst res) in
  let d' := snd (fst res) in
  snd res = DragAndDropHandler.competitorAt sl1 (Z.of_nat pos)
  /\ DragAndDropHandler.parent d' = true
  /\ DragAndDropHandler.destroyCallback d' = DragAndDropHandler.destroyCallback d
  /\ ((h' = Heap.destroyOpt h (DragAndDropHandler.candidate d)
       /\ DragAndDropHandler.slots d' = Some sl1
       /\ DragAndDropHandler.candidate d' = None
       /\ DragAndDropHandler.candidatePosition d'
          = Z.min (DragAndDropHandler.candidatePosition d) (Z.of_nat (length sl1))
       /\ exists r, identity (target p) = Some r
                    /\ (DragAndDropHandler.competitorAt sl1 (Z.of_nat pos) = Some r
                        \/ DragAndDropHandler.competitorAt sl1 (Z.of_nat pos - 1) = Some r))
      \/ (h' = h
          /\ DragAndDropHandler.slots d' = Some sl1
          /\ DragAndDropHandler.candidate d' = DragAndDropHandler.candidate d
          /\ DragAndDropHandler.candidate d <> None
          /\ DragAndDropHandler.candidatePosition d'
             = Z.of_nat (DragAndDropHandler.resolvePosition px sl1 (target p)))
      \/ (h' = Heap.destroyOpt h (DragAndDropHandler.candidate d)
               ++ [DragAndDropHandler.newCandidate tk (targetApp (target p))]
          /\ DragAndDropHandler.candidate d' = Some (length h)
          /\ DragAndDropHandler.candidatePosition d'
             = Z.of_nat (DragAndDropHandler.resolvePosition px sl1 (target p))
          /\ (DragAndDropHandler.slots d' = Some sl1
              \/ exists q,
                   DragAndDropHandler.scan px sl1 0 = Some (pos, q)
                   /\ DragAndDropHandler.resolvePosition px sl1 (target p) = pos
                   /\ DragAndDropHandler.slots d'
                      = Some (Js.splice pos
                                (DragAndDropHandler.DropCompetitor h' (length h) (Some q))
                                sl1)))).
Proof.
  intros Hs Hp sl1 px pos res h' d'.
  subst res h' d'.
  unfold DragAndDropHandler.handleDrag, DragAndDropHandler.resolvePosition.
  rewrite Hs, Hp. fold (pruned h sl). fold sl1. fold (pointer tk d p). fold px.
  fold (scanned px sl1). fold pos.
  assert (Hpos : match DragAndDropHandler.scan px sl1 0 with
                 | Some (i, _) => i
                 | None => length sl1
                 end = pos) by reflexivity.
  rewrite ?Hpos.
  set (after := sameRef (identity (target p))
                  (DragAndDropHandler.competitorAt sl1 (Z.of_nat pos - 1))
                && (Z.of_nat pos =? Z.of_nat (length sl1) - 1)%Z).
  destruct (negb after
            && (sameRef (identity (target p))
                  (DragAndDropHandler.competitorAt sl1 (Z.of_nat pos))
                || sameRef (identity (target p))
                     (DragAndDropHandler.competitorAt sl1 (Z.of_nat pos - 1)))) eqn:Hown.
  - cbn [fst snd DragAndDropHandler.parent DragAndDropHandler.destroyCallback
         DragAndDropHandler.slots DragAndDropHandler.candidate
         DragAndDropHandler.candidatePosition].
    split; [reflexivity|]. split; [reflexivity|]. split; [reflexivity|].
    left. split; [reflexivity|]. split; [reflexivity|]. split; [reflexivity|].
    split.
    + destruct (DragAndDropHandler.candidatePosition d >? Z.of_nat (length sl1))%Z eqn:E; lia.
    + apply andb_true_iff in Hown. destruct Hown as [_ Ho].
      destruct (identity (target p)) as [r|]; [|discriminate].
      exists r. split; [reflexivity|].
      apply orb_true_iff in Ho. destruct Ho as [Ho | Ho]; [left | right];
        match type of Ho with sameRef _ ?c = true =>
          destruct c as [r'|]; [|discriminate] end;
        simpl in Ho; apply Nat.eqb_eq in Ho; now subst.
  - match goal with |- context [if ?k then _ else _] =>
      destruct k eqn:Hk end.
    + cbn [fst snd DragAndDropHandler.parent DragAndDropHandler.destroyCallback
           DragAndDropHandler.slots DragAndDropHandler.candidate
           DragAndDropHandler.candidatePosition].
      split; [reflexivity|]. split; [reflexivity|]. split; [reflexivity|].
      right. left. split; [reflexivity|]. split; [reflexivity|]. split; [reflexivity|].
      split; [|reflexivity].
      destruct (DragAndDropHandler.candidate d); [discriminate|discriminate].
    + unfold Heap.alloc.
      cbn [fst snd DragAndDropHandler.parent DragAndDropHandler.destroyCallback
           DragAndDropHandler.slots DragAndDropHandler.candidate
           DragAndDropHandler.candidatePosition].
      rewrite length_destroyOpt.
      split; [reflexivity|]. split; [reflexivity|]. split; [reflexivity|].
      right. right. split; [reflexivity|]. split; [reflexivity|]. split; [reflexivity|].
      destruct after eqn:Ha; [left; reflexivity|].
      unfold pos, scanned.
      destruct (DragAndDropHandler.scan px sl1 0) as [[i q]|] eqn:Hsc.
      * right. exists q. split; [reflexivity|]. split; [reflexivity|]. reflexivity.
      * left. reflexivity.
Qed.

Lemma competitorAt_nth (sl : list Slot) (i : nat) :
  DragAndDropHandler.competitorAt sl (Z.of_nat i)
  = option_map competitor (nth_error sl i).
Proof.
  unfold DragAndDropHandler.competitorAt.
  assert (E : (Z.of_nat i <? 0)%Z = false) by (apply Z.ltb_ge; lia).
  now rewrite E, Nat2Z.id.
Qed.

Lemma scanned_bound (px : Z) (sl : list Slot) : scanned px sl <= length sl.
Proof.
  unfold scanned.
  destruct (DragAndDropHandler.scan px sl 0) as [[i q]|] eqn:E; [|lia].
  apply scan_bounds in E. lia.
Qed.

Lemma resolvePosition_bound (px : Z) (sl : list Slot) (tg : Target) :
  DragAndDropHandler.resolvePosition px sl tg <= length sl.
Proof.
  unfold DragAndDropHandler.resolvePosition. fold (scanned px sl).
  pose proof (scanned_bound px sl) as Hb.
  destruct (sameRef (identity tg)
              (DragAndDropHandler.competitorAt sl (Z.of_nat (scanned px sl) - 1)));
    [|simpl; lia].
  destruct (Z.of_nat (scanned px sl) =? Z.of_nat (length sl) - 1)%Z eqn:E;
    simpl; [|lia].
  apply Z.eqb_eq in E. lia.
Qed.



(** X2. [handleDrag] never leaves a stale candidate alive: a candidate
    that is no longer the candidate after the call is invalid.  No other
    component that existed before the call is touched, and the candidate
    after the call is the old one, with the heap as it was, or a new
    object made for the application of the target. *)
Theorem handleDrag_stale_candidate (tk : Toolkit) (h : Heap)
        (d : DragAndDropHandler.t) (params : option DragParams) :
  let res := DragAndDropHandler.handleDrag tk h d params in
  let h' := fst (fst res) in
  let d' := snd (fst res) in
  (forall c, DragAndDropHandler.candidate d = Some c ->
             DragAndDropHandler.candidate d' <> Some c ->
             Heap.valid h' c = false)
  /\ (forall r, r < length h -> DragAndDropHandler.candidate d <> Some r ->
                Heap.get h' r = Heap.get h r)
  /\ (forall c, DragAndDropHandler.candidate d' = Some c ->
                (DragAndDropHandler.candidate d = Some c /\ h' = h)
                \/ exists p, params = Some p /\ c = length h
                             /\ Heap.get h' c
                                = Some (DragAndDropHandler.newCandidate
                                          tk (targetApp (target p)))).
Proof.
  intros res h' d'.
  assert (Hdead : res = (h, d, None) ->
          (forall c, DragAndDropHandler.candidate d = Some c ->
                     DragAndDropHandler.candidate d' <> Some c ->
                     Heap.valid h' c = false)
          /\ (forall r, r < length h -> DragAndDropHandler.candidate d <> Some r ->
                        Heap.get h' r = Heap.get h r)
          /\ (forall c, DragAndDropHandler.candidate d' = Some c ->
                        (DragAndDropHandler.candidate d = Some c /\ h' = h)
                        \/ exists p, params = Some p /\ c = length h
                                     /\ Heap.get h' c
                                        = Some (DragAndDropHandler.newCandidate
                                                  tk (targetApp (target p))))).
  { intros E. subst h' d'. rewrite E. simpl.
    split; [intros c H1 H2; contradiction|]. split; [reflexivity|].
    intros c H. left. split; [exact H | reflexivity]. }
  destruct params as [p|]; [|apply Hdead; reflexivity].
  destruct (DragAndDropHandler.slots d) as [sl|] eqn:Hs;
    [|apply Hdead; subst res; unfold DragAndDropHandler.handleDrag; now rewrite Hs].
  destruct (DragAndDropHandler.parent d) eqn:Hp;
    [|apply Hdead; subst res; unfold DragAndDropHandler.handleDrag; now rewrite Hs, Hp].
  clear Hdead.
  destruct (handleDrag_cases tk h d p sl Hs Hp) as [_ [_ [_ Hc]]].
  fold res in Hc. fold h' in Hc. fold d' in Hc.
  assert (Hother : forall r, DragAndDropHandler.candidate d <> Some r ->
            Heap.get (Heap.destroyOpt h (DragAndDropHandler.candidate d)) r
            = Heap.get h r).
  { intros r Hr. destruct (DragAndDropHandler.candidate d) as [c|]; [|reflexivity].
    simpl. unfold Heap.destroy. rewrite get_update.
    destruct (Nat.eqb c r) eqn:E; [|reflexivity].
    apply Nat.eqb_eq in E. subst. now contradiction Hr. }
  destruct Hc as [[Hh [_ [Hc _]]] | [[Hh [_ [Hc _]]] | [Hh [Hc _]]]].
  - rewrite Hh, Hc. split; [|split].
    + intros c E _. rewrite E. apply valid_destroy_same.
    + intros r _ Hr. now apply Hother.
    + discriminate.
  - rewrite Hh, Hc. split; [|split].
    + intros c E N. contradiction.
    + reflexivity.
    + intros c E. left. split; [exact E | reflexivity].
  - rewrite Hc. split; [|split].
    + intros c E N. unfold Heap.valid. rewrite Hh.
      pose proof (get_alloc (Heap.destroyOpt h (DragAndDropHandler.candidate d))
                    (DragAndDropHandler.newCandidate tk (targetApp (target p))) c) as G.
      unfold Heap.alloc in G. simpl in G. rewrite G, length_destroyOpt.
      destruct (c <? length h) eqn:L.
      * rewrite E. simpl. pose proof (valid_destroy_same h c) as V.
        unfold Heap.valid in V. exact V.
      * destruct (Nat.eqb c (length h)) eqn:L'; [|reflexivity].
        apply Nat.eqb_eq in L'. subst c. now contradiction N.
    + intros r Hr N. rewrite Hh.
      pose proof (get_alloc (Heap.destroyOpt h (DragAndDropHandler.candidate d))
                    (DragAndDropHandler.newCandidate tk (targetApp (target p))) r) as G.
      unfold Heap.alloc in G. simpl in G. rewrite G, length_destroyOpt.
      apply Nat.ltb_lt in Hr. rewrite Hr. now apply Hother.
    + intros c E. injection E as <-. right. exists p. split; [reflexivity|].
      split; [reflexivity|]. rewrite Hh.
      pose proof (get_alloc (Heap.destroyOpt h (DragAndDropHandler.candidate d))
                    (DragAndDropHandler.newCandidate tk (targetApp (target p)))
                    (length h)) as G.
      unfold Heap.alloc in G. simpl in G. rewrite G, length_destroyOpt.
      now rewrite Nat.ltb_irrefl, Nat.eqb_refl.
Qed.

(** X3. Over its own location a dragged component gets no candidate:
    when the target is the item of the slot the scan stops at, or of the
    slot before it, and the append-after case does not apply, the call
    destroys the candidate, keeps the pruned slots and creates nothing. *)
Theorem handleDrag_own_location (tk : Toolkit) (h : Heap) (d : DragAndDropHandler.t)
        (p : DragParams) (sl : list Slot) (r : Ref) :
  DragAndDropHandler.slots d = Some sl ->
  DragAndDropHandler.parent d = true ->
  identity (target p) = Some r ->
  let sl1 := pruned h sl in
  let pos := Z.of_nat (scanned (pointer tk d p) sl1) in
  (DragAndDropHandler.competitorAt sl1 pos = Some r
   \/ DragAndDropHandler.competitorAt sl1 (pos - 1) = Some r) ->
  ~ (DragAndDropHandler.competitorAt sl1 (pos - 1) = Some r
     /\ pos = (Z.of_nat (length sl1) - 1)%Z) ->
  let res := DragAndDropHandler.handleDrag tk h d (Some p) in
  fst (fst res) = Heap.destroyOpt h (DragAndDropHandler.candidate d)
  /\ DragAndDropHandler.candidate (snd (fst res)) = None
  /\ DragAndDropHandler.slots (snd (fst res)) = Some sl1
  /\ snd res = DragAndDropHandler.competitorAt sl1 pos.
Proof.
  intros Hs Hp Hid sl1 pos Hat Hnot res. subst res.
  unfold DragAndDropHandler.handleDrag.
  rewrite Hs, Hp, Hid. fold (pruned h sl). fold sl1. fold (pointer tk d p).
  fold (scanned (pointer tk d p) sl1). fold pos.
  assert (Hsame : forall o, sameRef (Some r) o = true <-> o = Some r).
  { intros [r'|]; simpl; [|split; discriminate].
    rewrite Nat.eqb_eq. split; [now intros -> | now intros [= ->]]. }
  assert (Hown : negb (sameRef (Some r) (DragAndDropHandler.competitorAt sl1 (pos - 1))
                       && (pos =? Z.of_nat (length sl1) - 1)%Z)
                 && (sameRef (Some r) (DragAndDropHandler.competitorAt sl1 pos)
                     || sameRef (Some r) (DragAndDropHandler.competitorAt sl1 (pos - 1)))
                 = true).
  { apply andb_true_iff. split.
    - apply negb_true_iff, not_true_is_false. intros E.
      apply andb_true_iff in E. destruct E as [E1 E2].
      apply Hnot. split; [now apply Hsame | now apply Z.eqb_eq].
    - apply orb_true_iff. destruct Hat as [H | H]; [left | right]; now apply Hsame. }
  rewrite Hown. simpl. repeat split.
Qed.

Lemma handleDrag_own_location_witness :
  fst (fst (DragAndDropHandler.handleDrag Samples.toolkit Samples.oneButton
              Samples.oneSlotHandler
              (Some (mkDragParams 40 0 (mkTarget (Some 0) 7)))))
  = Heap.destroyOpt Samples.oneButton
      (DragAndDropHandler.candidate Samples.oneSlotHandler)
  /\ DragAndDropHandler.candidate
       (snd (fst (DragAndDropHandler.handleDrag Samples.toolkit Samples.oneButton
                    Samples.oneSlotHandler
                    (Some (mkDragParams 40 0 (mkTarget (Some 0) 7)))))) = None
  /\ DragAndDropHandler.slots
       (snd (fst (DragAndDropHandler.handleDrag Samples.toolkit Samples.oneButton
                    Samples.oneSlotHandler
                    (Some (mkDragParams 40 0 (mkTarget (Some 0) 7))))))
     = Some (pruned Samples.oneButton Samples.oneSlot)
  /\ snd (DragAndDropHandler.handleDrag Samples.toolkit Samples.oneButton
            Samples.oneSlotHandler
            (Some (mkDragParams 40 0 (mkTarget (Some 0) 7))))
     = DragAndDropHandler.competitorAt (pruned Samples.oneButton Samples.oneSlot)
         (Z.of_nat (scanned (pointer Samples.toolkit Samples.oneSlotHandler
                               (mkDragParams 40 0 (mkTarget (Some 0) 7)))
                            (pruned Samples.oneButton Samples.oneSlot))).
Proof.
  apply (handleDrag_own_location Samples.toolkit Samples.oneButton
           Samples.oneSlotHandler (mkDragParams 40 0 (mkTarget (Some 0) 7))
           Samples.oneSlot 0).
  - reflexivity.
  - reflexivity.
  - reflexivity.
  - right. reflexivity.
  - intros [_ H]. vm_compute in H. discriminate.
Defined.



(** X5. After a live [handleDrag] the recorded candidate position is an
    index into the slots or the index just past them, and it is not
    negative while a candidate exists. *)
Theorem handleDrag_position_bounds (tk : Toolkit) (h : Heap)
        (d : DragAndDropHandler.t) (p : DragParams) (sl : list Slot) :
  DragAndDropHandler.slots d = Some sl ->
  DragAndDropHandler.parent d = true ->
  let d' := snd (fst (DragAndDropHandler.handleDrag tk h d (Some p))) in
  exists sl', DragAndDropHandler.slots d' = Some sl'
    /\ (DragAndDropHandler.candidatePosition d' <= Z.of_nat (length sl'))%Z
    /\ (DragAndDropHandler.candidate d' <> None ->
        (0 <= DragAndDropHandler.candidatePosition d')%Z).
Proof.
  intros Hs Hp d'.
  destruct (handleDrag_cases tk h d p sl Hs Hp) as [_ [_ [_ Hc]]].
  fold d' in Hc.
  pose proof (resolvePosition_bound (pointer tk d p) (pruned h sl) (target p)) as Hb.
  destruct Hc as [[_ [H [Hc [Hpos _]]]] | [[_ [H [_ [_ Hpos]]]]
                 | [_ [_ [Hpos [H | [q [Hsc [Hr H]]]]]]]]].
  - exists (pruned h sl). split; [exact H|]. split; [lia|].
    intros N. now contradiction N.
  - exists (pruned h sl). split; [exact H|]. split; lia.
  - exists (pruned h sl). split; [exact H|]. split; lia.
  - eexists. split; [exact H|]. unfold Js.splice.
    rewrite length_app. simpl. rewrite length_firstn, length_skipn. split; lia.
Qed.

Lemma handleDrag_position_bounds_witness :
  exists sl',
    DragAndDropHandler.slots
      (snd (fst (DragAndDropHandler.handleDrag Samples.toolkit Samples.oneButton
                   Samples.oneSlotHandler (Some (mkDragParams 0 0 Samples.foreign)))))
    = Some sl'
    /\ (DragAndDropHandler.candidatePosition
          (snd (fst (DragAndDropHandler.handleDrag Samples.toolkit Samples.oneButton
                       Samples.oneSlotHandler
                       (Some (mkDragParams 0 0 Samples.foreign)))))
        <= Z.of_nat (length sl'))%Z
    /\ (DragAndDropHandler.candidate
          (snd (fst (DragAndDropHandler.handleDrag Samples.toolkit Samples.oneButton
                       Samples.oneSlotHandler
                       (Some (mkDragParams 0 0 Samples.foreign))))) <> None ->
        (0 <= DragAndDropHandler.candidatePosition
                (snd (fst (DragAndDropHandler.handleDrag Samples.toolkit
                             Samples.oneButton Samples.oneSlotHandler
                             (Some (mkDragParams 0 0 Samples.foreign))))))%Z).
Proof.
  apply (handleDrag_position_bounds Samples.toolkit Samples.oneButton
           Samples.oneSlotHandler (mkDragParams 0 0 Samples.foreign)
           Samples.oneSlot); reflexivity.
Defined.

(** X6. [destroy()] leaves a handler that does nothing any more: the
    candidate is invalid, every later [handleDrag] and [handleDrop]
    answers nothing and changes nothing, and a second [destroy()] neither
    changes anything nor calls the destroy callback again. *)
Theorem destroy_inert (h : Heap) (d : DragAndDropHandler.t) :
  let res := DragAndDropHandler.destroy h d in
  let h' := fst (fst res) in
  let d' := snd (fst res) in
  snd res = DragAndDropHandler.destroyCallback d
  /\ (forall c, DragAndDropHandler.candidate d = Some c -> Heap.valid h' c = false)
  /\ (forall tk h2 params,
        DragAndDropHandler.handleDrag tk h2 d' params = (h2, d', None))
  /\ (forall h2, DragAndDropHandler.handleDrop h2 d' = (None, d'))
  /\ (forall h2 q inside,
        DragAndDropHandler.handleDragActorPosition h2 d' q inside = (h2, d'))
  /\ (forall h2, DragAndDropHandler.destroy h2 d' = (h2, d', false)).
Proof.
  simpl. split; [reflexivity|]. split; [|split; [|split; [|split]]].
  - intros c E. rewrite E. apply valid_destroy_same.
  - intros tk h2 [p|]; reflexivity.
  - reflexivity.
  - intros h2 [q|] [|]; reflexivity.
  - reflexivity.
Qed.

(** X7. Once the drag actor has left the rectangle of the parent, the
    candidate is destroyed and a drop is refused; so is a second drop
    right after a first one.  An actor inside the parent, or a parent
    without a rectangle, changes nothing. *)
Theorem handleDrop_after_leave (h : Heap) (d : DragAndDropHandler.t)
        (q : Rectangle) :
  let away := DragAndDropHandler.handleDragActorPosition h d (Some q) false in
  (forall c, DragAndDropHandler.candidate d = Some c ->
             Heap.valid (fst away) c = false)
  /\ (forall h2, DragAndDropHandler.handleDrop h2 (snd away) = (None, snd away))
  /\ DragAndDropHandler.slots (snd away) = DragAndDropHandler.slots d
  /\ (forall h2 h3,
        DragAndDropHandler.handleDrop h3
          (snd (DragAndDropHandler.handleDrop h2 d))
        = (None, snd (DragAndDropHandler.handleDrop h2 d)))
  /\ DragAndDropHandler.handleDragActorPosition h d (Some q) true = (h, d)
  /\ (forall inside,
        DragAndDropHandler.handleDragActorPosition h d None inside = (h, d)).
Proof.
  simpl. split; [|split; [|split; [|split; [|split]]]].
  - intros c E. rewrite E. apply valid_destroy_same.
  - intros h2. unfold DragAndDropHandler.handleDrop. simpl.
    now destruct (DragAndDropHandler.slots d).
  - reflexivity.
  - intros h2 h3. unfold DragAndDropHandler.handleDrop.
    destruct (DragAndDropHandler.slots d) as [sl|] eqn:Hs;
      [destruct (DragAndDropHandler.candidate d) as [c|] eqn:Hc|];
      simpl; rewrite ?Hs, ?Hc; reflexivity.
  - reflexivity.
  - reflexivity.
Qed.

(** ** TaskbarAllocation: bounds of the allocation size *)

Lemma allocationLoop_bounds (h : Heap) (es : list (Ref * Z)) :
  Forall (fun e => (0 <= snd e)%Z) es ->
  forall (apps : list (App * nat)) (r : Z),
  (r <= TaskbarAllocation.allocationLoop h es apps r <= r + totalSize es)%Z.
Proof.
  induction 1 as [|[s w] es Hw Hes IH]; intros apps r;
    cbn [TaskbarAllocation.allocationLoop totalSize fold_right snd].
  - lia.
  - fold (totalSize es). simpl in Hw.
    destruct (Heap.app h s) as [a|].
    + destruct (APP_ALLOCATION_THRESHOLD <=?
                match Js.mapGet Nat.eqb apps a with Some n => n | None => 0 end).
      * specialize (IH apps r). lia.
      * specialize (IH (Js.mapSet Nat.eqb apps a
                          (match Js.mapGet Nat.eqb apps a with
                           | Some n => n | None => 0 end + 1)) (r + w)%Z). lia.
    + specialize (IH apps (r + w)%Z). lia.
Qed.

(** The number of instances counted so far for an application. *)
Lemma allocationLoop_all (h : Heap) (es : list (Ref * Z)) :
  forall (apps : list (App * nat)) (r : Z),
  (forall a, match Js.mapGet Nat.eqb apps a with Some n => n | None => 0 end
             + length (filter (boundTo h a) es) <= APP_ALLOCATION_THRESHOLD) ->
  TaskbarAllocation.allocationLoop h es apps r = (r + totalSize es)%Z.
Proof.
  induction es as [|[s w] es IH]; intros apps r Hc;
    cbn [TaskbarAllocation.allocationLoop totalSize fold_right snd].
  - lia.
  - fold (totalSize es).
    assert (Hbt : forall a, boundTo h a (s, w)
                  = match Heap.app h s with
                    | Some b => Nat.eqb b a
                    | None => false
                    end) by reflexivity.
    destruct (Heap.app h s) as [a|] eqn:Ha.
    + pose proof (Hc a) as Hca. simpl filter in Hca.
      rewrite Hbt, Nat.eqb_refl in Hca. cbn [length] in Hca.
      set (count := match Js.mapGet Nat.eqb apps a with
                    | Some n => n | None => 0 end) in *.
      assert (E : (APP_ALLOCATION_THRESHOLD <=? count) = false)
        by (apply Nat.leb_gt; lia).
      rewrite E, IH; [lia|].
      intros b. rewrite (mapGet_mapSet nat_eqb_eq).
      pose proof (Hc b) as Hcb. simpl filter in Hcb. rewrite Hbt in Hcb.
      destruct (Nat.eqb b a) eqn:Eb.
      * apply Nat.eqb_eq in Eb. subst b. rewrite Nat.eqb_refl in Hcb.
        cbn [length] in Hcb. fold count in Hcb. lia.
      * assert (Eb' : Nat.eqb a b = false).
        { apply Nat.eqb_neq. apply Nat.eqb_neq in Eb. congruence. }
        rewrite Eb' in Hcb. exact Hcb.
    + rewrite IH; [lia|]. intros a. pose proof (Hc a) as Hca.
      simpl filter in Hca. rewrite Hbt in Hca. exact Hca.
Qed.

(** X8. With recorded sizes that are not negative, the allocation size
    lies between zero and the sum of all recorded sizes: the threshold
    only ever leaves entries out. *)
Theorem allocationSize_bounds (h : Heap) (al : TaskbarAllocation.t)
        (entries : list (Ref * Z)) :
  TaskbarAllocation.allocation al = Some entries ->
  Forall (fun e => (0 <= snd e)%Z) entries ->
  (0 <= TaskbarAllocation.allocationSize h al <= totalSize entries)%Z.
Proof.
  intros Hal Hw. rewrite (allocationSize_loop h al entries Hal).
  pose proof (allocationLoop_bounds h entries Hw [] 0). lia.
Qed.

Lemma allocationSize_bounds_witness :
  (0 <= TaskbarAllocation.allocationSize Samples.crowd
          (Samples.allocationOf Samples.crowdEntries)
   <= totalSize Samples.crowdEntries)%Z.
Proof.
  apply (allocationSize_bounds Samples.crowd
           (Samples.allocationOf Samples.crowdEntries) Samples.crowdEntries).
  - reflexivity.
  - unfold Samples.crowdEntries. repeat constructor; simpl; lia.
Defined.

(** X9. When no application has more recorded buttons than the
    threshold, nothing is left out: the allocation size is the sum of all
    recorded sizes. *)
Theorem allocationSize_below_threshold (h : Heap) (al : TaskbarAllocation.t)
        (entries : list (Ref * Z)) :
  TaskbarAllocation.allocation al = Some entries ->
  (forall a, length (filter (boundTo h a) entries) <= APP_ALLOCATION_THRESHOLD) ->
  TaskbarAllocation.allocationSize h al = totalSize entries.
Proof.
  intros Hal Hc. rewrite (allocationSize_loop h al entries Hal).
  rewrite allocationLoop_all; [lia|]. intros a. simpl. apply Hc.
Qed.

Lemma allocationSize_below_threshold_witness :
  TaskbarAllocation.allocationSize Samples.crowd
    (Samples.allocationOf Samples.crowdRest)
  = totalSize Samples.crowdRest.
Proof.
  apply (allocationSize_below_threshold Samples.crowd
           (Samples.allocationOf Samples.crowdRest) Samples.crowdRest).
  - reflexivity.
  - intros a. simpl. unfold APP_ALLOCATION_THRESHOLD.
    destruct (boundTo Samples.crowd a (3, 4%Z)); simpl; lia.
Defined.

(** ** TaskbarAllocation: add, remove, update and destroy *)

Section MoreMapFacts.
Variables K V : Type.
Variable eqb : K -> K -> bool.
Hypothesis eqb_eq : forall a b, eqb a b = true <-> a = b.

Lemma mapDelete_fresh (m : list (K * V)) (k : K) :
  ~ In k (map fst m) -> Js.mapDelete eqb m k = m.
Proof.
  induction m as [|[k' v'] m IH]; simpl; [reflexivity|]. intros H.
  destruct (eqb k k') eqn:E.
  - apply eqb_eq in E. subst. contradiction H. now left.
  - simpl. f_equal. apply IH. tauto.
Qed.

Lemma mapDelete_mapSet (m : list (K * V)) (k : K) (v : V) :
  Js.mapDelete eqb (Js.mapSet eqb m k v) k = Js.mapDelete eqb m k.
Proof.
  induction m as [|[k' v'] m IH]; simpl.
  - now rewrite (eqb_refl eqb_eq).
  - destruct (eqb k k') eqn:E; simpl; rewrite E; simpl; [reflexivity|].
    f_equal. exact IH.
Qed.

Lemma mapGet_mapDelete (m : list (K * V)) (k k' : K) :
  Js.mapGet eqb (Js.mapDelete eqb m k) k'
  = if eqb k k' then None else Js.mapGet eqb m k'.
Proof.
  induction m as [|[k0 v0] m IH]; simpl.
  - now destruct (eqb k k').
  - destruct (eqb k k0) eqn:E; simpl.
    + apply eqb_eq in E. subst k0. rewrite IH.
      destruct (eqb k k') eqn:E'; [reflexivity|].
      destruct (eqb k' k) eqn:E''; [|reflexivity].
      apply eqb_eq in E''. subst. rewrite (eqb_refl eqb_eq) in E'. discriminate.
    + rewrite IH. destruct (eqb k' k0) eqn:E'; [|reflexivity].
      apply eqb_eq in E'. subst k0. now rewrite E.
Qed.
End MoreMapFacts.

Arguments mapDelete_fresh {K V eqb} eqb_eq m k.
Arguments mapDelete_mapSet {K V eqb} eqb_eq m k v.
Arguments mapGet_mapDelete {K V eqb} eqb_eq m k k'.

(** X10. [add(source)] of a source that has a rectangle records the
    width of that rectangle for the source and for no other, keeps every
    source that was recorded at its place, with no source recorded
    twice, and queues the update job at the redraw delay.  Removing the
    source again gives the map without it, which is the map as it was
    when the source had not been recorded. *)
Theorem add_records_width (h : Heap) (al : TaskbarAllocation.t) (s : Ref)
        (c : Component) (q : Rectangle) (entries : list (Ref * Z)) :
  TaskbarAllocation.allocation al = Some entries ->
  Heap.get h s = Some c ->
  rect c = Some q ->
  NoDup (map fst entries) ->
  exists entries',
    TaskbarAllocation.allocation (TaskbarAllocation.add h al (Some s)) = Some entries'
    /\ Js.mapGet Nat.eqb entries' s = Some (width q)
    /\ (forall s', s' <> s ->
          Js.mapGet Nat.eqb entries' s' = Js.mapGet Nat.eqb entries s')
    /\ NoDup (map fst entries')
    /\ (map fst entries' = map fst entries
        \/ (~ In s (map fst entries) /\ entries' = entries ++ [(s, width q)]))
    /\ TaskbarAllocation.job (TaskbarAllocation.add h al (Some s))
       = TaskbarAllocation.schedule (TaskbarAllocation.job al) Redraw
    /\ TaskbarAllocation.allocation
         (TaskbarAllocation.remove (TaskbarAllocation.add h al (Some s)) (Some s))
       = Some (Js.mapDelete Nat.eqb entries s)
    /\ (~ In s (map fst entries) -> Js.mapDelete Nat.eqb entries s = entries).
Proof.
  intros Hal Hc Hq Hnd. unfold TaskbarAllocation.add. rewrite Hal, Hc. simpl.
  rewrite Hq. cbn [TaskbarAllocation.allocation TaskbarAllocation.job].
  exists (Js.mapSet Nat.eqb entries s (width q)).
  split; [reflexivity|]. split; [|split; [|split; [|split; [|split; [|split]]]]].
  - now rewrite (mapGet_mapSet nat_eqb_eq), Nat.eqb_refl.
  - intros s' Hs'. rewrite (mapGet_mapSet nat_eqb_eq).
    apply Nat.eqb_neq in Hs'. now rewrite Hs'.
  - now apply (mapSet_NoDup nat_eqb_eq).
  - destruct (Js.mapHas Nat.eqb entries s) eqn:E.
    + left. rewrite mapSet_keys.
      match goal with |- (if ?b then _ else _) = _ => replace b with true end.
      reflexivity.
    + right. split; [now apply (mapHas_false nat_eqb_eq)|].
      now apply mapSet_fresh.
  - reflexivity.
  - unfold TaskbarAllocation.remove. cbn [TaskbarAllocation.allocation].
    assert (E : Js.mapHas Nat.eqb (Js.mapSet Nat.eqb entries s (width q)) s = true).
    { apply (mapHas_In nat_eqb_eq). rewrite mapSet_keys.
      destruct (Js.mapHas Nat.eqb entries s) eqn:E';
        [now apply (mapHas_In nat_eqb_eq)|].
      apply in_or_app. right. now left. }
    rewrite E. cbn [TaskbarAllocation.allocation].
    now rewrite (mapDelete_mapSet nat_eqb_eq).
  - apply (mapDelete_fresh nat_eqb_eq).
Qed.

Lemma add_records_width_witness :
  exists entries',
    TaskbarAllocation.allocation
      (TaskbarAllocation.add Samples.crowd (Samples.allocationOf Samples.crowdRest)
         (Some 1)) = Some entries'
    /\ Js.mapGet Nat.eqb entries' 1 = Some (width (mkRect 0 0 40 40))
    /\ (forall s', s' <> 1 ->
          Js.mapGet Nat.eqb entries' s' = Js.mapGet Nat.eqb Samples.crowdRest s')
    /\ NoDup (map fst entries')
    /\ (map fst entries' = map fst Samples.crowdRest
        \/ (~ In 1 (map fst Samples.crowdRest)
            /\ entries' = Samples.crowdRest ++ [(1, width (mkRect 0 0 40 40))]))
    /\ TaskbarAllocation.job
         (TaskbarAllocation.add Samples.crowd
            (Samples.allocationOf Samples.crowdRest) (Some 1))
       = TaskbarAllocation.schedule
           (TaskbarAllocation.job (Samples.allocationOf Samples.crowdRest)) Redraw
    /\ TaskbarAllocation.allocation
         (TaskbarAllocation.remove
            (TaskbarAllocation.add Samples.crowd
               (Samples.allocationOf Samples.crowdRest) (Some 1)) (Some 1))
       = Some (Js.mapDelete Nat.eqb Samples.crowdRest 1)
    /\ (~ In 1 (map fst Samples.crowdRest) ->
        Js.mapDelete Nat.eqb Samples.crowdRest 1 = Samples.crowdRest).
Proof.
  apply (add_records_width Samples.crowd (Samples.allocationOf Samples.crowdRest) 1
           (Samples.button 7 false) (mkRect 0 0 40 40) Samples.crowdRest).
  - reflexivity.
  - reflexivity.
  - reflexivity.
  - simpl. repeat constructor. intros [].
Defined.



(** X12. [destroy()] leaves a manager that does nothing any more:
    [add], [remove] and [update] change nothing and have no effect, the
    allocation size is zero, and a closure of an [update()] that was
    suspended before animates nothing when it is resumed. *)
Theorem allocation_destroy_inert (vp : Viewport) (h : Heap)
        (a : TaskbarAllocation.t) (s : option Ref) (k : TaskbarAllocation.Allocate) (result : bool) :
  let a' := TaskbarAllocationMore.destroy a in
  TaskbarAllocation.add h a' s = a'
  /\ TaskbarAllocation.remove a' s = a'
  /\ TaskbarAllocation.update vp h a' = (a', [], None)
  /\ TaskbarAllocation.allocationSize h a' = 0%Z
  /\ snd (TaskbarAllocation.resume a' k result) = []
  /\ TaskbarAllocationMore.destroy a' = a'.
Proof.
  simpl. split; [now destruct s|]. split; [now destruct s|].
  split; [reflexivity|]. split; [reflexivity|]. split; [|reflexivity].
  unfold TaskbarAllocation.resume, TaskbarAllocation.allocate. simpl.
  now destruct (negb result || negb (TaskbarAllocation.isUpdating a)).
Qed.

(** ** Taskbar.rerender: what is kept, created and destroyed *)

Lemma isFavoriteChanged_extended (h0 news : Heap) (sp : Z)
      (favs : option (list App)) (a : App) (b : Ref) :
  b < length h0 ->
  Taskbar.isFavoriteChanged (h0 ++ news) sp favs a b
  = Taskbar.isFavoriteChanged h0 sp favs a b.
Proof.
  intros Hlt. unfold Taskbar.isFavoriteChanged, Heap.favorite.
  now rewrite get_extended.
Qed.

Lemma valid_app_extended (h0 news : Heap) (r : Ref) :
  r < length h0 -> Heap.valid (h0 ++ news) r = Heap.valid h0 r.
Proof. intros H. unfold Heap.valid. now rewrite get_extended. Qed.

Lemma visit_passKeeps (tk : Toolkit) (old : list (Key * Ref)) (sp : Z)
      (favs : option (list App)) (h0 : Heap) (done : list App)
      (p : Taskbar.Pass) (a : App) :
  registered h0 old ->
  passKeeps h0 old sp favs done p ->
  passKeeps h0 old sp favs (done ++ [a]) (Taskbar.visit tk old sp favs p a).
Proof.
  intros Hold [[news Hheap] [Hnoted [Hdone Hkeys]]].
  assert (Hlast : forall x, In x (done ++ [a]) <-> In x done \/ x = a).
  { intros x. rewrite in_app_iff. simpl. intuition. }
  assert (Hcreate : forall noted,
            (forall x, In x noted <->
               In x (done ++ [a])
               /\ exists b, Js.mapGet key_eqb old (KApp x) = Some b
                            /\ Heap.valid h0 b = true
                            /\ Taskbar.isFavoriteChanged h0 sp favs x b = true) ->
            (forall x, In x (Taskbar.oldFavorites p) -> In x noted) ->
            (forall x, In x noted -> In x (Taskbar.oldFavorites p) \/ x = a) ->
            passKeeps h0 old sp favs (done ++ [a])
              (Taskbar.mkPass (Taskbar.passHeap p ++ [Taskbar.newAppButton tk favs a])
                 (Js.mapSet key_eqb (Taskbar.newButtons p) (KApp a)
                    (length (Taskbar.passHeap p)))
                 noted
                 (Taskbar.sortedAppButtons p ++ [length (Taskbar.passHeap p)]))).
  { intros noted Hn Hup Hdown. split; [|split; [|split]]; simpl.
    - exists (news ++ [Taskbar.newAppButton tk favs a]).
      now rewrite Hheap, app_assoc.
    - exact Hn.
    - intros x Hx. rewrite (mapGet_mapSet key_eqb_eq).
      destruct (key_eqb (KApp x) (KApp a)) eqn:E.
      + exists (length (Taskbar.passHeap p)). split; [reflexivity|].
        assert (Hg : Heap.get (Taskbar.passHeap p ++ [Taskbar.newAppButton tk favs a])
                       (length (Taskbar.passHeap p))
                     = Some (Taskbar.newAppButton tk favs a)).
        { unfold Heap.get. rewrite nth_error_app2, Nat.sub_diag by lia. reflexivity. }
        split; [unfold Heap.valid; now rewrite Hg|].
        split; [apply in_or_app; right; now left|].
        left. rewrite Hheap, length_app. lia.
      + assert (Hxa : x <> a).
        { intros ->. simpl in E. rewrite Nat.eqb_refl in E. discriminate. }
        apply Hlast in Hx. destruct Hx as [Hx | Hx]; [|contradiction].
        destruct (Hdone x Hx) as [b [Hg [Hv [Hs Hor]]]].
        exists b. split; [exact Hg|]. split; [now apply valid_extended|].
        split; [apply in_or_app; now left|].
        destruct Hor as [Hge | [Hi Hno]]; [now left | right].
        split; [assumption|]. intros Hin. destruct (Hdown x Hin); auto.
    - intros k b Hin. apply (mapSet_In key_eqb_eq) in Hin.
      destruct Hin as [Hin | [= -> ->]].
      + destruct (Hkeys k b Hin) as [x [-> Hx]]. exists x.
        split; [reflexivity|]. apply Hlast. now left.
      + exists a. split; [reflexivity|]. apply Hlast. now right. }
  assert (Hsame : forall noted,
            noted = Taskbar.oldFavorites p ->
            (forall b, Js.mapGet key_eqb old (KApp a) = Some b ->
                       Heap.valid h0 b = true ->
                       Taskbar.isFavoriteChanged h0 sp favs a b = false) ->
            forall x, In x noted <->
               In x (done ++ [a])
               /\ exists b, Js.mapGet key_eqb old (KApp x) = Some b
                            /\ Heap.valid h0 b = true
                            /\ Taskbar.isFavoriteChanged h0 sp favs x b = true).
  { intros noted -> Hno x. rewrite Hnoted, Hlast. split.
    - intros [Hx Hb]. split; [now left | exact Hb].
    - intros [[Hx | ->] Hb]; [now split|].
      destruct Hb as [b [Hg [Hv Hc]]]. rewrite (Hno b Hg Hv) in Hc. discriminate. }
  unfold Taskbar.visit. cbn [Heap.alloc].
  destruct (Js.mapGet key_eqb old (KApp a)) as [b|] eqn:Hg.
  2:{ apply Hcreate; auto. apply Hsame; [reflexivity|]. discriminate. }
  pose proof (registered_lt h0 old _ _ Hold (mapGet_In _ _ _ Hg)) as Hlt.
  rewrite Hheap, valid_app_extended, isFavoriteChanged_extended by assumption.
  rewrite <- Hheap.
  destruct (Heap.valid h0 b) eqn:Hv.
  2:{ apply Hcreate; auto. apply Hsame; [reflexivity|].
      intros b' [= <-]. congruence. }
  destruct (Taskbar.isFavoriteChanged h0 sp favs a b) eqn:Hc; cbn [negb].
  - apply Hcreate.
    + intros x. rewrite (setAdd_In nat_eqb_eq), Hnoted, Hlast. split.
      * intros [[Hx Hb] | ->]; [split; [now left | exact Hb]|].
        split; [now right|]. exists b. auto.
      * intros [[Hx | ->] Hb]; [left; now split | now right].
    + intros x Hx. apply (setAdd_In nat_eqb_eq). now left.
    + intros x Hx. now apply (setAdd_In nat_eqb_eq) in Hx.
  - split; [|split; [|split]]; simpl.
    + now exists news.
    + apply Hsame; [reflexivity|]. intros b' [= <-] _. exact Hc.
    + intros x Hx. rewrite (mapGet_mapSet key_eqb_eq).
      destruct (key_eqb (KApp x) (KApp a)) eqn:E.
      * simpl in E. apply Nat.eqb_eq in E. subst x.
        exists b. split; [reflexivity|].
        split; [rewrite Hheap, valid_app_extended; assumption|].
        split; [apply in_or_app; right; now left|].
        right. split; [exact Hg|]. intros Hin. apply Hnoted in Hin.
        destruct Hin as [_ [b' [Hg' [_ Hc']]]]. congruence.
      * assert (Hxa : x <> a).
        { intros ->. simpl in E. rewrite Nat.eqb_refl in E. discriminate. }
        apply Hlast in Hx. destruct Hx as [Hx | Hx]; [|contradiction].
        destruct (Hdone x Hx) as [b' [Hg' [Hv' [Hs Hor]]]].
        exists b'. split; [exact Hg'|]. split; [exact Hv'|].
        split; [apply in_or_app; now left | exact Hor].
    + intros k b' Hin. apply (mapSet_In key_eqb_eq) in Hin.
      destruct Hin as [Hin | [= -> ->]].
      * destruct (Hkeys k b' Hin) as [x [-> Hx]]. exists x.
        split; [reflexivity|]. apply Hlast. now left.
      * exists a. split; [reflexivity|]. apply Hlast. now right.
Qed.

Lemma visit_fold_passKeeps (tk : Toolkit) (old : list (Key * Ref)) (sp : Z)
      (favs : option (list App)) (h0 : Heap) (l : list App) :
  forall (done : list App) (p : Taskbar.Pass),
  registered h0 old ->
  passKeeps h0 old sp favs done p ->
  passKeeps h0 old sp favs (done ++ l) (fold_left (Taskbar.visit tk old sp favs) l p).
Proof.
  induction l as [|a l IH]; intros done p Hold Hp; simpl.
  - now rewrite app_nil_r.
  - replace (done ++ a :: l) with ((done ++ [a]) ++ l)
      by (now rewrite <- app_assoc).
    apply IH; [assumption|]. now apply visit_passKeeps.
Qed.

Lemma firstPass_passKeeps (tk : Toolkit) (old : list (Key * Ref)) (sp : Z)
      (favs : option (list App)) (h0 : Heap) (desired : list App) :
  registered h0 old ->
  passKeeps h0 old sp favs desired (Taskbar.firstPass tk old sp favs desired h0).
Proof.
  intros Hold.
  apply (visit_fold_passKeeps tk old sp favs h0 desired []); [assumption|].
  split; [|split; [|split]]; simpl.
  - exists []. now rewrite app_nil_r.
  - intros a. split; [intros [] | intros [[] _]].
  - intros a [].
  - intros k b [].
Qed.

(** The second loop destroys the buttons of the noted applications and
    no other component. *)
Lemma retire_valid (fl : list App) (es : list (Key * Ref)) (r : Ref) :
  forall (h : Heap) (n : nat) (acc : list (Key * Ref)),
  Heap.valid (fst (fst (Taskbar.retire fl es h n acc))) r = false
  <-> Heap.valid h r = false \/ exists a, In (KApp a, r) es /\ In a fl.
Proof.
  induction es as [|[k b] es IH]; intros h n acc; simpl.
  - split; [now left | intros [H | [a [[] _]]]; exact H].
  - destruct k as [a|m].
    + destruct (Js.setHas Nat.eqb fl a) eqn:E.
      * rewrite IH. apply (setHas_In nat_eqb_eq) in E. split.
        -- intros [H | [a' [Hin Hfl]]].
           ++ destruct (Nat.eq_dec b r) as [-> | Hne].
              ** right. exists a. split; [now left | exact E].
              ** left. now rewrite valid_destroy_other in H.
           ++ right. exists a'. split; [now right | exact Hfl].
        -- intros [H | [a' [[[= -> ->] | Hin] Hfl]]].
           ++ left. now apply valid_destroy_false.
           ++ left. apply valid_destroy_same.
           ++ right. exists a'. auto.
      * rewrite IH. apply (setHas_false nat_eqb_eq) in E. split.
        -- intros [H | [a' [Hin Hfl]]]; [now left|].
           right. exists a'. split; [now right | exact Hfl].
        -- intros [H | [a' [[[= -> ->] | Hin] Hfl]]];
             [now left | contradiction | right; exists a'; auto].
    + rewrite IH. split.
      * intros [H | [a' [Hin Hfl]]]; [now left|].
        right. exists a'. split; [now right | exact Hfl].
      * intros [H | [a' [[Hd | Hin] Hfl]]];
          [now left | discriminate Hd | right; exists a'; auto].
Qed.

Lemma retirePass_valid (p : Taskbar.Pass) (old : list (Key * Ref)) (n : nat)
      (r : Ref) :
  Heap.valid (fst (fst (Taskbar.retirePass p old n))) r = false
  <-> Heap.valid (Taskbar.passHeap p) r = false
      \/ exists a, In (KApp a, r) old /\ In a (Taskbar.oldFavorites p).
Proof.
  unfold Taskbar.retirePass.
  destruct (Taskbar.oldFavorites p) as [|a0 fl] eqn:E.
  - simpl. split; [now left | intros [H | [a [_ []]]]; exact H].
  - apply retire_valid.
Qed.

Lemma splice_In (A : Type) (i : nat) (y x : A) (l : list A) :
  In x l -> In x (Js.splice i y l).
Proof.
  intros H. unfold Js.splice. rewrite <- (firstn_skipn i l) in H.
  apply in_app_or in H. apply in_or_app.
  destruct H; [now left | right; now right].
Qed.

Lemma absorb_sorted_In (h : Heap) (hasFavoritesApps : bool) (l : list (Key * Ref))
      (b : Ref) :
  forall m,
  In b (Taskbar.mergedSorted m) ->
  In b (Taskbar.mergedSorted (fold_left (Taskbar.absorb h hasFavoritesApps) l m)).
Proof.
  induction l as [|[k r] l IH]; intros m Hin; cbn [fold_left]; [exact Hin|].
  apply IH. unfold Taskbar.absorb.
  destruct (negb (Heap.valid h r)); [exact Hin|].
  destruct (Js.mapHas key_eqb (Taskbar.mergedButtons m) k); simpl; [exact Hin|].
  now apply splice_In.
Qed.

Lemma mergePass_sorted_In (h : Heap) (hasFavoritesApps : bool)
      (old : list (Key * Ref)) (p : Taskbar.Pass) (sep0 : Z) (b : Ref) :
  In b (Taskbar.sortedAppButtons p) ->
  In b (Taskbar.mergedSorted (Taskbar.mergePass h hasFavoritesApps old p sep0)).
Proof.
  intros H. unfold Taskbar.mergePass.
  destruct (negb (length (Js.mapFrom key_eqb (old ++ Taskbar.newButtons p))
                  =? length (Taskbar.newButtons p))); [|exact H].
  now apply absorb_sorted_In.
Qed.

Lemma mapGet_app_found (m m' : list (Key * Ref)) (k : Key) (b : Ref) :
  Js.mapGet key_eqb m k = Some b -> Js.mapGet key_eqb (m ++ m') k = Some b.
Proof.
  induction m as [|[k0 v0] m IH]; simpl; [discriminate|].
  destruct (key_eqb k k0); auto.
Qed.

Lemma app_setVisible (h : Heap) (r r' : Ref) (v : bool) :
  Heap.app (Taskbar.setVisible h r v) r' = Heap.app h r'.
Proof.
  unfold Heap.app, Taskbar.setVisible. rewrite get_update.
  destruct (Nat.eqb r r'); [|reflexivity].
  destruct (Heap.get h r'); reflexivity.
Qed.

(** The heap and the map that [reconcile] ends with. *)
Lemma reconcile_heap (tk : Toolkit) (t1 : Taskbar.t) (old : list (Key * Ref))
      (favs : option (list App)) (desired : list App) :
  let p := Taskbar.firstPass tk old (Taskbar.separatorPosition t1) favs desired
             (Taskbar.heap t1) in
  let h1 := fst (fst (Taskbar.retirePass p old (Taskbar.objects t1))) in
  let old1 := snd (Taskbar.retirePass p old (Taskbar.objects t1)) in
  let sep0 := if match favs with Some _ => true | None => false end
              then Z.of_nat match favs with Some f => length f | None => 0 end
              else (-1)%Z in
  let m := Taskbar.mergePass h1 match favs with Some _ => true | None => false end
             old1 p sep0 in
  let t' := Taskbar.reconcile tk t1 old favs desired in
  Taskbar.appButtons t' = Some (Taskbar.mergedButtons m)
  /\ Taskbar.placed t' = Taskbar.mergedSorted m
  /\ Taskbar.separatorPosition t' = sep0
  /\ (forall r, Heap.valid (Taskbar.heap t') r = Heap.valid h1 r)
  /\ (forall r, Heap.app (Taskbar.heap t') r = Heap.app h1 r)
  /\ (forall r, Heap.favorite (Taskbar.heap t') r = Heap.favorite h1 r)
  /\ (Taskbar.separator t1 <> None ->
      Taskbar.separatorIndex t' = Taskbar.mergedSeparator m).
Proof.
  intros p h1 old1 sep0 m t'. subst t' m sep0 old1 h1.
  unfold Taskbar.reconcile. cbv zeta. fold p.
  destruct (Taskbar.retirePass p old (Taskbar.objects t1)) as [[h1 n1] old1].
  cbn [fst snd].
  destruct (Taskbar.separator t1) as [sep|]; simpl.
  - split; [reflexivity|]. split; [reflexivity|]. split; [reflexivity|].
    split; [intros r; apply valid_setVisible|].
    split; [intros r; apply app_setVisible|].
    split; [intros r; apply favorite_setVisible | reflexivity].
  - split; [reflexivity|]. split; [reflexivity|]. split; [reflexivity|].
    split; [reflexivity|]. split; [reflexivity|]. split; [reflexivity|].
    intros N. now contradiction N.
Qed.

(** What a reconciliation leaves: every desired application has a valid
    button, a button that was valid is destroyed exactly when it is
    flipped, and every entry of the map is a valid button under its
    application. *)
Lemma reconcile_keeps (tk : Toolkit) (t1 : Taskbar.t) (old : list (Key * Ref))
      (favs : option (list App)) (desired : list App) :
  registered (Taskbar.heap t1) old ->
  let t' := Taskbar.reconcile tk t1 old favs desired in
  (forall a, In a desired ->
     exists b, (exists m, Taskbar.appButtons t' = Some m
                          /\ Js.mapGet key_eqb m (KApp a) = Some b)
               /\ Heap.valid (Taskbar.heap t') b = true
               /\ Heap.app (Taskbar.heap t') b = Some a
               /\ In b (Taskbar.placed t'))
  /\ (forall r, Heap.valid (Taskbar.heap t1) r = true ->
        (Heap.valid (Taskbar.heap t') r = false
         <-> exists a, In a desired
                       /\ Js.mapGet key_eqb old (KApp a) = Some r
                       /\ Taskbar.isFavoriteChanged (Taskbar.heap t1)
                            (Taskbar.separatorPosition t1) favs a r = true))
  /\ (forall m k b, Taskbar.appButtons t' = Some m -> In (k, b) m ->
        exists a, k = KApp a
                  /\ Heap.valid (Taskbar.heap t') b = true
                  /\ Heap.app (Taskbar.heap t') b = Some a).
Proof.
  intros Hold t'.
  pose proof (reconcile_heap tk t1 old favs desired) as Hh. cbv zeta in Hh.
  fold t' in Hh.
  set (p := Taskbar.firstPass tk old (Taskbar.separatorPosition t1) favs desired
              (Taskbar.heap t1)) in *.
  set (h1 := fst (fst (Taskbar.retirePass p old (Taskbar.objects t1)))) in *.
  set (old1 := snd (Taskbar.retirePass p old (Taskbar.objects t1))) in *.
  set (hasF := match favs with Some _ => true | None => false end) in *.
  set (sep0 := if hasF then _ else _) in *.
  set (m := Taskbar.mergePass h1 hasF old1 p sep0) in *.
  destruct Hh as [Hmap [Hplaced [_ [Hvalid [Happ _]]]]].
  pose proof (firstPass_passKeeps tk old (Taskbar.separatorPosition t1) favs
                (Taskbar.heap t1) desired Hold) as Hk.
  fold p in Hk. destruct Hk as [[news Hheap] [Hnoted [Hdone Hkeys]]].
  destruct (visit_fold_inv tk old (Taskbar.separatorPosition t1) favs
              (Taskbar.heap t1) desired (Taskbar.mkPass (Taskbar.heap t1) [] [] [])
              Hold (evolves_refl _) (registered_nil _)) as [Hev0 HregN].
  fold (Taskbar.firstPass tk old (Taskbar.separatorPosition t1) favs desired
          (Taskbar.heap t1)) in Hev0, HregN. fold p in Hev0, HregN.
  assert (HoldP : registered (Taskbar.passHeap p) old)
    by (eapply registered_evolves; eassumption).
  destruct (retirePass_inv p old (Taskbar.objects t1) HoldP) as [Hev1 Hreg1].
  fold h1 in Hev1, Hreg1. fold old1 in Hreg1.
  assert (HregN1 : registered h1 (Taskbar.newButtons p))
    by (eapply registered_evolves; eassumption).
  pose proof (mergePass_inv h1 hasF old1 p sep0 Hreg1 HregN1) as HregM.
  fold m in HregM.
  destruct (mergePass_extends h1 hasF old1 p sep0) as [kept [Hm Hkept]].
  fold m in Hm.
  (* the buttons of the new map survive the second loop *)
  assert (Hsurvive : forall a b,
            In a desired ->
            Js.mapGet key_eqb (Taskbar.newButtons p) (KApp a) = Some b ->
            Heap.valid (Taskbar.passHeap p) b = true ->
            (length (Taskbar.heap t1) <= b
             \/ (Js.mapGet key_eqb old (KApp a) = Some b
                 /\ ~ In a (Taskbar.oldFavorites p))) ->
            Heap.valid h1 b = true).
  { intros a b Ha Hg Hv Hor.
    destruct (Heap.valid h1 b) eqn:E; [reflexivity|]. exfalso.
    apply retirePass_valid in E. destruct E as [E | [a' [Hin Hfl]]]; [congruence|].
    pose proof (registered_lt _ _ _ _ Hold Hin) as Hlt.
    destruct Hor as [Hge | [Hgo Hno]]; [lia|].
    pose proof (registered_app _ _ _ _ Hold Hin) as A1.
    pose proof (registered_app _ _ _ _ Hold (mapGet_In _ _ _ Hgo)) as A2.
    assert (a' = a) by congruence. subst a'. contradiction. }
  split; [|split].
  - intros a Ha. destruct (Hdone a Ha) as [b [Hg [Hv [Hs Hor]]]].
    exists b. split; [|split; [|split]].
    + exists (Taskbar.mergedButtons m). split; [exact Hmap|].
      rewrite Hm. now apply mapGet_app_found.
    + rewrite Hvalid. eapply Hsurvive; eassumption.
    + rewrite Happ. eapply registered_app; [exact HregN1|].
      now apply mapGet_In.
    + rewrite Hplaced. now apply mergePass_sorted_In.
  - intros r Hr. rewrite Hvalid.
    pose proof (valid_lt _ _ Hr) as Hlt.
    assert (HrP : Heap.valid (Taskbar.passHeap p) r = true)
      by (rewrite Hheap, valid_app_extended; assumption).
    unfold h1. rewrite retirePass_valid. split.
    + intros [E | [a [Hin Hfl]]]; [congruence|].
      apply Hnoted in Hfl. destruct Hfl as [Ha [b [Hg [Hv Hc]]]].
      destruct Hold as [Hnd _].
      pose proof (mapGet_NoDup_In key_eqb_eq old (KApp a) r Hnd Hin) as Hg'.
      rewrite Hg' in Hg. injection Hg as <-.
      exists a. split; [exact Ha|]. split; [exact Hg' | exact Hc].
    + intros [a [Ha [Hg Hc]]]. right. exists a.
      split; [now apply mapGet_In|]. apply Hnoted.
      split; [exact Ha|]. exists r. auto.
  - intros m' k b Hm' Hin. rewrite Hmap in Hm'. injection Hm' as <-.
    assert (Hv : Heap.valid h1 b = true).
    { rewrite Hm in Hin. apply in_app_or in Hin. destruct Hin as [Hin | Hin].
      - destruct (Hkeys k b Hin) as [a [-> Ha]].
        destruct (Hdone a Ha) as [b' [Hg [Hv [_ Hor]]]].
        destruct HregN as [HndN _].
        pose proof (mapGet_NoDup_In key_eqb_eq _ (KApp a) b HndN Hin) as Hg'.
        rewrite Hg' in Hg. injection Hg as <-.
        exact (Hsurvive a b Ha Hg' Hv Hor).
      - exact (Hkept _ Hin). }
    destruct HregM as [_ Hall]. rewrite Forall_forall in Hall.
    destruct (Hall _ Hin) as [_ Hk]. simpl in Hk.
    destruct k as [a|n]; [|congruence].
    exists a. split; [reflexivity|]. split; [now rewrite Hvalid | now rewrite Happ].
Qed.

Lemma getRunningApps_heap (t0 : Taskbar.t) :
  Taskbar.heap (fst (Taskbar.getRunningApps t0)) = Taskbar.heap t0
  /\ Taskbar.separatorPosition (fst (Taskbar.getRunningApps t0))
     = Taskbar.separatorPosition t0
  /\ Taskbar.appButtons (fst (Taskbar.getRunningApps t0)) = Taskbar.appButtons t0.
Proof. rewrite getRunningApps_fields. repeat split. Qed.

(** X13. After [#rerender] every application of the desired set has a
    button: the map holds it under the application, it is valid, bound
    to the application and among the placed buttons. *)
Theorem rerender_completes (tk : Toolkit) (t0 : Taskbar.t) (old : list (Key * Ref))
        (desired : list App) (a : App) :
  wellFormed t0 ->
  Taskbar.appButtons t0 = Some old ->
  Taskbar.hasAllocation t0 = true ->
  Taskbar.isQueued t0 = false ->
  Taskbar.desiredApps (Taskbar.favoriteApps t0) (snd (Taskbar.getRunningApps t0))
  = Some desired ->
  In a desired ->
  let t' := Taskbar.rerender tk t0 in
  exists m b,
    Taskbar.appButtons t' = Some m
    /\ Js.mapGet key_eqb m (KApp a) = Some b
    /\ Heap.valid (Taskbar.heap t') b = true
    /\ Heap.app (Taskbar.heap t') b = Some a
    /\ In b (Taskbar.placed t').
Proof.
  intros Hwf Hold Hal Hq Hd Ha t'. subst t'.
  assert (Hne : desired <> []) by (intros ->; contradiction).
  rewrite (rerender_reconcile tk t0 old desired Hold Hal Hq Hd Hne).
  unfold wellFormed in Hwf. rewrite Hold in Hwf.
  destruct (getRunningApps_heap t0) as [Hh _].
  assert (Hreg : registered (Taskbar.heap (fst (Taskbar.getRunningApps t0))) old)
    by (now rewrite Hh).
  destruct (reconcile_keeps tk _ old (Taskbar.favoriteApps t0) desired Hreg)
    as [Hall _].
  destruct (Hall a Ha) as [b [[m [Hm Hg]] [Hv [Happ Hp]]]].
  exists m, b. auto.
Qed.

Lemma rerender_completes_witness :
  exists m b,
    Taskbar.appButtons (Taskbar.rerender Samples.toolkit Samples.fresh) = Some m
    /\ Js.mapGet key_eqb m (KApp 11) = Some b
    /\ Heap.valid (Taskbar.heap (Taskbar.rerender Samples.toolkit Samples.fresh)) b
       = true
    /\ Heap.app (Taskbar.heap (Taskbar.rerender Samples.toolkit Samples.fresh)) b
       = Some 11
    /\ In b (Taskbar.placed (Taskbar.rerender Samples.toolkit Samples.fresh)).
Proof.
  apply (rerender_completes Samples.toolkit Samples.fresh [] [10; 11] 11).
  - exact fresh_wellFormed.
  - reflexivity.
  - reflexivity.
  - reflexivity.
  - reflexivity.
  - right. now left.
Defined.



(** X15. After a [#rerender] that finds a desired set, the map holds
    no entry of a destroyed button and no object-literal key: every
    entry is a valid button under the application it is bound to. *)
Theorem rerender_purges (tk : Toolkit) (t0 : Taskbar.t) (old : list (Key * Ref))
        (desired : list App) :
  wellFormed t0 ->
  Taskbar.appButtons t0 = Some old ->
  Taskbar.hasAllocation t0 = true ->
  Taskbar.isQueued t0 = false ->
  Taskbar.desiredApps (Taskbar.favoriteApps t0) (snd (Taskbar.getRunningApps t0))
  = Some desired ->
  desired <> [] ->
  let t' := Taskbar.rerender tk t0 in
  exists m,
    Taskbar.appButtons t' = Some m
    /\ forall k b, In (k, b) m ->
         exists a, k = KApp a
                   /\ Heap.valid (Taskbar.heap t') b = true
                   /\ Heap.app (Taskbar.heap t') b = Some a.
Proof.
  intros Hwf Hold Hal Hq Hd Hne t'. subst t'.
  rewrite (rerender_reconcile tk t0 old desired Hold Hal Hq Hd Hne).
  unfold wellFormed in Hwf. rewrite Hold in Hwf.
  destruct (getRunningApps_heap t0) as [Hh _].
  assert (Hreg : registered (Taskbar.heap (fst (Taskbar.getRunningApps t0))) old)
    by (now rewrite Hh).
  destruct (reconcile_keeps tk _ old (Taskbar.favoriteApps t0) desired Hreg)
    as [_ [_ Hall]].
  pose proof (reconcile_heap tk (fst (Taskbar.getRunningApps t0)) old
                (Taskbar.favoriteApps t0) desired) as [Hm _].
  eexists. split; [exact Hm|]. intros k b Hin. eapply Hall; [exact Hm | exact Hin].
Qed.

Lemma rerender_purges_witness :
  exists m,
    Taskbar.appButtons (Taskbar.rerender Samples.toolkit Samples.fresh) = Some m
    /\ forall k b, In (k, b) m ->
         exists a, k = KApp a
                   /\ Heap.valid (Taskbar.heap
                                    (Taskbar.rerender Samples.toolkit Samples.fresh)) b
                      = true
                   /\ Heap.app (Taskbar.heap
                                  (Taskbar.rerender Samples.toolkit Samples.fresh)) b
                      = Some a.
Proof.
  apply (rerender_purges Samples.toolkit Samples.fresh [] [10; 11]).
  - exact fresh_wellFormed.
  - reflexivity.
  - reflexivity.
  - reflexivity.
  - reflexivity.
  - discriminate.
Defined.

(** ** Taskbar.rerender: where the separator goes *)

(** The merge loop appends valid buttons to the new map and moves the
    separator by one for each that carries the favorite flag. *)
Lemma absorb_counts (h : Heap) (hasFavoritesApps : bool) (l : list (Key * Ref)) :
  forall m,
  exists kept,
    Taskbar.mergedButtons (fold_left (Taskbar.absorb h hasFavoritesApps) l m)
    = Taskbar.mergedButtons m ++ kept
    /\ (forall e, In e kept -> Heap.valid h (snd e) = true)
    /\ Taskbar.mergedSeparator (fold_left (Taskbar.absorb h hasFavoritesApps) l m)
       = (Taskbar.mergedSeparator m
          + if hasFavoritesApps
            then Z.of_nat (length (filter (fun e => Heap.favorite h (snd e)) kept))
            else 0)%Z.
Proof.
  induction l as [|[k b] l IH]; intros m; cbn [fold_left].
  - exists []. rewrite app_nil_r. split; [reflexivity|].
    split; [intros e []|]. destruct hasFavoritesApps; simpl; lia.
  - destruct (IH (Taskbar.absorb h hasFavoritesApps m (k, b)))
      as [kept [Hk [Hv Hs]]].
    assert (Hstep : exists first,
              Taskbar.mergedButtons (Taskbar.absorb h hasFavoritesApps m (k, b))
              = Taskbar.mergedButtons m ++ first
              /\ (forall e, In e first -> Heap.valid h (snd e) = true)
              /\ Taskbar.mergedSeparator (Taskbar.absorb h hasFavoritesApps m (k, b))
                 = (Taskbar.mergedSeparator m
                    + if hasFavoritesApps
                      then Z.of_nat (length (filter (fun e => Heap.favorite h (snd e))
                                               first))
                      else 0)%Z).
    { unfold Taskbar.absorb.
      destruct (Heap.valid h b) eqn:Hb; cbn [negb].
      - destruct (Js.mapHas key_eqb (Taskbar.mergedButtons m) k) eqn:Hh;
          cbn [Taskbar.mergedButtons Taskbar.mergedSeparator].
        + exists []. rewrite app_nil_r. split; [reflexivity|].
          split; [intros e []|]. destruct hasFavoritesApps; simpl; lia.
        + exists [(k, b)]. rewrite (mapSet_fresh _ _ _ Hh).
          split; [reflexivity|]. split; [intros e [<- | []]; exact Hb|].
          simpl. destruct hasFavoritesApps, (Heap.favorite h b); simpl; lia.
      - exists []. rewrite app_nil_r. split; [reflexivity|].
        split; [intros e []|]. destruct hasFavoritesApps; simpl; lia. }
    destruct Hstep as [first [Hf [Hfv Hfs]]].
    exists (first ++ kept). rewrite Hk, Hf, <- app_assoc. split; [reflexivity|].
    split.
    + intros e He. apply in_app_or in He. destruct He; auto.
    + rewrite Hs, Hfs, filter_app, length_app.
      destruct hasFavoritesApps; lia.
Qed.

Lemma mergePass_counts (h : Heap) (hasFavoritesApps : bool)
      (old : list (Key * Ref)) (p : Taskbar.Pass) (sep0 : Z) :
  exists kept,
    Taskbar.mergedButtons (Taskbar.mergePass h hasFavoritesApps old p sep0)
    = Taskbar.newButtons p ++ kept
    /\ (forall e, In e kept -> Heap.valid h (snd e) = true)
    /\ Taskbar.mergedSeparator (Taskbar.mergePass h hasFavoritesApps old p sep0)
       = (sep0
          + if hasFavoritesApps
            then Z.of_nat (length (filter (fun e => Heap.favorite h (snd e)) kept))
            else 0)%Z.
Proof.
  unfold Taskbar.mergePass.
  destruct (negb (length (Js.mapFrom key_eqb (old ++ Taskbar.newButtons p))
                  =? length (Taskbar.newButtons p))).
  - apply (absorb_counts h hasFavoritesApps
             (Js.mapFrom key_eqb (old ++ Taskbar.newButtons p))
             (Taskbar.mkMerge (-1) (Taskbar.newButtons p)
                (Taskbar.sortedAppButtons p) sep0)).
  - exists []. simpl. rewrite app_nil_r. split; [reflexivity|].
    split; [intros e []|]. destruct hasFavoritesApps; lia.
Qed.

Lemma filter_none (A : Type) (f : A -> bool) (l : list A) :
  (forall x, In x l -> f x = false) -> filter f l = [].
Proof.
  induction l as [|x l IH]; intros H; simpl; [reflexivity|].
  rewrite (H x (or_introl eq_refl)). apply IH. intros y Hy. apply H. now right.
Qed.

Lemma filter_agree (A : Type) (f g : A -> bool) (l : list A) :
  (forall x, In x l -> f x = g x) -> filter f l = filter g l.
Proof.
  induction l as [|x l IH]; intros H; simpl; [reflexivity|].
  rewrite (H x (or_introl eq_refl)), IH; [reflexivity|].
  intros y Hy. apply H. now right.
Qed.

(** X16. With favorites and a separator, [#rerender] puts the separator
    at the number of favorites plus the number of buttons that stay in
    the map for an application outside the desired set while they carry
    the favorite flag. *)
Theorem rerender_separator_index (tk : Toolkit) (t0 : Taskbar.t)
        (old : list (Key * Ref)) (f desired : list App) (sep : Ref) :
  wellFormed t0 ->
  Taskbar.appButtons t0 = Some old ->
  Taskbar.hasAllocation t0 = true ->
  Taskbar.isQueued t0 = false ->
  Taskbar.favoriteApps t0 = Some f ->
  Taskbar.desiredApps (Some f) (snd (Taskbar.getRunningApps t0)) = Some desired ->
  desired <> [] ->
  Taskbar.separator t0 = Some sep ->
  let t' := Taskbar.rerender tk t0 in
  exists m,
    Taskbar.appButtons t' = Some m
    /\ Taskbar.separatorPosition t' = Z.of_nat (length f)
    /\ Taskbar.separatorIndex t'
       = Z.of_nat (length f
                   + length (filter (keptFavorite (Taskbar.heap t') desired) m)).
Proof.
  intros Hwf Hold Hal Hq Hf Hd Hne Hsep t'. subst t'.
  rewrite <- Hf in Hd.
  rewrite (rerender_reconcile tk t0 old desired Hold Hal Hq Hd Hne), Hf.
  unfold wellFormed in Hwf. rewrite Hold in Hwf.
  destruct (getRunningApps_heap t0) as [Hh _].
  set (t1 := fst (Taskbar.getRunningApps t0)) in *.
  assert (Hreg : registered (Taskbar.heap t1) old) by (now rewrite Hh).
  assert (Hsep1 : Taskbar.separator t1 <> None).
  { unfold t1. rewrite getRunningApps_fields. simpl. congruence. }
  pose proof (reconcile_heap tk t1 old (Some f) desired) as Hr.
  cbv zeta in Hr.
  set (p := Taskbar.firstPass tk old (Taskbar.separatorPosition t1)
              (Some f) desired (Taskbar.heap t1)) in *.
  set (h1 := fst (fst (Taskbar.retirePass p old (Taskbar.objects t1)))) in *.
  set (old1 := snd (Taskbar.retirePass p old (Taskbar.objects t1))) in *.
  destruct Hr as [Hmap [_ [Hsp [_ [_ [Hfav Hidx]]]]]].
  specialize (Hidx Hsep1).
  destruct (mergePass_counts h1 true old1 p (Z.of_nat (length f)))
    as [kept [Hm [Hkv Hms]]].
  (* the keys of the new map are the desired applications, those of the
     kept entries are not *)
  pose proof (firstPass_passKeeps tk old (Taskbar.separatorPosition t1)
                (Some f) (Taskbar.heap t1) desired Hreg) as Hk.
  fold p in Hk. destruct Hk as [_ [_ [Hdone Hkeys]]].
  destruct (visit_fold_inv tk old (Taskbar.separatorPosition t1)
              (Some f)
              (Taskbar.heap t1) desired (Taskbar.mkPass (Taskbar.heap t1) [] [] [])
              Hreg (evolves_refl _) (registered_nil _)) as [Hev0 HregN].
  fold (Taskbar.firstPass tk old (Taskbar.separatorPosition t1)
          (Some f) desired (Taskbar.heap t1)) in Hev0, HregN.
  fold p in Hev0, HregN.
  assert (HoldP : registered (Taskbar.passHeap p) old)
    by (eapply registered_evolves; eassumption).
  destruct (retirePass_inv p old (Taskbar.objects t1) HoldP) as [Hev1 Hreg1].
  fold h1 in Hev1, Hreg1. fold old1 in Hreg1.
  assert (HregN1 : registered h1 (Taskbar.newButtons p))
    by (eapply registered_evolves; eassumption).
  pose proof (mergePass_inv h1 true old1 p (Z.of_nat (length f)) Hreg1 HregN1)
    as [HndM HokM].
  rewrite Hm in HndM, HokM.
  eexists. split; [exact Hmap|]. split; [exact Hsp|].
  rewrite Hidx, Hms, Hm, filter_app, length_app.
  rewrite (filter_none _ _ (Taskbar.newButtons p)).
  2:{ intros [k b] Hin. destruct (Hkeys k b Hin) as [a [-> Ha]].
      unfold keptFavorite. simpl.
      apply (setHas_In nat_eqb_eq) in Ha. rewrite Ha. apply andb_false_r. }
  rewrite (filter_agree _ (keptFavorite _ desired)
             (fun e => Heap.favorite h1 (snd e)) kept).
  2:{ intros [k b] Hin. unfold keptFavorite. simpl. rewrite Hfav.
      destruct k as [a|n]; [|apply andb_true_r].
      destruct (Js.setHas Nat.eqb desired a) eqn:E; [|apply andb_true_r].
      exfalso. apply (setHas_In nat_eqb_eq) in E.
      destruct (Hdone a E) as [b' [Hg _]]. apply mapGet_In in Hg.
      rewrite map_app in HndM. apply NoDup_app_remove_l in HndM as Hk.
      clear Hk. revert HndM. rewrite <- map_app. intros HndM.
      rewrite map_app in HndM.
      assert (H1 : In (KApp a) (map fst (Taskbar.newButtons p)))
        by (apply in_map_iff; exists (KApp a, b'); auto).
      assert (H2 : In (KApp a) (map fst kept))
        by (apply in_map_iff; exists (KApp a, b); auto).
      clear -HndM H1 H2.
      induction (map fst (Taskbar.newButtons p)) as [|x l IH]; [contradiction|].
      simpl in HndM. inversion HndM as [|? ? Hx Hl]; subst.
      destruct H1 as [-> | H1]; [|auto].
      apply Hx. apply in_or_app. now right. }
  simpl length. lia.
Qed.

Lemma rerender_separator_index_witness :
  exists m,
    Taskbar.appButtons (Taskbar.rerender Samples.toolkit Samples.demoted) = Some m
    /\ Taskbar.separatorPosition (Taskbar.rerender Samples.toolkit Samples.demoted)
       = Z.of_nat (length [11])
    /\ Taskbar.separatorIndex (Taskbar.rerender Samples.toolkit Samples.demoted)
       = Z.of_nat (length [11]
                   + length (filter
                               (keptFavorite
                                  (Taskbar.heap (Taskbar.rerender Samples.toolkit
                                                   Samples.demoted)) [11]) m)).
Proof.
  apply (rerender_separator_index Samples.toolkit Samples.demoted
           [(KApp 10, 1); (KApp 11, 2)] [11] [11] 0).
  - split; [repeat constructor; simpl; intuition discriminate|].
    repeat constructor; simpl; auto.
  - reflexivity.
  - reflexivity.
  - reflexivity.
  - reflexivity.
  - reflexivity.
  - discriminate.
  - reflexivity.
Defined.

(** ** Taskbar.handleDrop: an accepted drop *)

Lemma handleDrop_items (h : Heap) (d d1 : DragAndDropHandler.t) (c : Ref)
      (items : list Ref) :
  DragAndDropHandler.handleDrop h d = (Some (c, items), d1) ->
  NoDup items /\ In c items /\ DragAndDropHandler.candidate d = Some c
  /\ DragAndDropHandler.candidate d1 = None.
Proof.
  unfold DragAndDropHandler.handleDrop.
  destruct (DragAndDropHandler.slots d) as [sl|]; [|discriminate].
  destruct (DragAndDropHandler.candidate d) as [c'|]; [|discriminate].
  set (set0 := Js.setFrom Nat.eqb (filter (Heap.valid h) (map competitor sl))).
  assert (Hnd : NoDup set0) by apply (setFrom_NoDup nat_eqb_eq).
  destruct (Js.setHas Nat.eqb set0 c') eqn:E; intros [= <- <- <-]; simpl.
  - apply (setHas_In nat_eqb_eq) in E. auto.
  - split; [now apply (setAdd_NoDup nat_eqb_eq)|].
    split; [apply (setAdd_In nat_eqb_eq); now right | auto].
Qed.

Lemma app_kind (h : Heap) (r : Ref) (a : App) :
  Heap.app h r = Some a ->
  exists comp, Heap.get h r = Some comp /\ kind comp = AppButton a.
Proof.
  unfold Heap.app, appOf. destruct (Heap.get h r) as [comp|]; [|discriminate].
  destruct (kind comp) eqn:E; try discriminate.
  intros [= ->]. exists comp. auto.
Qed.

(** A slot list without the candidate leaves the entry of the
    candidate's application and the candidate position alone. *)
Lemma collect_absent (h : Heap) (c : Ref) (ca : App) (old : option Ref)
      (slots : list Ref) :
  forall (i : nat) (d : Taskbar.Drop),
  ~ In c slots ->
  Js.mapGet key_eqb (Taskbar.dropButtons (Taskbar.collect h c ca old slots i d))
            (KApp ca)
  = Js.mapGet key_eqb (Taskbar.dropButtons d) (KApp ca)
  /\ Taskbar.dropCandidatePosition (Taskbar.collect h c ca old slots i d)
     = Taskbar.dropCandidatePosition d
  /\ (In ca (Taskbar.dropApps d) ->
      In ca (Taskbar.dropApps (Taskbar.collect h c ca old slots i d))).
Proof.
  induction slots as [|actor rest IH]; intros i d Hc; cbn [Taskbar.collect].
  - auto.
  - assert (Hrest : ~ In c rest) by (intros H; apply Hc; now right).
    assert (Hne : Nat.eqb actor c = false)
      by (apply Nat.eqb_neq; intros ->; apply Hc; now left).
    cbv zeta.
    destruct (Heap.get h actor) as [comp|]; cbn [option_map]; [|now apply IH].
    destruct (kind comp) as [a| |];
      [|exact (IH (S i) _ Hrest) | exact (IH (S i) _ Hrest)].
    rewrite Hne.
    destruct (Nat.eqb a ca) eqn:Ea.
    + destruct (sameRef (Some actor) old); [|now apply IH].
      destruct (IH (S i)
                  (Taskbar.mkDrop (Taskbar.dropApps d)
                     (Js.mapSet key_eqb (Taskbar.dropButtons d)
                        (KObj (Taskbar.dropObjects d)) actor)
                     (S (Taskbar.dropObjects d)) (Taskbar.dropCandidatePosition d)
                     (Taskbar.dropSeparatorPosition d)) Hrest) as [H1 [H2 H3]].
      simpl in H1, H2, H3. rewrite (mapGet_mapSet key_eqb_eq) in H1. simpl in H1.
      auto.
    + destruct (IH (S i)
                  (Taskbar.mkDrop (Js.setAdd Nat.eqb (Taskbar.dropApps d) a)
                     (Js.mapSet key_eqb (Taskbar.dropButtons d) (KApp a) actor)
                     (Taskbar.dropObjects d) (Taskbar.dropCandidatePosition d)
                     (Taskbar.dropSeparatorPosition d)) Hrest) as [H1 [H2 H3]].
      simpl in H1, H2, H3. rewrite (mapGet_mapSet key_eqb_eq) in H1. simpl in H1.
      rewrite Nat.eqb_sym, Ea in H1.
      split; [exact H1|]. split; [exact H2|]. intros Hin. apply H3.
      apply (setAdd_In nat_eqb_eq). now left.
Qed.

(** The candidate ends up under its application, with its index in the
    slot list as the candidate position. *)
Lemma collect_candidate (h : Heap) (c : Ref) (ca : App) (old : option Ref)
      (slots : list Ref) :
  forall (i : nat) (d : Taskbar.Drop),
  NoDup slots -> In c slots -> Heap.app h c = Some ca ->
  Js.mapGet key_eqb (Taskbar.dropButtons (Taskbar.collect h c ca old slots i d))
            (KApp ca) = Some c
  /\ In ca (Taskbar.dropApps (Taskbar.collect h c ca old slots i d))
  /\ exists j, nth_error slots j = Some c
               /\ Taskbar.dropCandidatePosition (Taskbar.collect h c ca old slots i d)
                  = Z.of_nat (i + j).
Proof.
  induction slots as [|actor rest IH]; intros i d Hnd Hin Hca; [contradiction|].
  inversion Hnd as [|? ? Hfresh Hnd']; subst.
  assert (Hshift : forall d',
            In c rest ->
            Js.mapGet key_eqb
              (Taskbar.dropButtons (Taskbar.collect h c ca old rest (S i) d'))
              (KApp ca) = Some c
            /\ In ca (Taskbar.dropApps (Taskbar.collect h c ca old rest (S i) d'))
            /\ exists j, nth_error (actor :: rest) j = Some c
                 /\ Taskbar.dropCandidatePosition
                      (Taskbar.collect h c ca old rest (S i) d')
                    = Z.of_nat (i + j)).
  { intros d' Hr. destruct (IH (S i) d' Hnd' Hr Hca) as [H1 [H2 [j [Hj Hp]]]].
    split; [exact H1|]. split; [exact H2|]. exists (S j).
    split; [exact Hj|]. rewrite Hp. f_equal. lia. }
  cbn [Taskbar.collect]. cbv zeta.
  destruct (Nat.eq_dec actor c) as [-> | Hne].
  - destruct (app_kind h c ca Hca) as [comp [Hg Hk]].
    rewrite Hg. cbn [option_map]. rewrite Hk, Nat.eqb_refl.
    destruct (collect_absent h c ca old rest (S i)
                (Taskbar.mkDrop (Js.setAdd Nat.eqb (Taskbar.dropApps d) ca)
                   (Js.mapSet key_eqb (Taskbar.dropButtons d) (KApp ca) c)
                   (Taskbar.dropObjects d) (Z.of_nat i)
                   (Taskbar.dropSeparatorPosition d)) Hfresh) as [H1 [H2 H3]].
    simpl in H1, H2, H3. rewrite (mapGet_mapSet key_eqb_eq) in H1. simpl in H1.
    rewrite Nat.eqb_refl in H1.
    split; [exact H1|]. split.
    + apply H3. apply (setAdd_In nat_eqb_eq). now right.
    + exists 0. split; [reflexivity|]. rewrite H2. f_equal. lia.
  - assert (Hr : In c rest) by (destruct Hin; [contradiction | assumption]).
    destruct (Heap.get h actor) as [comp|]; cbn [option_map]; [|now apply Hshift].
    destruct (kind comp) as [a| |]; try (now apply Hshift).
    apply Nat.eqb_neq in Hne. rewrite Hne.
    destruct (Nat.eqb a ca); [|now apply Hshift].
    destruct (sameRef (Some actor) old); now apply Hshift.
Qed.

(** The separator position is the one before the loop or the index of a
    separator among the slots. *)
Lemma collect_separator (h : Heap) (c : Ref) (ca : App) (old : option Ref)
      (slots : list Ref) :
  forall (i : nat) (d : Taskbar.Drop),
  Taskbar.dropSeparatorPosition (Taskbar.collect h c ca old slots i d)
  = Taskbar.dropSeparatorPosition d
  \/ exists j s comp,
       nth_error slots j = Some s /\ Heap.get h s = Some comp
       /\ kind comp = Separator
       /\ Taskbar.dropSeparatorPosition (Taskbar.collect h c ca old slots i d)
          = Z.of_nat (i + j).
Proof.
  induction slots as [|actor rest IH]; intros i d; cbn [Taskbar.collect];
    [now left|].
  assert (Hshift : forall d',
            Taskbar.dropSeparatorPosition d' = Taskbar.dropSeparatorPosition d ->
            Taskbar.dropSeparatorPosition (Taskbar.collect h c ca old rest (S i) d')
            = Taskbar.dropSeparatorPosition d
            \/ exists j s comp,
                 nth_error (actor :: rest) j = Some s /\ Heap.get h s = Some comp
                 /\ kind comp = Separator
                 /\ Taskbar.dropSeparatorPosition
                      (Taskbar.collect h c ca old rest (S i) d')
                    = Z.of_nat (i + j)).
  { intros d' Hd. destruct (IH (S i) d') as [H | [j [s [comp [Hj [Hg [Hk Hp]]]]]]].
    - left. congruence.
    - right. exists (S j), s, comp. split; [exact Hj|]. split; [exact Hg|].
      split; [exact Hk|]. rewrite Hp. f_equal. lia. }
  cbv zeta.
  destruct (Heap.get h actor) as [comp|] eqn:Hg; cbn [option_map];
    [|now apply Hshift].
  destruct (kind comp) as [a| |] eqn:Hk.
  - destruct (Nat.eqb actor c); [now apply Hshift|].
    destruct (Nat.eqb a ca); [|now apply Hshift].
    destruct (sameRef (Some actor) old); now apply Hshift.
  - right.
    destruct (IH (S i)
                (Taskbar.mkDrop (Taskbar.dropApps d) (Taskbar.dropButtons d)
                   (Taskbar.dropObjects d) (Taskbar.dropCandidatePosition d)
                   (Z.of_nat i))) as [H | [j [s [comp' [Hj [Hg' [Hk' Hp]]]]]]].
    + exists 0, actor, comp. split; [reflexivity|]. split; [exact Hg|].
      split; [exact Hk|]. rewrite H. simpl. f_equal. lia.
    + exists (S j), s, comp'. split; [exact Hj|]. split; [exact Hg'|].
      split; [exact Hk'|]. rewrite Hp. f_equal. lia.
  - now apply Hshift.
Qed.

Lemma favoritesAdd_In (f : Favorites) (a : App) (position : Z) :
  In a (apps (favoritesAdd f a position)).
Proof.
  unfold favoritesAdd. simpl. destruct (position <? 0)%Z.
  - apply in_or_app. right. now left.
  - unfold Js.splice. apply in_or_app. right. now left.
Qed.

Lemma favoritesRemove_In (f : Favorites) (a : App) :
  ~ In a (apps (favoritesRemove f a)).
Proof.
  unfold favoritesRemove. simpl. intros H. apply filter_In in H.
  destruct H as [_ H]. now rewrite Nat.eqb_refl in H.
Qed.

(** X17. An accepted drop.  When the handler answers with a candidate
    of a known application on a known workspace, and the favorites take
    the application if it was dropped before the separator, [#handleDrop]
    answers true and: the map holds the candidate under its application;
    the candidate position is the index of the candidate among the
    answered items and the separator position, when it is not [-1], the
    index of a separator among them; the candidate is no drop candidate
    any more and its favorite flag says whether it was dropped before
    the separator; the button that the application had before is
    invalid; the applications of the workspace are the ones collected,
    with the candidate's among them; and the favorites hold the
    application exactly when it was dropped before the separator. *)
Theorem handleDrop_accepts (t0 : Taskbar.t) (d d1 : DragAndDropHandler.t)
        (c : Ref) (items : list Ref) (ca : App) (svc : TaskbarClient)
        (w : Workspace) (comp : Component) :
  Taskbar.dndHandler t0 = Some d ->
  DragAndDropHandler.handleDrop (Taskbar.heap t0) d = (Some (c, items), d1) ->
  Heap.get (Taskbar.heap t0) c = Some comp ->
  kind comp = AppButton ca ->
  Taskbar.service t0 = Some svc ->
  workspace svc = Some w ->
  let oldAppButton := match Taskbar.appButtons t0 with
                      | Some ab => Js.mapGet key_eqb ab (KApp ca)
                      | None => None
                      end in
  let r := Taskbar.collect (Taskbar.heap t0) c ca oldAppButton items 0
             (Taskbar.mkDrop [] [] (Taskbar.objects t0) (-1) (-1)) in
  let isFavorite :=
    (Taskbar.dropCandidatePosition r <? Taskbar.dropSeparatorPosition r)%Z in
  (isFavorite = true ->
   exists f, favorites svc = Some f /\ canAdd f ca = true) ->
  let t' := fst (Taskbar.handleDrop t0) in
  snd (Taskbar.handleDrop t0) = true
  /\ (exists m, Taskbar.appButtons t' = Some m
                /\ Js.mapGet key_eqb m (KApp ca) = Some c)
  /\ (exists i, nth_error items i = Some c
                /\ Taskbar.dropCandidatePosition r = Z.of_nat i)
  /\ (Taskbar.dropSeparatorPosition r = (-1)%Z
      \/ exists j s sc, nth_error items j = Some s
                        /\ Heap.get (Taskbar.heap t0) s = Some sc
                        /\ kind sc = Separator
                        /\ Taskbar.dropSeparatorPosition r = Z.of_nat j)
  /\ (oldAppButton <> Some c ->
      Heap.get (Taskbar.heap t') c
      = Some (mkComponent (kind comp) (isValid comp) isFavorite false
                          (superRect comp) (allocationBox comp) (isVisible comp)))
  /\ (forall o, oldAppButton = Some o -> Heap.valid (Taskbar.heap t') o = false)
  /\ Js.mapGet Nat.eqb (Taskbar.runningApps t') w = Some (Taskbar.dropApps r)
  /\ In ca (Taskbar.dropApps r)
  /\ (forall f, favorites svc = Some f ->
      exists svc' f', Taskbar.service t' = Some svc'
                      /\ favorites svc' = Some f'
                      /\ (In ca (apps f') <-> isFavorite = true)).
Proof.
  intros Hd Hdrop Hg Hk Hsvc Hw oldAppButton r isFavorite Hok t'.
  assert (Hca : Heap.app (Taskbar.heap t0) c = Some ca).
  { unfold Heap.app, appOf. now rewrite Hg, Hk. }
  destruct (handleDrop_items _ _ _ _ _ Hdrop) as [Hnd [Hin _]].
  destruct (collect_candidate (Taskbar.heap t0) c ca oldAppButton items 0
              (Taskbar.mkDrop [] [] (Taskbar.objects t0) (-1) (-1)) Hnd Hin Hca)
    as [Hmap [Happs [i [Hi Hpos]]]].
  fold r in Hmap, Happs, Hpos.
  pose proof (collect_separator (Taskbar.heap t0) c ca oldAppButton items 0
                (Taskbar.mkDrop [] [] (Taskbar.objects t0) (-1) (-1))) as Hsepr.
  fold r in Hsepr.
  assert (Hres : Taskbar.handleDrop t0
                 = (Taskbar.mk
                      (Taskbar.dropButton
                         (Heap.destroyOpt (Taskbar.heap t0) oldAppButton) c isFavorite)
                      (Taskbar.dropObjects r) (Taskbar.valid t0)
                      (Taskbar.hasAllocation t0) (Taskbar.isQueued t0)
                      (Taskbar.allocation t0) (Taskbar.config t0)
                      (Js.mapSet Nat.eqb (Taskbar.runningApps t0) w (Taskbar.dropApps r))
                      (Some (Taskbar.dropButtons r))
                      (Some (mkTaskbarClient (workspace svc)
                               (if isFavorite
                                then option_map
                                       (fun f => favoritesAdd f ca
                                          (Taskbar.indexOf (Taskbar.dropApps r) ca 0))
                                       (favorites svc)
                                else option_map (fun f => favoritesRemove f ca)
                                       (favorites svc))
                               (queryApps svc)))
                      (match oldAppButton with
                       | Some _ => if (Taskbar.dropSeparatorPosition r >? 0)%Z
                                   then None else Some d1
                       | None => Some d1
                       end)
                      (Taskbar.separator t0) (Taskbar.separatorPosition t0)
                      (Taskbar.placed t0) (Taskbar.separatorIndex t0), true)).
  { unfold Taskbar.handleDrop. rewrite Hd, Hdrop. cbv zeta.
    rewrite Hca, Hsvc, Hw. fold oldAppButton. fold r. fold isFavorite.
    destruct isFavorite eqn:E; [|reflexivity].
    destruct (Hok eq_refl) as [f [Hf Hadd]]. rewrite Hf, Hadd. reflexivity. }
  subst t'. rewrite Hres. cbn [fst snd Taskbar.appButtons Taskbar.heap
                               Taskbar.runningApps Taskbar.service].
  split; [reflexivity|].
  split; [exists (Taskbar.dropButtons r); split; [reflexivity | exact Hmap]|].
  split; [exists i; split; [exact Hi | rewrite Hpos; f_equal]|].
  split.
  { destruct Hsepr as [H | [j [s [sc [Hj [Hgs [Hks Hp]]]]]]]; [now left|].
    right. exists j, s, sc. auto. }
  split.
  { intros Hne. unfold Taskbar.dropButton. rewrite get_update, Nat.eqb_refl.
    assert (E : Heap.get (Heap.destroyOpt (Taskbar.heap t0) oldAppButton) c
                = Some comp).
    { destruct oldAppButton as [o|]; [|exact Hg]. simpl.
      unfold Heap.destroy. rewrite get_update.
      destruct (Nat.eqb o c) eqn:E; [|exact Hg].
      apply Nat.eqb_eq in E. subst. now contradiction Hne. }
    rewrite E. reflexivity. }
  split.
  { intros o ->. simpl. unfold Heap.valid, Taskbar.dropButton.
    rewrite get_update.
    pose proof (valid_destroy_same (Taskbar.heap t0) o) as V.
    unfold Heap.valid in V.
    destruct (Nat.eqb c o); [|exact V].
    destruct (Heap.get (Heap.destroy (Taskbar.heap t0) o) o); [exact V | reflexivity]. }
  split; [now rewrite (mapGet_mapSet nat_eqb_eq), Nat.eqb_refl|].
  split; [exact Happs|].
  intros f Hf. rewrite Hf. eexists. exists (if isFavorite
                                            then favoritesAdd f ca
                                                   (Taskbar.indexOf (Taskbar.dropApps r) ca 0)
                                            else favoritesRemove f ca).
  split; [reflexivity|]. split; [now destruct isFavorite|].
  destruct isFavorite.
  - split; [reflexivity|]. intros _. apply favoritesAdd_In.
  - split; [|discriminate]. intros H. exfalso. revert H. apply favoritesRemove_In.
Qed.

Lemma handleDrop_accepts_witness :
  exists m,
    Taskbar.appButtons
      (fst (Taskbar.handleDrop
              (Taskbar.mk (Taskbar.heap Samples.promotion) 0 true true false
                 (Some TaskbarAllocation.new) (mkConfig true false false) []
                 (Taskbar.appButtons Samples.promotion)
                 (Some (Samples.client [10] true (Some [11])))
                 (Taskbar.dndHandler Samples.promotion) (Some 0) 1 [1; 2] 1)))
    = Some m
    /\ Js.mapGet key_eqb m (KApp 11) = Some 3.
Proof.
  apply (handleDrop_accepts
           (Taskbar.mk (Taskbar.heap Samples.promotion) 0 true true false
              (Some TaskbarAllocation.new) (mkConfig true false false) []
              (Taskbar.appButtons Samples.promotion)
              (Some (Samples.client [10] true (Some [11])))
              (Taskbar.dndHandler Samples.promotion) (Some 0) 1 [1; 2] 1)
           (DragAndDropHandler.mk
              (Some [mkSlot 3 (mkRect 0 0 40 40); mkSlot 1 (mkRect 0 0 40 40);
                     mkSlot 0 (mkRect 40 0 4 40); mkSlot 2 (mkRect 44 0 40 40)])
              true (Some 3) 0 true true)
           (DragAndDropHandler.mk
              (Some [mkSlot 3 (mkRect 0 0 40 40); mkSlot 1 (mkRect 0 0 40 40);
                     mkSlot 0 (mkRect 40 0 4 40); mkSlot 2 (mkRect 44 0 40 40)])
              true None 0 true true)
           3 [3; 1; 0; 2] 11 (Samples.client [10] true (Some [11])) 0
           (DragAndDropHandler.newCandidate Samples.toolkit 11)).
  - reflexivity.
  - reflexivity.
  - reflexivity.
  - reflexivity.
  - reflexivity.
  - reflexivity.
  - intros _. exists (mkFavorites [10] (fun _ => true)). split; reflexivity.
Defined.

(** ** Sessions: what no sequence of operations does *)

Lemma reconcile_evolves (tk : Toolkit) (t1 : Taskbar.t) (old : list (Key * Ref))
      (favs : option (list App)) (desired : list App) :
  registered (Taskbar.heap t1) old ->
  evolves (Taskbar.heap t1) (Taskbar.heap (Taskbar.reconcile tk t1 old favs desired)).
Proof.
  intros Hold.
  destruct (visit_fold_inv tk old (Taskbar.separatorPosition t1) favs
              (Taskbar.heap t1) desired (Taskbar.mkPass (Taskbar.heap t1) [] [] [])
              Hold (evolves_refl _) (registered_nil _)) as [Hev0 _].
  fold (Taskbar.firstPass tk old (Taskbar.separatorPosition t1) favs desired
          (Taskbar.heap t1)) in Hev0.
  set (p := Taskbar.firstPass tk old (Taskbar.separatorPosition t1) favs desired
              (Taskbar.heap t1)) in *.
  destruct (retirePass_inv p old (Taskbar.objects t1)
              (registered_evolves _ _ _ Hev0 Hold)) as [Hev1 _].
  unfold Taskbar.reconcile. cbv zeta. fold p.
  destruct (Taskbar.retirePass p old (Taskbar.objects t1)) as [[h1 n1] old1].
  simpl in Hev1.
  assert (He : evolves (Taskbar.heap t1) h1) by (eapply evolves_trans; eassumption).
  destruct (Taskbar.separator t1) as [sep|]; simpl; [|exact He].
  eapply evolves_trans; [exact He | apply evolves_setVisible].
Qed.

Lemma rerender_evolves (tk : Toolkit) (t0 : Taskbar.t) :
  wellFormed t0 ->
  evolves (Taskbar.heap t0) (Taskbar.heap (Taskbar.rerender tk t0)).
Proof.
  intros Hwf. unfold Taskbar.rerender. unfold wellFormed in Hwf.
  destruct (Taskbar.appButtons t0) as [old|]; [|apply evolves_refl].
  destruct (negb (Taskbar.hasAllocation t0) || Taskbar.isQueued t0);
    [apply evolves_refl|].
  destruct (getRunningApps_heap t0) as [Hh _].
  destruct (Taskbar.getRunningApps t0) as [t1 running]. simpl in Hh.
  destruct (Taskbar.desiredApps (Taskbar.favoriteApps t0) running)
    as [[|a desired]|]; try (rewrite Hh; apply evolves_refl).
  rewrite <- Hh. apply reconcile_evolves. now rewrite Hh.
Qed.

Lemma handleDrop_evolves (t0 : Taskbar.t) :
  evolves (Taskbar.heap t0) (Taskbar.heap (fst (Taskbar.handleDrop t0))).
Proof.
  unfold Taskbar.handleDrop.
  destruct (Taskbar.dndHandler t0) as [d|]; [|apply evolves_refl].
  destruct (DragAndDropHandler.handleDrop (Taskbar.heap t0) d)
    as [[[c items]|] d1]; [|apply evolves_refl].
  cbv zeta.
  destruct (Heap.app (Taskbar.heap t0) c) as [ca|]; [|apply evolves_refl].
  destruct (Taskbar.service t0) as [svc|]; [|apply evolves_refl].
  destruct (workspace svc) as [w|]; [|apply evolves_refl].
  match goal with |- context [if ?b then _ else _] => destruct b end; simpl.
  - apply evolves_destroy.
  - eapply evolves_trans; [apply evolves_destroyOpt | apply evolves_dropButton].
Qed.

Lemma step_evolves (t0 : Taskbar.t) (op : Session.Operation) :
  wellFormed t0 ->
  evolves (Taskbar.heap t0) (Taskbar.heap (Session.step t0 op)).
Proof.
  intros Hwf.
  destruct op as [tk | tk payload params | | pr inside | | r | svc cfg al q]; simpl.
  - now apply rerender_evolves.
  - now destruct (handleDragOver_frame tk t0 payload params) as [He _].
  - apply handleDrop_evolves.
  - destruct (Taskbar.dndHandler t0) as [d|]; [|apply evolves_refl].
    destruct (DragAndDropHandler.hasClient d); [|apply evolves_refl].
    unfold DragAndDropHandler.handleDragActorPosition.
    destruct pr; [destruct inside|]; simpl;
      first [apply evolves_refl | apply evolves_destroyOpt].
  - destruct (Taskbar.dndHandler t0) as [d|]; [|apply evolves_refl].
    destruct (DragAndDropHandler.hasClient d); [|apply evolves_refl].
    unfold DragAndDropHandler.destroy, Taskbar.handleDragEnd.
    destruct (DragAndDropHandler.destroyCallback d); simpl;
      [|apply evolves_destroyOpt].
    destruct (Taskbar.allocation t0); simpl; [|apply evolves_destroyOpt].
    destruct (negb (Taskbar.valid t0)); simpl; apply evolves_destroyOpt.
  - apply evolves_destroy.
  - apply evolves_refl.
Qed.

(** X18. Over any sequence of rerenders, drags, drops, signals of the
    drag actor, expiries and changes of the collaborators, starting from
    a button map in order: no component is removed, none changes what it
    is, and a component that is invalid never becomes valid again. *)
Theorem run_never_revives (t0 : Taskbar.t) (ops : list Session.Operation) :
  wellFormed t0 ->
  evolves (Taskbar.heap t0) (Taskbar.heap (Session.run t0 ops))
  /\ forall r c,
       Heap.get (Taskbar.heap t0) r = Some c ->
       exists c', Heap.get (Taskbar.heap (Session.run t0 ops)) r = Some c'
                  /\ kind c' = kind c
                  /\ (isValid c = false -> isValid c' = false).
Proof.
  intros Hwf.
  assert (He : evolves (Taskbar.heap t0) (Taskbar.heap (Session.run t0 ops))).
  { revert t0 Hwf. unfold Session.run.
    induction ops as [|op ops IH]; intros t0 Hwf; simpl; [apply evolves_refl|].
    eapply evolves_trans; [apply step_evolves; exact Hwf|].
    apply IH. now apply step_wellFormed. }
  split; [exact He|]. intros r c Hc. destruct He as [_ He].
  destruct (He r c Hc) as [c' [Hg [Hk Hv]]]. exists c'.
  split; [exact Hg|]. split; [exact Hk|]. intros Hf.
  destruct (isValid c'); [|reflexivity]. rewrite (Hv eq_refl) in Hf. discriminate.
Qed.

Lemma run_never_revives_witness :
  evolves (Taskbar.heap Samples.fresh)
    (Taskbar.heap
       (Session.run Samples.fresh
          [Session.Rerender Samples.toolkit;
           Session.DragOver Samples.toolkit (Some (PForeign 12)) (Some (5, 0)%Z);
           Session.ActorDestroyed])).
Proof.
  apply (run_never_revives Samples.fresh
           [Session.Rerender Samples.toolkit;
            Session.DragOver Samples.toolkit (Some (PForeign 12)) (Some (5, 0)%Z);
            Session.ActorDestroyed]).
  exact fresh_wellFormed.
Defined.

(** ** The cache of running applications *)

Lemma getRunningApps_cacheNonEmpty (t0 : Taskbar.t) :
  cacheNonEmpty t0 -> cacheNonEmpty (fst (Taskbar.getRunningApps t0)).
Proof.
  intros Hc. unfold Taskbar.getRunningApps.
  destruct (Taskbar.service t0) as [s|]; [|exact Hc].
  destruct (workspace s) as [ws|]; [|exact Hc].
  assert (Hdel : cacheNonEmpty
                   (Taskbar.setRunningApps t0
                      (Js.mapDelete Nat.eqb (Taskbar.runningApps t0) ws))).
  { intros w l Hin. simpl in Hin. unfold Js.mapDelete in Hin.
    apply filter_In in Hin. destruct Hin as [Hin _]. exact (Hc w l Hin). }
  assert (Hset : forall l0, l0 <> [] ->
            cacheNonEmpty
              (Taskbar.setRunningApps t0
                 (Js.mapSet Nat.eqb (Taskbar.runningApps t0) ws l0))).
  { intros l0 Hl0 w l Hin. simpl in Hin. apply (mapSet_In nat_eqb_eq) in Hin.
    destruct Hin as [Hin | [= -> ->]]; [exact (Hc w l Hin) | exact Hl0]. }
  destruct (queryApps s _ _) as [[|a ra]|]; simpl; try exact Hdel.
  destruct (negb (Js.mapHas Nat.eqb (Taskbar.runningApps t0) ws)); simpl.
  - apply Hset. discriminate.
  - apply Hset. intros E.
    match type of E with ?X = [] => assert (Hin : In a X) end.
    { apply (setFrom_In nat_eqb_eq). apply in_or_app. right. now left. }
    rewrite E in Hin. contradiction.
Qed.

Lemma reconcile_runningApps (tk : Toolkit) (t1 : Taskbar.t) (old : list (Key * Ref))
      (favs : option (list App)) (desired : list App) :
  Taskbar.runningApps (Taskbar.reconcile tk t1 old favs desired)
  = Taskbar.runningApps t1.
Proof. now destruct (reconcile_frame tk t1 old favs desired) as [_ [_ [H _]]]. Qed.

Lemma rerender_cacheNonEmpty (tk : Toolkit) (t0 : Taskbar.t) :
  cacheNonEmpty t0 -> cacheNonEmpty (Taskbar.rerender tk t0).
Proof.
  intros Hc. unfold Taskbar.rerender.
  destruct (Taskbar.appButtons t0) as [old|]; [|exact Hc].
  destruct (negb (Taskbar.hasAllocation t0) || Taskbar.isQueued t0); [exact Hc|].
  pose proof (getRunningApps_cacheNonEmpty t0 Hc) as H1.
  destruct (Taskbar.getRunningApps t0) as [t1 running]. simpl in H1.
  destruct (Taskbar.desiredApps (Taskbar.favoriteApps t0) running)
    as [[|a desired]|]; try exact H1.
  unfold cacheNonEmpty. rewrite reconcile_runningApps. exact H1.
Qed.

Lemma handleDrop_cacheNonEmpty (t0 : Taskbar.t) :
  cacheNonEmpty t0 -> cacheNonEmpty (fst (Taskbar.handleDrop t0)).
Proof.
  intros Hc. unfold Taskbar.handleDrop.
  destruct (Taskbar.dndHandler t0) as [d|]; [|exact Hc].
  destruct (DragAndDropHandler.handleDrop (Taskbar.heap t0) d)
    as [[[c items]|] d1] eqn:Hdrop; [|exact Hc].
  cbv zeta.
  destruct (Heap.app (Taskbar.heap t0) c) as [ca|] eqn:Hca; [|exact Hc].
  destruct (Taskbar.service t0) as [svc|]; [|exact Hc].
  destruct (workspace svc) as [w|]; [|exact Hc].
  match goal with |- context [if ?b then _ else _] => destruct b end; simpl;
    [exact Hc|].
  intros w' l Hin. simpl in Hin. apply (mapSet_In nat_eqb_eq) in Hin.
  destruct Hin as [Hin | [= -> ->]]; [exact (Hc w' l Hin)|].
  destruct (handleDrop_items _ _ _ _ _ Hdrop) as [Hnd [Hi _]].
  match goal with |- Taskbar.dropApps (Taskbar.collect ?h ?c ?ca ?o ?s ?i ?d) <> [] =>
    destruct (collect_candidate h c ca o s i d Hnd Hi Hca) as [_ [Happs _]] end.
  intros E. rewrite E in Happs. contradiction.
Qed.

Lemma step_cacheNonEmpty (t0 : Taskbar.t) (op : Session.Operation) :
  cacheNonEmpty t0 -> cacheNonEmpty (Session.step t0 op).
Proof.
  intros Hc.
  destruct op as [tk | tk payload params | | pr inside | | r | svc cfg al q]; simpl.
  - now apply rerender_cacheNonEmpty.
  - unfold Taskbar.handleDragOver.
    destruct params as [xy|]; [|exact Hc].
    destruct payload as [pl|]; [|exact Hc].
    destruct (Taskbar.allocation t0) as [al|]; [|exact Hc].
    destruct (Taskbar.appButtons t0) as [ab|]; [|exact Hc].
    destruct (Taskbar.separator t0) as [sep|]; [|exact Hc].
    cbv zeta.
    match goal with |- context [match ?o with Some a => _ | None => (t0, None) end] =>
      destruct o as [a|] end; [|exact Hc].
    match goal with |- context [if ?b then (t0, None) else _] => destruct b end;
      [exact Hc|].
    destruct (Taskbar.dndHandler t0) as [d|];
      match goal with |- context [DragAndDropHandler.handleDrag ?tk ?h ?d ?p] =>
        destruct (DragAndDropHandler.handleDrag tk h d p) as [[h1 d1] res] end;
      exact Hc.
  - now apply handleDrop_cacheNonEmpty.
  - destruct (Taskbar.dndHandler t0) as [d|]; [|exact Hc].
    destruct (DragAndDropHandler.hasClient d); [|exact Hc].
    destruct (DragAndDropHandler.handleDragActorPosition (Taskbar.heap t0) d pr inside).
    exact Hc.
  - destruct (Taskbar.dndHandler t0) as [d|]; [|exact Hc].
    destruct (DragAndDropHandler.hasClient d); [|exact Hc].
    unfold DragAndDropHandler.destroy, Taskbar.handleDragEnd.
    destruct (DragAndDropHandler.destroyCallback d); simpl; [|exact Hc].
    destruct (Taskbar.allocation t0); simpl; [|exact Hc].
    destruct (negb (Taskbar.valid t0)); exact Hc.
  - exact Hc.
  - exact Hc.
Qed.

(** X19. The cache of running applications never holds an empty set:
    what holds of it at the start holds after any sequence of
    operations, because [#getRunningApps] deletes the entry of a
    workspace without running applications and [#handleDrop] records a
    set that holds the dropped application. *)
Theorem run_cache_nonempty (t0 : Taskbar.t) (ops : list Session.Operation) :
  cacheNonEmpty t0 -> cacheNonEmpty (Session.run t0 ops).
Proof.
  revert t0. unfold Session.run.
  induction ops as [|op ops IH]; intros t0 Hc; simpl; [exact Hc|].
  apply IH. now apply step_cacheNonEmpty.
Qed.

Lemma run_cache_nonempty_witness :
  cacheNonEmpty
    (Session.run Samples.fresh
       [Session.Rerender Samples.toolkit;
        Session.DragOver Samples.toolkit (Some (PComponent 2)) (Some (5, 0)%Z);
        Session.Drop]).
Proof.
  apply (run_cache_nonempty Samples.fresh
           [Session.Rerender Samples.toolkit;
            Session.DragOver Samples.toolkit (Some (PComponent 2)) (Some (5, 0)%Z);
            Session.Drop]).
  intros w l [].
Defined.

(** X20. What [#getRunningApps] answers for a workspace whose query
    gives a set that is not empty: the applications of the query and no
    other, none twice; those that were cached for the workspace come
    first, in the order of the cache, and the new ones after them; the
    answer is what the cache holds for the workspace afterwards, and the
    entries of the other workspaces are as before. *)
Theorem getRunningApps_answer (t0 : Taskbar.t) (s : TaskbarClient) (ws : Workspace)
        (q : list App) :
  Taskbar.service t0 = Some s ->
  workspace s = Some ws ->
  queryApps s (isolateWorkspaces (Taskbar.config t0))
              (showAllWindows (Taskbar.config t0)) = Some q ->
  q <> [] ->
  NoDup q ->
  exists r,
    snd (Taskbar.getRunningApps t0) = Some r
    /\ (forall a, In a r <-> In a q)
    /\ NoDup r
    /\ Js.mapGet Nat.eqb (Taskbar.runningApps (fst (Taskbar.getRunningApps t0))) ws
       = Some r
    /\ (forall w, w <> ws ->
          Js.mapGet Nat.eqb (Taskbar.runningApps (fst (Taskbar.getRunningApps t0))) w
          = Js.mapGet Nat.eqb (Taskbar.runningApps t0) w)
    /\ (Js.mapHas Nat.eqb (Taskbar.runningApps t0) ws = false -> r = q)
    /\ (forall cached,
          Js.mapGet Nat.eqb (Taskbar.runningApps t0) ws = Some cached ->
          NoDup cached ->
          exists rest,
            r = filter (Js.setHas Nat.eqb q) cached ++ rest
            /\ forall a, In a rest -> ~ In a cached).
Proof.
  intros Hs Hw Hq Hne Hnd. unfold Taskbar.getRunningApps. rewrite Hs, Hw, Hq.
  destruct q as [|a0 q0]; [now contradiction Hne|].
  set (q := a0 :: q0) in *.
  assert (Hother : forall l w, w <> ws ->
            Js.mapGet Nat.eqb (Js.mapSet Nat.eqb (Taskbar.runningApps t0) ws l) w
            = Js.mapGet Nat.eqb (Taskbar.runningApps t0) w).
  { intros l w Hne'. rewrite (mapGet_mapSet nat_eqb_eq).
    apply Nat.eqb_neq in Hne'. now rewrite Hne'. }
  destruct (Js.mapHas Nat.eqb (Taskbar.runningApps t0) ws) eqn:Hhas; cbn [negb].
  - set (cached0 := match Js.mapGet Nat.eqb (Taskbar.runningApps t0) ws with
                    | Some s0 => s0
                    | None => []
                    end).
    set (kept := Js.setFrom Nat.eqb (filter (Js.setHas Nat.eqb q) cached0)).
    exists (Js.setFrom Nat.eqb (kept ++ q)). cbn [fst snd Taskbar.runningApps
                                                  Taskbar.setRunningApps].
    split; [reflexivity|]. split; [|split; [|split; [|split; [|split]]]].
    + intros a. rewrite (setFrom_In nat_eqb_eq), in_app_iff. unfold kept.
      rewrite (setFrom_In nat_eqb_eq), filter_In. split; [|now right].
      intros [[_ H] | H]; [now apply (setHas_In nat_eqb_eq) in H | exact H].
    + apply (setFrom_NoDup nat_eqb_eq).
    + now rewrite (mapGet_mapSet nat_eqb_eq), Nat.eqb_refl.
    + intros w Hne'. now apply Hother.
    + discriminate.
    + intros cached Hg Hndc. unfold kept, cached0. rewrite Hg.
      assert (Hf : NoDup (filter (Js.setHas Nat.eqb q) cached))
        by (now apply NoDup_filter).
      rewrite (setFrom_NoDup_id nat_eqb_eq Hf).
      unfold Js.setFrom. rewrite fold_left_app.
      rewrite (fold_setAdd_fresh nat_eqb_eq (filter (Js.setHas Nat.eqb q) cached) [] Hf).
      cbn [app].
      destruct (fold_setAdd_extends q (filter (Js.setHas Nat.eqb q) cached))
        as [rest [Hr Hrest]].
      exists rest. split; [exact Hr|]. intros a Ha Hin.
      apply (Hrest a Ha). apply filter_In. split; [exact Hin|].
      apply (setHas_In nat_eqb_eq).
      assert (Hm : In a (fold_left (Js.setAdd Nat.eqb) q
                           (filter (Js.setHas Nat.eqb q) cached)))
        by (rewrite Hr; apply in_or_app; now right).
      apply (fold_setAdd_In nat_eqb_eq) in Hm. destruct Hm as [Hm | Hm]; [|exact Hm].
      apply filter_In in Hm. destruct Hm as [_ Hm].
      now apply (setHas_In nat_eqb_eq) in Hm.
  - exists q. cbn [fst snd Taskbar.runningApps Taskbar.setRunningApps].
    split; [reflexivity|]. split; [reflexivity|]. split; [exact Hnd|].
    split; [now rewrite (mapGet_mapSet nat_eqb_eq), Nat.eqb_refl|].
    split; [intros w Hne'; now apply Hother|]. split; [reflexivity|].
    intros cached Hg _. exfalso.
    apply (mapHas_false nat_eqb_eq) in Hhas. apply Hhas.
    clear -Hg. induction (Taskbar.runningApps t0) as [|[k v] m IH];
      simpl in *; [discriminate|].
    destruct (Nat.eqb ws k) eqn:E.
    + left. apply Nat.eqb_eq in E. now subst.
    + right. now apply IH.
Qed.

Lemma getRunningApps_answer_witness :
  exists r,
    snd (Taskbar.getRunningApps Samples.fresh) = Some r
    /\ (forall a, In a r <-> In a [11])
    /\ NoDup r
    /\ Js.mapGet Nat.eqb
         (Taskbar.runningApps (fst (Taskbar.getRunningApps Samples.fresh))) 0
       = Some r
    /\ (forall w, w <> 0 ->
          Js.mapGet Nat.eqb
            (Taskbar.runningApps (fst (Taskbar.getRunningApps Samples.fresh))) w
          = Js.mapGet Nat.eqb (Taskbar.runningApps Samples.fresh) w)
    /\ (Js.mapHas Nat.eqb (Taskbar.runningApps Samples.fresh) 0 = false -> r = [11])
    /\ (forall cached,
          Js.mapGet Nat.eqb (Taskbar.runningApps Samples.fresh) 0 = Some cached ->
          NoDup cached ->
          exists rest,
            r = filter (Js.setHas Nat.eqb [11]) cached ++ rest
            /\ forall a, In a rest -> ~ In a cached).
Proof.
  apply (getRunningApps_answer Samples.fresh
           (Samples.client [10] true (Some [11])) 0 [11]).
  - reflexivity.
  - reflexivity.
  - reflexivity.
  - discriminate.
  - repeat constructor. intros [].
Defined.

(** ** Taskbar.handleDragOver *)

(** X21. Dragging an application from elsewhere, when the application
    has a valid button on the taskbar, is dragging that button: the
    taskbar ends in the same state; only the answer differs, a copy for
    the foreign payload and a move for the button. *)
Theorem handleDragOver_foreign_button (tk : Toolkit) (t0 : Taskbar.t)
        (ab : list (Key * Ref)) (a : App) (b : Ref) (params : option (Z * Z)) :
  Taskbar.appButtons t0 = Some ab ->
  Js.mapGet key_eqb ab (KApp a) = Some b ->
  Heap.valid (Taskbar.heap t0) b = true ->
  Heap.app (Taskbar.heap t0) b = Some a ->
  fst (Taskbar.handleDragOver tk t0 (Some (PForeign a)) params)
  = fst (Taskbar.handleDragOver tk t0 (Some (PComponent b)) params)
  /\ (snd (Taskbar.handleDragOver tk t0 (Some (PForeign a)) params) = None
      <-> snd (Taskbar.handleDragOver tk t0 (Some (PComponent b)) params) = None)
  /\ (snd (Taskbar.handleDragOver tk t0 (Some (PForeign a)) params) <> None ->
      snd (Taskbar.handleDragOver tk t0 (Some (PForeign a)) params) = Some Taskbar.COPY_DROP
      /\ snd (Taskbar.handleDragOver tk t0 (Some (PComponent b)) params)
         = Some Taskbar.MOVE_DROP).
Proof.
  intros Hab Hg Hv Ha. unfold Taskbar.handleDragOver.
  destruct params as [xy|]; [|split; [reflexivity | split; [tauto | intros N; now contradiction N]]].
  destruct (Taskbar.allocation t0) as [al|];
    [|split; [reflexivity | split; [tauto | intros N; now contradiction N]]].
  rewrite Hab.
  destruct (Taskbar.separator t0) as [sep|];
    [|split; [reflexivity | split; [tauto | intros N; now contradiction N]]].
  cbv zeta. rewrite Hg, Hv, Ha. cbn [negb andb orb].
  rewrite !orb_false_r.
  destruct (negb (Taskbar.valid t0));
    [split; [reflexivity | split; [tauto | intros N; now contradiction N]]|].
  destruct (Taskbar.dndHandler t0) as [d|];
    match goal with |- context [DragAndDropHandler.handleDrag ?tk ?h ?d ?p] =>
      destruct (DragAndDropHandler.handleDrag tk h d p) as [[h1 d1] res] end;
    (split; [reflexivity|]; split; [split; discriminate|]; intros _; split; reflexivity).
Qed.

Lemma handleDragOver_foreign_button_witness :
  fst (Taskbar.handleDragOver Samples.toolkit Samples.idle (Some (PForeign 11))
         (Some (5, 0)%Z))
  = fst (Taskbar.handleDragOver Samples.toolkit Samples.idle (Some (PComponent 2))
           (Some (5, 0)%Z)).
Proof.
  apply (handleDragOver_foreign_button Samples.toolkit Samples.idle
           [(KApp 10, 1); (KApp 11, 2)] 11 2 (Some (5, 0)%Z));
    reflexivity.
Defined.

Lemma handleDrag_watched (tk : Toolkit) (h : Heap) (d : DragAndDropHandler.t)
      (p : DragParams) (sl : list Slot) :
  DragAndDropHandler.slots d = Some sl ->
  DragAndDropHandler.parent d = true ->
  DragAndDropHandler.hasClient
    (snd (fst (DragAndDropHandler.handleDrag tk h d (Some p)))) = true.
Proof.
  intros Hs Hp. unfold DragAndDropHandler.handleDrag. rewrite Hs, Hp. cbv zeta.
  match goal with |- context [if ?c then _ else _] => destruct c end;
    [reflexivity|].
  match goal with |- context [if ?c then _ else _] => destruct c end;
    reflexivity.
Qed.

(** What an accepted [#handleDragOver] does when no drag is in
    progress: the allocation is put in drag mode and a new handler, made
    of the valid buttons and the separator, handles the drag. *)
Lemma handleDragOver_starts (tk : Toolkit) (t0 : Taskbar.t)
      (payload : option Payload) (params : option (Z * Z)) :
  Taskbar.dndHandler t0 = None ->
  snd (Taskbar.handleDragOver tk t0 payload params) <> None ->
  exists al competitors p,
    Taskbar.allocation t0 = Some al
    /\ Taskbar.valid t0 = true
    /\ fst (Taskbar.handleDragOver tk t0 payload params)
       = Taskbar.mk
           (fst (fst (DragAndDropHandler.handleDrag tk (Taskbar.heap t0)
                        (DragAndDropHandler.new (Taskbar.heap t0) competitors)
                        (Some p))))
           (Taskbar.objects t0) (Taskbar.valid t0) (Taskbar.hasAllocation t0)
           (Taskbar.isQueued t0)
           (Some (TaskbarAllocationMore.setIsDragMode al true))
           (Taskbar.config t0) (Taskbar.runningApps t0) (Taskbar.appButtons t0)
           (Taskbar.service t0)
           (Some (snd (fst (DragAndDropHandler.handleDrag tk (Taskbar.heap t0)
                              (DragAndDropHandler.new (Taskbar.heap t0) competitors)
                              (Some p)))))
           (Taskbar.separator t0) (Taskbar.separatorPosition t0)
           (Taskbar.placed t0) (Taskbar.separatorIndex t0).
Proof.
  intros Hd. unfold Taskbar.handleDragOver. rewrite Hd.
  destruct params as [xy|]; [|intros N; now contradiction N].
  destruct payload as [pl|]; [|intros N; now contradiction N].
  destruct (Taskbar.allocation t0) as [al|]; [|intros N; now contradiction N].
  destruct (Taskbar.appButtons t0) as [ab|]; [|intros N; now contradiction N].
  destruct (Taskbar.separator t0) as [sep|]; [|intros N; now contradiction N].
  cbv zeta.
  match goal with |- context [match ?o with Some a => _ | None => (t0, None) end] =>
    destruct o as [a|] end; [|intros N; now contradiction N].
  destruct (Taskbar.valid t0) eqn:Hv; [|intros N; now contradiction N].
  cbn [negb orb].
  match goal with |- context [if ?b then (t0, None) else _] => destruct b end;
    [intros N; now contradiction N|].
  intros _.
  match goal with |- context [DragAndDropHandler.handleDrag ?tk ?h
                                (DragAndDropHandler.new ?h ?cs) (Some ?p)] =>
    exists al, cs, p;
    destruct (DragAndDropHandler.handleDrag tk h (DragAndDropHandler.new h cs) (Some p))
      as [[h1 d1] res] end.
  split; [reflexivity|]. split; [reflexivity|]. reflexivity.
Qed.



(** ** Taskbar: mapped and destroyed children, the end of the taskbar *)

Lemma mapGet_deleted (m : list (Ref * Z)) (r : Ref) :
  Js.mapGet Nat.eqb (Js.mapDelete Nat.eqb m r) r = None.
Proof. now rewrite (mapGet_mapDelete nat_eqb_eq), Nat.eqb_refl. Qed.

(** X23. After [#handleDestroy] for a child, the taskbar holds no
    reference to it: it is neither the active button nor the holder of
    the scroll lock, and the allocation map has no entry for it; what
    the taskbar held for other children is as before.  A child that is
    mapped and then destroyed, and that was not recorded before, leaves
    the allocation map as it was. *)
Theorem handleDestroy_forgets (t0 : TaskbarMore.t) (r : Ref) :
  let t' := fst (TaskbarMore.handleDestroy t0 (Some (TaskbarMore.Child r))) in
  TaskbarMore.activeAppButton t' <> Some r
  /\ TaskbarMore.scrollLock t' <> Some r
  /\ (forall al es,
        Taskbar.allocation (TaskbarMore.base t') = Some al ->
        TaskbarAllocation.allocation al = Some es ->
        Js.mapGet Nat.eqb es r = None
        /\ forall r', r' <> r ->
             forall al0 es0,
               Taskbar.allocation (TaskbarMore.base t0) = Some al0 ->
               TaskbarAllocation.allocation al0 = Some es0 ->
               Js.mapGet Nat.eqb es r' = Js.mapGet Nat.eqb es0 r')
  /\ (TaskbarMore.activeAppButton t0 <> Some r ->
      TaskbarMore.activeAppButton t' = TaskbarMore.activeAppButton t0)
  /\ (TaskbarMore.scrollLock t0 <> Some r ->
      TaskbarMore.scrollLock t' = TaskbarMore.scrollLock t0)
  /\ Taskbar.heap (TaskbarMore.base t') = Taskbar.heap (TaskbarMore.base t0)
  /\ Taskbar.appButtons (TaskbarMore.base t')
     = Taskbar.appButtons (TaskbarMore.base t0)
  /\ snd (TaskbarMore.handleDestroy t0 (Some (TaskbarMore.Child r))) = []
  /\ (forall al0 es0,
        Taskbar.valid (TaskbarMore.base t0) = true ->
        Taskbar.allocation (TaskbarMore.base t0) = Some al0 ->
        TaskbarAllocation.allocation al0 = Some es0 ->
        ~ In r (map fst es0) ->
        exists al2,
          Taskbar.allocation
            (TaskbarMore.base
               (fst (TaskbarMore.handleDestroy
                       (fst (TaskbarMore.handleMapped t0
                               (Some (TaskbarMore.Child r))))
                       (Some (TaskbarMore.Child r))))) = Some al2
          /\ TaskbarAllocation.allocation al2 = Some es0).
Proof.
  assert (Hsame : forall o, sameRef (Some r) o = true <-> o = Some r).
  { intros [r'|]; simpl; [|split; discriminate].
    rewrite Nat.eqb_eq. split; [now intros -> | now intros [= ->]]. }
  cbn [TaskbarMore.handleDestroy fst snd TaskbarMore.activeAppButton
       TaskbarMore.scrollLock TaskbarMore.base].
  split; [|split; [|split; [|split; [|split; [|split; [|split; [|split]]]]]]].
  - destruct (sameRef (Some r) (TaskbarMore.activeAppButton t0)) eqn:E;
      [discriminate|]. intros H. apply Hsame in H. congruence.
  - destruct (sameRef (Some r) (TaskbarMore.scrollLock t0)) eqn:E;
      [discriminate|]. intros H. apply Hsame in H. congruence.
  - intros al es. simpl.
    destruct (Taskbar.allocation (TaskbarMore.base t0)) as [al0|]; [|discriminate].
    simpl. intros [= <-]. unfold TaskbarAllocation.remove.
    destruct (TaskbarAllocation.allocation al0) as [e|] eqn:Hal;
      [|intros H; rewrite Hal in H; discriminate].
    destruct (Js.mapHas Nat.eqb e r) eqn:Hh.
    + simpl. intros [= <-]. split; [apply mapGet_deleted|].
      intros r' Hne al1 es0 [= <-]. rewrite Hal. intros [= <-].
      rewrite (mapGet_mapDelete nat_eqb_eq).
      assert (E : Nat.eqb r r' = false) by (apply Nat.eqb_neq; congruence).
      now rewrite E.
    + rewrite Hal. intros [= <-]. split.
      * apply (mapHas_false nat_eqb_eq) in Hh.
        destruct (Js.mapGet Nat.eqb e r) as [w|] eqn:Hg; [|reflexivity].
        exfalso. apply Hh. clear -Hg.
        induction e as [|[k v] e IH]; simpl in *; [discriminate|].
        destruct (Nat.eqb r k) eqn:E.
        -- left. apply Nat.eqb_eq in E. now subst.
        -- right. now apply IH.
      * intros r' _ al1 es0 [= <-]. rewrite Hal. now intros [= <-].
  - intros H. destruct (sameRef (Some r) (TaskbarMore.activeAppButton t0)) eqn:E;
      [|reflexivity]. apply Hsame in E. contradiction.
  - intros H. destruct (sameRef (Some r) (TaskbarMore.scrollLock t0)) eqn:E;
      [|reflexivity]. apply Hsame in E. contradiction.
  - reflexivity.
  - reflexivity.
  - reflexivity.
  - intros al0 es0 Hv Hal Hes Hfresh. unfold TaskbarMore.handleMapped.
    rewrite Hv, Hal. cbn [negb option_map TaskbarMore.base fst
                          TaskbarMore.setAllocation Taskbar.allocation].
    eexists. split; [reflexivity|].
    unfold TaskbarAllocation.add. rewrite Hes.
    destruct (option_map rect (Heap.get (Taskbar.heap (TaskbarMore.base t0)) r))
      as [[q|]|].
    + unfold TaskbarAllocation.remove. cbn [TaskbarAllocation.allocation].
      assert (E : Js.mapHas Nat.eqb (Js.mapSet Nat.eqb es0 r (width q)) r = true).
      { apply (mapHas_In nat_eqb_eq). rewrite mapSet_keys.
        destruct (Js.mapHas Nat.eqb es0 r) eqn:E';
          [now apply (mapHas_In nat_eqb_eq)|].
        apply in_or_app. right. now left. }
      rewrite E. cbn [TaskbarAllocation.allocation].
      now rewrite (mapDelete_mapSet nat_eqb_eq), (mapDelete_fresh nat_eqb_eq).
    + unfold TaskbarAllocation.remove. rewrite Hes.
      apply (mapHas_false nat_eqb_eq) in Hfresh. now rewrite Hfresh.
    + unfold TaskbarAllocation.remove. rewrite Hes.
      apply (mapHas_false nat_eqb_eq) in Hfresh. now rewrite Hfresh.
Qed.

(** X24. After [#handleDestroy] for the taskbar itself nothing is left
    to do: the candidate of a drag in progress is invalid, the taskbar
    holds no allocation, service, button map, handler, separator, active
    button or scroll lock, every later notification is ignored, and
    [#rerender], [#handleDragOver], [#handleDrop] and [#handleDragEnd]
    change nothing when they are still called. *)
Theorem taskbar_destroy_inert (t0 : TaskbarMore.t) :
  let t' := fst (TaskbarMore.handleDestroy t0 (Some TaskbarMore.Self)) in
  (forall d c, Taskbar.dndHandler (TaskbarMore.base t0) = Some d ->
               DragAndDropHandler.candidate d = Some c ->
               Heap.valid (Taskbar.heap (TaskbarMore.base t')) c = false)
  /\ (forall r, Heap.valid (Taskbar.heap (TaskbarMore.base t')) r = true ->
                Heap.valid (Taskbar.heap (TaskbarMore.base t0)) r = true)
  /\ Taskbar.allocation (TaskbarMore.base t') = None
  /\ Taskbar.service (TaskbarMore.base t') = None
  /\ Taskbar.appButtons (TaskbarMore.base t') = None
  /\ Taskbar.dndHandler (TaskbarMore.base t') = None
  /\ Taskbar.separator (TaskbarMore.base t') = None
  /\ TaskbarMore.activeAppButton t' = None
  /\ TaskbarMore.scrollLock t' = None
  /\ (forall n, TaskbarMore.notify t' n = (t', [], None))
  /\ (forall tk, Taskbar.rerender tk (TaskbarMore.base t') = TaskbarMore.base t')
  /\ (forall tk payload params,
        Taskbar.handleDragOver tk (TaskbarMore.base t') payload params
        = (TaskbarMore.base t', None))
  /\ Taskbar.handleDrop (TaskbarMore.base t') = (TaskbarMore.base t', false)
  /\ Taskbar.handleDragEnd (TaskbarMore.base t') = TaskbarMore.base t'.
Proof.
  cbn [TaskbarMore.handleDestroy]. unfold TaskbarMore.destroy. cbv zeta.
  cbn [fst TaskbarMore.base TaskbarMore.activeAppButton TaskbarMore.scrollLock
       Taskbar.allocation Taskbar.service Taskbar.appButtons Taskbar.dndHandler
       Taskbar.separator Taskbar.heap].
  set (b1 := TaskbarMore.setAllocation (TaskbarMore.base t0) _).
  set (b2 := match Taskbar.dndHandler b1 with Some _ => _ | None => _ end).
  assert (Hheap : Taskbar.heap b2
                  = match Taskbar.dndHandler (TaskbarMore.base t0) with
                    | Some d => Heap.destroyOpt (Taskbar.heap (TaskbarMore.base t0))
                                  (DragAndDropHandler.candidate d)
                    | None => Taskbar.heap (TaskbarMore.base t0)
                    end).
  { unfold b2, b1, TaskbarMore.setAllocation. cbn [Taskbar.dndHandler].
    destruct (Taskbar.dndHandler (TaskbarMore.base t0)) as [d|]; [|reflexivity].
    unfold DragAndDropHandler.destroy, Taskbar.handleDragEnd,
      Taskbar.setDndHandler, Taskbar.setHeap.
    destruct (DragAndDropHandler.destroyCallback d); [|reflexivity].
    cbn [Taskbar.allocation Taskbar.valid Taskbar.heap].
    destruct (option_map TaskbarAllocationMore.destroy
                (Taskbar.allocation (TaskbarMore.base t0))); [|reflexivity].
    destruct (negb (Taskbar.valid (TaskbarMore.base t0))); reflexivity. }
  rewrite Hheap.
  split; [|split].
  - intros d c Hd Hc. rewrite Hd, Hc. apply valid_destroy_same.
  - intros r. destruct (Taskbar.dndHandler (TaskbarMore.base t0)) as [d|];
      [|auto].
    destruct (DragAndDropHandler.candidate d) as [c|]; [|auto]. simpl.
    intros Hv. destruct (Heap.valid (Taskbar.heap (TaskbarMore.base t0)) r) eqn:E;
      [reflexivity|].
    now rewrite (valid_destroy_false _ c r E) in Hv.
  - do 7 (split; [reflexivity|]).
    split; [intros n; reflexivity|].
    split; [intros tk; reflexivity|].
    split; [intros tk [pl|] [xy|]; reflexivity|].
    split; reflexivity.
Qed.

(** ** Taskbar: the reactions of the children *)

(** X25. A reaction of a valid child on a valid taskbar.  Afterwards the
    child holds the scroll lock exactly when it is hovered, and it is
    the active button exactly when it is a button that is active.  The
    taskbar scrolls at most once, to the reacting child and without
    deceleration exactly when the child is hovered, and only when no
    other child holds the lock and the child is active, hovered or
    focused; a child that is not hovered never takes or breaks the lock
    of another child.  A reaction of an invalid child changes nothing. *)
Theorem handleChildReaction_lock (vp : Viewport) (t0 : TaskbarMore.t) (c : Ref)
        (rc : TaskbarMore.Reaction) :
  let h := Taskbar.heap (TaskbarMore.base t0) in
  let isAppButton := match Heap.app h c with Some _ => true | None => false end in
  let hover := if isAppButton then TaskbarMore.hasHover rc
               else TaskbarMore.actorHover rc in
  let active := isAppButton && TaskbarMore.isActive rc in
  let focus := isAppButton && TaskbarMore.hasFocus rc in
  let res := TaskbarMore.handleChildReaction vp t0 (Some c) rc in
  let t' := fst (fst res) in
  let scrolls := filter (fun a => match a with
                                  | TaskbarMore.ScrollToActor _ _ => true
                                  | _ => false
                                  end) (snd (fst res)) in
  (Taskbar.valid (TaskbarMore.base t0) = true -> Heap.valid h c = true ->
   (TaskbarMore.scrollLock t' = Some c <-> hover = true)
   /\ (TaskbarMore.activeAppButton t' = Some c <-> active = true)
   /\ (forall l, TaskbarMore.scrollLock t0 = Some l -> l <> c -> hover = false ->
         TaskbarMore.scrollLock t' = Some l /\ scrolls = [])
   /\ (scrolls = []
       \/ (scrolls = [TaskbarMore.ScrollToActor c (negb hover)]
           /\ (TaskbarMore.scrollLock t' = None
               \/ TaskbarMore.scrollLock t' = Some c)
           /\ (active = true \/ hover = true \/ focus = true)))
   /\ Taskbar.heap (TaskbarMore.base t') = h
   /\ Taskbar.appButtons (TaskbarMore.base t')
      = Taskbar.appButtons (TaskbarMore.base t0))
  /\ (Taskbar.valid (TaskbarMore.base t0) = false \/ Heap.valid h c = false ->
      res = (t0, [], None)).
Proof.
  intros h isAppButton hover active focus res t' scrolls.
  assert (Hsame : forall o, sameRef (Some c) o = true <-> o = Some c).
  { intros [r'|]; simpl; [|split; discriminate].
    rewrite Nat.eqb_eq. split; [now intros -> | now intros [= ->]]. }
  assert (Hscroll : forall t1 d,
            let r := TaskbarMore.scrollToActor vp t1 c d in
            filter (fun a => match a with
                             | TaskbarMore.ScrollToActor _ _ => true
                             | _ => false
                             end) (snd (fst r))
            = [TaskbarMore.ScrollToActor c d]
            /\ TaskbarMore.scrollLock (fst (fst r)) = TaskbarMore.scrollLock t1
            /\ TaskbarMore.activeAppButton (fst (fst r))
               = TaskbarMore.activeAppButton t1
            /\ Taskbar.heap (TaskbarMore.base (fst (fst r)))
               = Taskbar.heap (TaskbarMore.base t1)
            /\ Taskbar.appButtons (TaskbarMore.base (fst (fst r)))
               = Taskbar.appButtons (TaskbarMore.base t1)).
  { intros t1 d. unfold TaskbarMore.scrollToActor.
    destruct (Taskbar.allocation (TaskbarMore.base t1)) as [al|];
      [|repeat split].
    destruct (TaskbarAllocation.isUpdating al); [|repeat split].
    destruct (TaskbarAllocation.update vp (Taskbar.heap (TaskbarMore.base t1)) al)
      as [[al1 effects] pending].
    cbn [fst snd app filter]. split; [|repeat split].
    f_equal. induction effects as [|e es IH]; [reflexivity | exact IH]. }
  split.
  2:{ intros Hor. subst res. unfold TaskbarMore.handleChildReaction. fold h.
      destruct Hor as [-> | ->]; [reflexivity|]. now rewrite orb_true_r. }
  intros Hv Hc. subst res t' scrolls.
  unfold TaskbarMore.handleChildReaction. fold h. rewrite Hv, Hc.
  cbn [negb orb]. fold isAppButton. cbv zeta.
  assert (Ha : (if isAppButton then TaskbarMore.isActive rc else false) = active)
    by (unfold active; now destruct isAppButton).
  assert (Hf : (if isAppButton then TaskbarMore.hasFocus rc else false) = focus)
    by (unfold focus; now destruct isAppButton).
  rewrite Ha, Hf. fold hover.
  assert (Hai : active && isAppButton = active)
    by (unfold active; now destruct isAppButton, (TaskbarMore.isActive rc)).
  rewrite Hai.
  set (active1 := if active then Some c
                  else if sameRef (Some c) (TaskbarMore.activeAppButton t0)
                       then None else TaskbarMore.activeAppButton t0).
  set (lock1 := if hover then Some c
                else if sameRef (Some c) (TaskbarMore.scrollLock t0)
                     then None else TaskbarMore.scrollLock t0).
  match goal with
  | |- context [if ?b then [TaskbarMore.ScheduleScrollToActive] else []] =>
      set (scheduled := if b then [TaskbarMore.ScheduleScrollToActive] else [])
  end.
  assert (Hlock1 : lock1 = Some c <-> hover = true).
  { unfold lock1. destruct hover; [tauto|].
    destruct (sameRef (Some c) (TaskbarMore.scrollLock t0)) eqn:E;
      [split; discriminate|].
    split; [|discriminate]. intros H. apply Hsame in H. congruence. }
  assert (Hact1 : active1 = Some c <-> active = true).
  { unfold active1. destruct active; [tauto|].
    destruct (sameRef (Some c) (TaskbarMore.activeAppButton t0)) eqn:E;
      [split; discriminate|].
    split; [|discriminate]. intros H. apply Hsame in H. congruence. }
  assert (Hsched : filter (fun a => match a with
                                    | TaskbarMore.ScrollToActor _ _ => true
                                    | _ => false
                                    end) scheduled = []).
  { unfold scheduled.
    match goal with |- context [if ?b then _ else _] => now destruct b end. }
  assert (Hkeep : forall l, TaskbarMore.scrollLock t0 = Some l -> l <> c ->
                            hover = false -> lock1 = Some l).
  { intros l Hl Hne Hh. unfold lock1. rewrite Hh, Hl. simpl.
    assert (E : Nat.eqb c l = false) by (apply Nat.eqb_neq; congruence).
    now rewrite E. }
  destruct (match lock1 with Some l => negb (Nat.eqb l c) | None => false end)
    eqn:Hlocked.
  - cbn [fst snd TaskbarMore.scrollLock TaskbarMore.activeAppButton
         TaskbarMore.base filter]. rewrite Hsched.
    split; [exact Hlock1|]. split; [exact Hact1|].
    split; [intros l Hl Hne Hh; split; [now apply Hkeep | reflexivity]|].
    split; [now left|]. split; reflexivity.
  - assert (Hfree : lock1 = None \/ lock1 = Some c).
    { destruct lock1 as [l|]; [right | now left].
      apply negb_false_iff, Nat.eqb_eq in Hlocked. now subst. }
    destruct (negb active && negb hover && negb focus) eqn:Hidle.
    + cbn [fst snd TaskbarMore.scrollLock TaskbarMore.activeAppButton
           TaskbarMore.base filter]. rewrite Hsched.
      split; [exact Hlock1|]. split; [exact Hact1|].
      split; [intros l Hl Hne Hh; split; [now apply Hkeep | reflexivity]|].
      split; [now left|]. split; reflexivity.
    + destruct (Hscroll (TaskbarMore.mk (TaskbarMore.base t0) active1 lock1
                           (TaskbarMore.events t0)) (negb hover))
        as [Hs [Hl [Hact [Hh Hab]]]].
      destruct (TaskbarMore.scrollToActor vp
                  (TaskbarMore.mk (TaskbarMore.base t0) active1 lock1
                     (TaskbarMore.events t0)) c (negb hover))
        as [[t2 actions] pending].
      cbn [fst snd] in *. cbn [filter]. rewrite filter_app, Hsched, Hs.
      cbn [app]. rewrite Hl, Hact. cbn [TaskbarMore.scrollLock
                                        TaskbarMore.activeAppButton].
      split; [exact Hlock1|]. split; [exact Hact1|].
      split.
      { intros l Hl0 Hne Hh0. exfalso.
        rewrite (Hkeep l Hl0 Hne Hh0) in Hfree.
        destruct Hfree as [H | H]; congruence. }
      split.
      { right. split; [reflexivity|]. split; [exact Hfree|].
        destruct active, hover, focus; simpl in Hidle; auto; discriminate. }
      split; [exact Hh | exact Hab].
Qed.

Lemma handleChildReaction_lock_witness :
  TaskbarMore.scrollLock
    (fst (fst (TaskbarMore.handleChildReaction Samples.viewport
                 (TaskbarMore.mk Samples.idle None None true) (Some 1)
                 (TaskbarMore.mkReaction false false true false)))) = Some 1
  <-> (if match Heap.app (Taskbar.heap Samples.idle) 1 with
          | Some _ => true
          | None => false
          end
       then TaskbarMore.hasHover (TaskbarMore.mkReaction false false true false)
       else TaskbarMore.actorHover (TaskbarMore.mkReaction false false true false))
      = true.
Proof.
  apply (proj1 (handleChildReaction_lock Samples.viewport
                  (TaskbarMore.mk Samples.idle None None true) 1
                  (TaskbarMore.mkReaction false false true false))).
  - reflexivity.
  - reflexivity.
Defined.

(** ** utils/config.js: Config *)

Lemma string_eqb_eq (a b : String.string) : String.eqb a b = true <-> a = b.
Proof. apply String.eqb_eq. Qed.

(** What the loop of [Config] has built after the fields [done]. *)
Lemma declare_fold (settings : ConfigJs.Settings) (isAfter : bool)
      (todo : list (String.string * option String.string)) :
  forall (done : list (String.string * option String.string)) (l : ConfigJs.Locals),
  NoDup (map fst (done ++ todo)) ->
  (forall k f, Js.mapGet String.eqb (ConfigJs.valueMapping l) k = Some f ->
               In (f, Some k) done
               /\ String.prefix ConfigJs.DUMMY_FIELD_PREFIX k = false) ->
  (forall f, In f (map fst (ConfigJs.values l)) <-> exists k, In (f, Some k) done) ->
  (forall f k, In (f, Some k) done ->
               Js.mapGet String.eqb (ConfigJs.values l) f
               = Some (if String.prefix ConfigJs.DUMMY_FIELD_PREFIX k then None
                       else settings k)) ->
  let l' := fold_left (ConfigJs.declare settings isAfter) todo l in
  (forall k f, Js.mapGet String.eqb (ConfigJs.valueMapping l') k = Some f ->
               In (f, Some k) (done ++ todo)
               /\ String.prefix ConfigJs.DUMMY_FIELD_PREFIX k = false)
  /\ (forall f, In f (map fst (ConfigJs.values l'))
                <-> exists k, In (f, Some k) (done ++ todo))
  /\ (forall f k, In (f, Some k) (done ++ todo) ->
                  Js.mapGet String.eqb (ConfigJs.values l') f
                  = Some (if String.prefix ConfigJs.DUMMY_FIELD_PREFIX k then None
                          else settings k)).
Proof.
  induction todo as [|[f0 [k0|]] todo IH]; intros done l Hnd Hm Hk Hv; cbn [fold_left].
  - rewrite app_nil_r. auto.
  - replace (done ++ (f0, Some k0) :: todo) with ((done ++ [(f0, Some k0)]) ++ todo)
      in * by (now rewrite <- app_assoc).
    assert (Hfresh : ~ In f0 (map fst done)).
    { rewrite <- app_assoc in Hnd. rewrite map_app in Hnd. simpl in Hnd.
      apply NoDup_remove_2 in Hnd. intros H. apply Hnd. apply in_or_app. now left. }
    assert (Hlast : forall f k, In (f, Some k) (done ++ [(f0, Some k0)])
                                <-> In (f, Some k) done \/ (f = f0 /\ k = k0)).
    { intros f k. rewrite in_app_iff. simpl. split.
      - intros [H | [[= -> ->] | []]]; auto.
      - intros [H | [-> ->]]; auto. }
    assert (Hother : forall f k, In (f, Some k) done -> String.eqb f f0 = false).
    { intros f k Hin. destruct (String.eqb f f0) eqn:E; [|reflexivity].
      apply string_eqb_eq in E. subst. exfalso. apply Hfresh.
      apply in_map_iff. exists (f0, Some k). auto. }
    assert (Hkeys : forall v f,
              In f (map fst (Js.mapSet String.eqb (ConfigJs.values l) f0 v))
              <-> exists k, In (f, Some k) (done ++ [(f0, Some k0)])).
    { intros v f. rewrite mapSet_keys.
      assert (E : Js.mapHas String.eqb (ConfigJs.values l) f0 = false).
      { apply (mapHas_false string_eqb_eq). rewrite Hk. intros [k Hin].
        apply Hfresh. apply in_map_iff. exists (f0, Some k). auto. }
      rewrite E, in_app_iff, Hk. simpl. split.
      - intros [[k Hin] | [<- | []]].
        + exists k. apply Hlast. now left.
        + exists k0. apply Hlast. now right.
      - intros [k Hin]. apply Hlast in Hin. destruct Hin as [Hin | [-> _]].
        + left. now exists k.
        + right. now left. }
    assert (Hvals : forall v f k,
              v = (if String.prefix ConfigJs.DUMMY_FIELD_PREFIX k0 then None
                   else settings k0) ->
              In (f, Some k) (done ++ [(f0, Some k0)]) ->
              Js.mapGet String.eqb (Js.mapSet String.eqb (ConfigJs.values l) f0 v) f
              = Some (if String.prefix ConfigJs.DUMMY_FIELD_PREFIX k then None
                      else settings k)).
    { intros v f k Hveq Hin. rewrite (mapGet_mapSet string_eqb_eq).
      apply Hlast in Hin. destruct Hin as [Hin | [-> ->]].
      - rewrite (Hother f k Hin). now apply Hv.
      - rewrite String.eqb_refl. now rewrite Hveq. }
    unfold ConfigJs.declare at 2 4 6. cbn [snd fst].
    destruct (String.prefix ConfigJs.DUMMY_FIELD_PREFIX k0) eqn:Hp.
    + apply IH; cbn [ConfigJs.values ConfigJs.valueMapping]; try assumption.
      * intros k f Hg. destruct (Hm k f Hg) as [Hin Hpk]. split; [|exact Hpk].
        apply Hlast. now left.
      * apply Hkeys.
      * intros f k. apply Hvals. reflexivity.
    + apply IH; cbn [ConfigJs.values ConfigJs.valueMapping]; try assumption.
      * intros k f. rewrite (mapGet_mapSet string_eqb_eq).
        destruct (String.eqb k k0) eqn:E.
        -- apply string_eqb_eq in E. subst k. intros [= <-].
           split; [apply Hlast; now right | exact Hp].
        -- intros Hg. destruct (Hm k f Hg) as [Hin Hpk]. split; [|exact Hpk].
           apply Hlast. now left.
      * apply Hkeys.
      * intros f k. apply Hvals. reflexivity.
  - replace (done ++ (f0, None) :: todo) with ((done ++ [(f0, None)]) ++ todo)
      in * by (now rewrite <- app_assoc).
    assert (Hlast : forall f k, In (f, Some k) (done ++ [(f0, None)])
                                <-> In (f, Some k) done).
    { intros f k. rewrite in_app_iff. simpl. split.
      - intros [H | [H | []]]; [exact H | discriminate H].
      - auto. }
    unfold ConfigJs.declare at 2 4 6. cbn [snd].
    apply IH; try assumption.
    + intros k f Hg. destruct (Hm k f Hg) as [Hin Hpk]. split; [|exact Hpk].
      now apply Hlast.
    + intros f. rewrite Hk. split; intros [k Hin]; exists k; now apply Hlast.
    + intros f k Hin. apply Hv. now apply Hlast.
Qed.



(** ** utils/config.js: SharedConfig *)

Lemma mapHas_mapDelete (m : list (nat * option nat)) (c c' : nat) :
  Js.mapHas Nat.eqb (Js.mapDelete Nat.eqb m c) c'
  = negb (Nat.eqb c c') && Js.mapHas Nat.eqb m c'.
Proof.
  induction m as [|[k v] m IH]; simpl.
  - now rewrite andb_false_r.
  - destruct (Nat.eqb c k) eqn:E; simpl.
    + rewrite IH. apply Nat.eqb_eq in E. subst k.
      destruct (Nat.eqb c c') eqn:E'; simpl; [reflexivity|].
      assert (E2 : Nat.eqb c' c = false).
      { apply Nat.eqb_neq. apply Nat.eqb_neq in E'. congruence. }
      now rewrite E2.
    + unfold Js.mapHas in *. simpl. rewrite IH.
      destruct (Nat.eqb c' k) eqn:E'; simpl; [|reflexivity].
      apply Nat.eqb_eq in E'. subst k. now rewrite E.
Qed.

(** X27. [destroy(client)] of a [SharedConfig] answers true exactly
    when no client list is left afterwards, which is when the list was
    gone already or the client was the last one on it.  The client is
    never registered afterwards and the other clients keep their
    registration and their details.  Once the list is gone the object
    does nothing any more: no client is known, [getConfig] answers
    [null] and registers nobody, no callback is called and a further
    [destroy] answers true.  An object on whose list the client is not
    found, an empty list included, is left as it is with the answer
    false. *)
Theorem SharedConfig_destroy (s : ConfigJs.SharedConfig.t) (client : nat) :
  let s' := fst (ConfigJs.SharedConfig.destroy s client) in
  let answer := snd (ConfigJs.SharedConfig.destroy s client) in
  (answer = true <-> ConfigJs.SharedConfig.clients s' = None)
  /\ (answer = true <->
      ConfigJs.SharedConfig.clients s = None
      \/ exists cl d, ConfigJs.SharedConfig.clients s = Some cl
                      /\ In (client, d) cl
                      /\ forall e, In e cl -> fst e = client)
  /\ ConfigJs.SharedConfig.hasClient s' client = false
  /\ (forall c cl cl', c <> client ->
        ConfigJs.SharedConfig.clients s = Some cl ->
        ConfigJs.SharedConfig.clients s' = Some cl' ->
        Js.mapGet Nat.eqb cl' c = Js.mapGet Nat.eqb cl c)
  /\ (ConfigJs.SharedConfig.clients s' = None ->
      (forall c, ConfigJs.SharedConfig.hasClient s' c = false)
      /\ (forall c cb, ConfigJs.SharedConfig.getConfig s' c cb
                       = (s', ConfigJs.SharedConfig.config s'))
      /\ (ConfigJs.SharedConfig.clients s <> None ->
          ConfigJs.SharedConfig.config s' = None)
      /\ (forall key, ConfigJs.SharedConfig.handleConfig s' key = [])
      /\ forall c, ConfigJs.SharedConfig.destroy s' c = (s', true))
  /\ (forall cl, ConfigJs.SharedConfig.clients s = Some cl ->
        ~ In client (map fst cl) -> s' = s /\ answer = false).
Proof.
  unfold ConfigJs.SharedConfig.destroy, ConfigJs.SharedConfig.hasClient.
  destruct (ConfigJs.SharedConfig.clients s) as [cl|] eqn:Hcl.
  2:{ cbn [fst snd]. rewrite Hcl.
      split; [tauto|]. split; [split; auto|]. split; [reflexivity|].
      split; [discriminate|]. split; [|discriminate].
      intros _. unfold ConfigJs.SharedConfig.getConfig,
        ConfigJs.SharedConfig.handleConfig, ConfigJs.SharedConfig.destroy.
      rewrite Hcl. split; [reflexivity|].
      split; [intros [c|] cb; reflexivity|].
      split; [intros N; now contradiction N|]. split; reflexivity. }
  destruct (Js.mapHas Nat.eqb cl client) eqn:Hhas; cbn [negb].
  - assert (Hin : exists d, In (client, d) cl).
    { apply (mapHas_In nat_eqb_eq) in Hhas. apply in_map_iff in Hhas.
      destruct Hhas as [[k d] [Hk Hin]]. simpl in Hk. subst k. now exists d. }
    destruct (Js.mapDelete Nat.eqb cl client) as [|e rest] eqn:Hdel; cbn [fst snd
      ConfigJs.SharedConfig.clients ConfigJs.SharedConfig.config].
    + split; [tauto|]. split.
      { split; [|reflexivity]. intros _. right. destruct Hin as [d Hin].
        exists cl, d. split; [reflexivity|]. split; [exact Hin|].
        intros [k v] He. simpl.
        destruct (Nat.eq_dec k client) as [-> | Hne]; [reflexivity|]. exfalso.
        assert (Hf : In (k, v) (Js.mapDelete Nat.eqb cl client)).
        { unfold Js.mapDelete. apply filter_In. split; [exact He|]. simpl.
          apply negb_true_iff, Nat.eqb_neq. congruence. }
        rewrite Hdel in Hf. contradiction. }
      split; [reflexivity|]. split; [discriminate|]. split.
      { intros _. unfold ConfigJs.SharedConfig.getConfig,
          ConfigJs.SharedConfig.handleConfig, ConfigJs.SharedConfig.destroy.
        cbn [ConfigJs.SharedConfig.clients ConfigJs.SharedConfig.config].
        split; [reflexivity|]. split; [intros [c|] cb; reflexivity|].
        split; [reflexivity|]. split; reflexivity. }
      intros cl0 [= <-] Hno. exfalso. apply Hno.
      now apply (mapHas_In nat_eqb_eq).
    + split; [split; discriminate|]. split.
      { split; [discriminate|]. intros [N | [cl0 [d [[= <-] [_ Hall]]]]];
          [discriminate|]. exfalso.
        assert (He : In e (Js.mapDelete Nat.eqb cl client))
          by (rewrite Hdel; now left).
        unfold Js.mapDelete in He. apply filter_In in He. destruct He as [He Hne].
        rewrite (Hall e He), Nat.eqb_refl in Hne. discriminate. }
      split.
      { rewrite <- Hdel, mapHas_mapDelete, Nat.eqb_refl. reflexivity. }
      split.
      { intros c cl0 cl' Hne [= <-] [= <-]. rewrite <- Hdel.
        rewrite (mapGet_mapDelete nat_eqb_eq).
        assert (E : Nat.eqb client c = false) by (apply Nat.eqb_neq; congruence).
        now rewrite E. }
      split; [discriminate|].
      intros cl0 [= <-] Hno. exfalso. apply Hno.
      now apply (mapHas_In nat_eqb_eq).
  - cbn [fst snd]. rewrite Hcl, Hhas.
    split; [split; discriminate|]. split.
    { split; [discriminate|]. intros [N | [cl0 [d [[= <-] [Hin _]]]]];
        [discriminate|]. exfalso.
      apply (mapHas_false nat_eqb_eq) in Hhas. apply Hhas.
      apply in_map_iff. exists (client, d). auto. }
    split; [reflexivity|]. split; [now intros c cl0 cl' _ [= <-] [= <-]|].
    split; [discriminate|]. auto.
Qed.

(** ** services/taskbar/windowRouter.js *)

(** X28. [route] settles: when it asks for a move, the monitor or the
    workspace of the window is not the target, the request names the
    target monitor and the workspace of the window info as it is, and
    the monitor of the window info is forgotten; called again for the
    window where the request put it, [route] asks for nothing.  A window
    on a monitor or a workspace below zero is never moved, and a window
    whose info names no monitor is moved only to a workspace above its
    own. *)
Theorem route_settles (monitors : list (String.string * Z))
        (info : WindowRouter.WindowInfo) (windowMonitor windowWorkspace : Z) :
  let res := WindowRouter.route monitors info windowMonitor windowWorkspace in
  match snd res with
  | Some (targetMonitor, target) =>
      (0 <= windowMonitor)%Z /\ (0 <= windowWorkspace)%Z
      /\ target = WindowRouter.workspace info
      /\ WindowRouter.monitor (fst res) = None
      /\ WindowRouter.workspace (fst res) = WindowRouter.workspace info
      /\ (targetMonitor <> windowMonitor
          \/ exists w, target = Some w /\ (windowWorkspace < w)%Z)
      /\ (WindowRouter.monitor info = None ->
          targetMonitor = windowMonitor
          /\ exists w, target = Some w /\ (windowWorkspace < w)%Z)
      /\ (forall w, target = Some w ->
            WindowRouter.route monitors (fst res) targetMonitor w = (fst res, None))
  | None => fst res = info
  end.
Proof.
  unfold WindowRouter.route.
  destruct ((windowMonitor <? 0) || (windowWorkspace <? 0))%Z eqn:Hneg;
    [reflexivity|].
  apply orb_false_iff in Hneg. destruct Hneg as [H1 H2].
  apply Z.ltb_ge in H1. apply Z.ltb_ge in H2.
  set (tm := match WindowRouter.monitor info with
             | Some m => match Js.mapGet String.eqb monitors m with
                         | Some i => i
                         | None => windowMonitor
                         end
             | None => windowMonitor
             end).
  set (tw := match WindowRouter.workspace info with
             | Some w => if (w >? windowWorkspace)%Z then w else windowWorkspace
             | None => windowWorkspace
             end).
  destruct ((windowMonitor =? tm) && (windowWorkspace =? tw))%Z eqn:Hsame;
    [reflexivity|].
  cbn [fst snd WindowRouter.monitor WindowRouter.workspace].
  assert (Hmove : tm <> windowMonitor
                  \/ exists w, WindowRouter.workspace info = Some w
                               /\ (windowWorkspace < w)%Z).
  { apply andb_false_iff in Hsame. destruct Hsame as [E | E].
    - left. apply Z.eqb_neq in E. congruence.
    - right. apply Z.eqb_neq in E. unfold tw in E.
      destruct (WindowRouter.workspace info) as [w|]; [|congruence].
      destruct (w >? windowWorkspace)%Z eqn:G; [|congruence].
      exists w. split; [reflexivity|]. apply Z.gtb_gt in G. lia. }
  split; [exact H1|]. split; [exact H2|]. split; [reflexivity|].
  split; [reflexivity|]. split; [reflexivity|]. split; [exact Hmove|].
  split.
  - intros Hm. unfold tm in *. rewrite Hm in *.
    split; [reflexivity|]. destruct Hmove as [N | H]; [now contradiction N | exact H].
  - intros w Hw. rewrite Hw.
    destruct ((tm <? 0) || (w <? 0))%Z; [reflexivity|].
    assert (E : (w >? w)%Z = false) by (rewrite Z.gtb_ltb; apply Z.ltb_irrefl).
    rewrite E, !Z.eqb_refl. reflexivity.
Qed.

Lemma monitorsByIndex_In (monitors : list (String.string * Z)) :
  forall (acc : list (Z * String.string)) (i : Z) (d : String.string),
  Js.mapGet Z.eqb
    (fold_left (fun result e => Js.mapSet Z.eqb result (snd e) (fst e)) monitors acc)
    i = Some d ->
  Js.mapGet Z.eqb acc i = Some d \/ In (d, i) monitors.
Proof.
  induction monitors as [|[d0 i0] ms IH]; intros acc i d; cbn [fold_left];
    [now left|].
  intros H. apply IH in H. destruct H as [H | H]; [|right; now right].
  cbn [fst snd] in H.
  assert (Hz : forall a b, Z.eqb a b = true <-> a = b) by apply Z.eqb_eq.
  rewrite (mapGet_mapSet Hz) in H.
  destruct (Z.eqb i i0) eqn:E; [|now left].
  injection H as <-. apply Z.eqb_eq in E. subst. right. now left.
Qed.

(** With a monitor map that sends the noted monitor of a window to the
    monitor where the window is, only the workspace can make [route]
    ask for a move. *)
Lemma route_known_monitor (monitors : list (String.string * Z))
      (info : WindowRouter.WindowInfo) (windowMonitor windowWorkspace : Z) :
  NoDup (map fst monitors) ->
  (forall d, WindowRouter.monitor info = Some d -> In (d, windowMonitor) monitors) ->
  match snd (WindowRouter.route monitors info windowMonitor windowWorkspace) with
  | Some (targetMonitor, target) =>
      targetMonitor = windowMonitor
      /\ exists w, WindowRouter.workspace info = Some w
                   /\ target = Some w /\ (windowWorkspace < w)%Z
  | None => True
  end.
Proof.
  intros Hnd Hmon. unfold WindowRouter.route.
  destruct ((windowMonitor <? 0) || (windowWorkspace <? 0))%Z; [exact I|].
  assert (Htm : match WindowRouter.monitor info with
                | Some m => match Js.mapGet String.eqb monitors m with
                            | Some i => i
                            | None => windowMonitor
                            end
                | None => windowMonitor
                end = windowMonitor).
  { destruct (WindowRouter.monitor info) as [d|]; [|reflexivity].
    now rewrite (mapGet_NoDup_In string_eqb_eq monitors d windowMonitor Hnd
                   (Hmon d eq_refl)). }
  rewrite Htm, Z.eqb_refl. cbn [andb].
  destruct (WindowRouter.workspace info) as [w|]; [|now rewrite Z.eqb_refl].
  destruct (w >? windowWorkspace)%Z eqn:G; [|now rewrite Z.eqb_refl].
  destruct (windowWorkspace =? w)%Z eqn:E; [exact I|].
  cbn [snd]. split; [reflexivity|]. exists w.
  split; [reflexivity|]. split; [reflexivity|]. apply Z.gtb_gt in G. lia.
Qed.

(** X29. Saving and routing with the same monitors moves no window to
    another monitor: after [#saveWindows] has noted the monitor of a
    window, [route] with the monitor map unchanged finds the monitor of
    the window as the target, so it asks for a move only to a workspace
    above that of the window, on the monitor where the window is. *)
Theorem saveWindow_route_same_monitor (monitors : list (String.string * Z))
        (info : WindowRouter.WindowInfo) (focus : bool)
        (windowMonitor windowWorkspace : Z) :
  NoDup (map fst monitors) ->
  1 < length monitors ->
  let saved := WindowRouter.saveWindow monitors info focus windowMonitor in
  WindowRouter.hasFocus saved = focus
  /\ WindowRouter.workspace saved = WindowRouter.workspace info
  /\ (forall d, WindowRouter.monitor saved = Some d -> In (d, windowMonitor) monitors)
  /\ match snd (WindowRouter.route monitors saved windowMonitor windowWorkspace) with
     | Some (targetMonitor, target) =>
         targetMonitor = windowMonitor
         /\ exists w, WindowRouter.workspace info = Some w
                      /\ target = Some w /\ (windowWorkspace < w)%Z
     | None => True
     end.
Proof.
  intros Hnd Hlen saved.
  assert (Hsaved : saved = WindowRouter.mkWindowInfo (WindowRouter.workspace info)
                     (Js.mapGet Z.eqb (WindowRouter.monitorsByIndex monitors)
                                windowMonitor) focus).
  { unfold saved, WindowRouter.saveWindow.
    apply Nat.ltb_lt in Hlen. now rewrite Hlen. }
  assert (Hmon : forall d, WindowRouter.monitor saved = Some d ->
                           In (d, windowMonitor) monitors).
  { intros d. rewrite Hsaved. cbn [WindowRouter.monitor].
    unfold WindowRouter.monitorsByIndex. intros H.
    apply monitorsByIndex_In in H. destruct H as [H | H]; [discriminate | exact H]. }
  split; [now rewrite Hsaved|]. split; [now rewrite Hsaved|].
  split; [exact Hmon|].
  pose proof (route_known_monitor monitors saved windowMonitor windowWorkspace
                Hnd Hmon) as Hr.
  destruct (snd (WindowRouter.route monitors saved windowMonitor windowWorkspace))
    as [[tm target]|]; [|exact I].
  destruct Hr as [H1 [w [H2 H3]]]. split; [exact H1|]. exists w.
  split; [|exact H3]. rewrite <- H2. now rewrite Hsaved.
Qed.

Lemma saveWindow_route_same_monitor_witness :
  match snd (WindowRouter.route RouterSamples.twoMonitors
               (WindowRouter.saveWindow RouterSamples.twoMonitors
                  RouterSamples.onThird true 1%Z) 1%Z 0%Z) with
  | Some (targetMonitor, target) =>
      targetMonitor = 1%Z
      /\ exists w, WindowRouter.workspace RouterSamples.onThird = Some w
                   /\ target = Some w /\ (0 < w)%Z
  | None => True
  end.
Proof.
  apply (saveWindow_route_same_monitor RouterSamples.twoMonitors
           RouterSamples.onThird true 1%Z 0%Z).
  - unfold RouterSamples.twoMonitors. simpl.
    repeat constructor; simpl; intuition discriminate.
  - simpl. lia.
Defined.

(** ** The configuration of the taskbar *)

(** X30. The taskbar and its configuration.  [Config] connects one
    handler for each of the three settings keys of the taskbar, each
    after the default handler; it calls back exactly for the keys on
    which [#handleConfig] rerenders: for one of the three keys the
    callback is called with that key and [#handleConfig] is
    [#rerender], for any other key nothing is called, the values are
    left as they are and [#handleConfig] would do nothing. *)
Theorem taskbar_settings_changed (settings now : ConfigJs.Settings)
        (key : String.string) (tk : Toolkit) (t0 : Taskbar.t) :
  let l := ConfigJs.Config true (Some TaskbarConfig.ConfigFields)
             (Some settings) true in
  map fst (ConfigJs.values l) = map fst TaskbarConfig.ConfigFields
  /\ map Some (map fst (ConfigJs.valueMapping l))
     = map snd TaskbarConfig.ConfigFields
  /\ ConfigJs.signals l
     = flat_map (fun k => [ConfigJs.Changed k; ConfigJs.After])
                (map fst (ConfigJs.valueMapping l))
  /\ match snd (ConfigJs.valueHandler l now true key) with
     | Some k =>
         k = key
         /\ In (Some key) (map snd TaskbarConfig.ConfigFields)
         /\ TaskbarConfig.handleConfig tk t0 k = Taskbar.rerender tk t0
     | None =>
         ~ In (Some key) (map snd TaskbarConfig.ConfigFields)
         /\ fst (ConfigJs.valueHandler l now true key) = ConfigJs.values l
         /\ TaskbarConfig.handleConfig tk t0 key = t0
     end.
Proof.
  intros l.
  assert (Hl : l = ConfigJs.mkLocals
                 (map (fun e => (fst e, match snd e with
                                        | Some k => settings k
                                        | None => None
                                        end)) TaskbarConfig.ConfigFields)
                 (map (fun e => (match snd e with
                                 | Some k => k
                                 | None => String.EmptyString
                                 end, fst e)) TaskbarConfig.ConfigFields)
                 (flat_map (fun e => match snd e with
                                     | Some k => [ConfigJs.Changed k; ConfigJs.After]
                                     | None => []
                                     end) TaskbarConfig.ConfigFields))
    by reflexivity.
  split; [now rewrite Hl|]. split; [now rewrite Hl|]. split; [now rewrite Hl|].
  unfold ConfigJs.valueHandler, TaskbarConfig.handleConfig. rewrite Hl.
  cbn [ConfigJs.valueMapping ConfigJs.values map TaskbarConfig.ConfigFields
       fst snd Js.mapGet].
  do 3 (match goal with
        | |- context [String.eqb key ?k] =>
            let E := fresh "E" in
            destruct (String.eqb key k) eqn:E;
            [apply string_eqb_eq in E; subst key; cbn; auto 8|]
        end).
  cbn [fst snd orb]. split; [|split; reflexivity].
  intros [H | [H | [H | []]]]; injection H as H; subst key;
    rewrite String.eqb_refl in *; discriminate.
Qed.
